(** * Payment reconciliation of the admissions portal

    A shallow embedding of the payment part of [admissions/views.py]
    (with the records of [admissions/models.py] and the admin action of
    [admissions/admin.py]): signature checks, the three entry points
    that bring a gateway outcome into the local records, the apply step
    and the notifier. Further parts embed the view that starts a payment
    with a gateway, and the admission view and home page with the fee
    plans and batches of [admissions/models.py] and the form of
    [admissions/forms.py].

    Conventions of the model.
    - A Python [str] is a Rocq [string] holding its UTF-8 bytes.
      [str.upper] goes by the Unicode tables and is a parameter of the
      views; [hmac.compare_digest] raises [TypeError] on a str with a
      character out of ASCII; [str.lower], which the source applies to
      the names of the notification providers only, is modelled on
      ASCII text.
    - A nullable timestamp is an [option Z]; [timezone.now()] is an
      input of the request being served.
    - The database is a pair of tables, each a list of rows in primary
      key order; [save(update_fields=...)] copies the listed columns of
      the in-memory object into the rows with its primary key.
    - [urllib.request.urlopen] returns a response, raises [URLError]
      ([HTTPError] is a subclass) or raises an exception of another
      class (a timeout, or a connection closed while the response is
      awaited or read);
      which of these happens is an input of the request being served.
    - A created row gets a key above every key of its table, and every
      save is committed when it is made (Django's autocommit): a view
      that raises after a save leaves the row written. *)

From Stdlib Require Import ZArith NArith List Bool String Ascii Lia.
From Stdlib Require Import DecimalString.
Import ListNotations.
Open Scope string_scope.
Open Scope Z_scope.

(* ------------------------------------------------------------------ *)
(** ** Python strings *)

Module PyStr.

(** [bool(s)] of a str: the empty string is falsy. *)
Definition truthy (s : string) : bool :=
  match s with
  | EmptyString => false
  | String _ _ => true
  end.

Definition upper_char (c : ascii) : ascii :=
  let n := nat_of_ascii c in
  if (97 <=? n)%nat && (n <=? 122)%nat then ascii_of_nat (n - 32) else c.

Definition lower_char (c : ascii) : ascii :=
  let n := nat_of_ascii c in
  if (65 <=? n)%nat && (n <=? 90)%nat then ascii_of_nat (n + 32) else c.

Fixpoint map_chars (f : ascii -> ascii) (s : string) : string :=
  match s with
  | EmptyString => EmptyString
  | String c rest => String (f c) (map_chars f rest)
  end.

(** Case folding of the letters a to z and A to Z: what [s.upper()]
    and [s.lower()] do on ASCII text. On other text [str.upper] goes by
    the Unicode tables (long s becomes S), so the views take it as the
    function [str_upper] below. [lower] is used where the source
    compares [s.lower()] with twilio or cloud, which no character out
    of ASCII folds into. *)
Definition upper (s : string) : string := map_chars upper_char s.
Definition lower (s : string) : string := map_chars lower_char s.

(** [s.isascii()]: no byte of the text is above 127. *)
Fixpoint is_ascii (s : string) : bool :=
  match s with
  | EmptyString => true
  | String c rest => (nat_of_ascii c <? 128)%nat && is_ascii rest
  end.

(** [x in {...}] for a set literal of strings. *)
Definition mem (x : string) (set : list string) : bool :=
  existsb (String.eqb x) set.

(** [str(n)] of an int. *)
Definition of_Z (n : Z) : string := NilZero.string_of_int (Z.to_int n).

End PyStr.

(* ------------------------------------------------------------------ *)
(** ** [hashlib.sha256] and [hmac.new(..., hashlib.sha256)]

    The digests the source takes from the Python library, written out
    (FIPS 180-4 and RFC 2104) so that the signature checks can be run on
    concrete requests. 32-bit words are [N] with the wrap-around
    explicit. *)

Module Sha256.
Local Open Scope list_scope.
Local Open Scope N_scope.

Definition wrap (x : N) : N := x mod 2 ^ 32.
Definition add32 (x y : N) : N := wrap (x + y).
Definition not32 (x : N) : N := N.lxor x 0xffffffff.
Definition rotr (k x : N) : N :=
  N.lor (N.shiftr x k) (wrap (N.shiftl x (32 - k))).

Definition Ch (x y z : N) : N := N.lxor (N.land x y) (N.land (not32 x) z).
Definition Maj (x y z : N) : N :=
  N.lxor (N.lxor (N.land x y) (N.land x z)) (N.land y z).
Definition Sigma0 (x : N) : N :=
  N.lxor (N.lxor (rotr 2 x) (rotr 13 x)) (rotr 22 x).
Definition Sigma1 (x : N) : N :=
  N.lxor (N.lxor (rotr 6 x) (rotr 11 x)) (rotr 25 x).
Definition sigma0 (x : N) : N :=
  N.lxor (N.lxor (rotr 7 x) (rotr 18 x)) (N.shiftr x 3).
Definition sigma1 (x : N) : N :=
  N.lxor (N.lxor (rotr 17 x) (rotr 19 x)) (N.shiftr x 10).

(** The round constants and the initial hash value: the first 32 bits
    of the fractional parts of the cube roots of the first 64 primes,
    and of the square roots of the first 8. *)
Definition is_prime (n : nat) : bool :=
  forallb (fun d => negb (Nat.eqb (Nat.modulo n d) 0)) (seq 2 (n - 2)).

Definition primes (count : nat) : list N :=
  map N.of_nat (firstn count (filter is_prime (seq 2 400))).

Definition cube_root (n : N) : N :=
  fold_left
    (fun r b => let c := r + 2 ^ b in if c * c * c <=? n then c else r)
    (map N.of_nat (rev (seq 0 40))) 0.

Definition K : list N :=
  Eval vm_compute in
    map (fun p => wrap (cube_root (p * 2 ^ 96))) (primes 64).

Definition H0 : list N :=
  Eval vm_compute in map (fun p => wrap (N.sqrt (p * 2 ^ 64))) (primes 8).

(** Big-endian bytes of [x], [n] of them. *)
Fixpoint be_bytes (n : nat) (x : N) : list N :=
  match n with
  | O => []
  | S n' => be_bytes n' (x / 256) ++ [x mod 256]
  end.

Definition be_word (bs : list N) : N :=
  fold_left (fun acc b => acc * 256 + b) bs 0.

(** The message, the bit 1, zero bytes up to 56 modulo 64, and the
    length in bits on 8 bytes. *)
Definition pad (msg : list N) : list N :=
  let len := N.of_nat (List.length msg) in
  let zeros := N.to_nat ((119 - len mod 64) mod 64) in
  msg ++ [0x80] ++ repeat 0 zeros ++ be_bytes 8 (8 * len).

Fixpoint chunks (fuel size : nat) (bs : list N) : list (list N) :=
  match fuel, bs with
  | O, _ => []
  | _, [] => []
  | S fuel', _ => firstn size bs :: chunks fuel' size (skipn size bs)
  end.

(** The 64 words of the message schedule of one 64-byte block. *)
Fixpoint extend (n : nat) (w : list N) : list N :=
  match n with
  | O => w
  | S n' =>
      let t := List.length w in
      let at_ k := nth (t - k) w 0 in
      extend n'
        (w ++ [add32 (add32 (sigma1 (at_ 2%nat)) (at_ 7%nat))
                     (add32 (sigma0 (at_ 15%nat)) (at_ 16%nat))])
  end.

Definition schedule (block : list N) : list N :=
  extend 48 (map be_word (chunks 16 4 block)).

Definition round (st : list N) (kw : N * N) : list N :=
  match st with
  | [a; b; c; d; e; f; g; h] =>
      let t1 :=
        add32 (add32 (add32 h (Sigma1 e)) (add32 (Ch e f g) (fst kw)))
              (snd kw) in
      let t2 := add32 (Sigma0 a) (Maj a b c) in
      [add32 t1 t2; a; b; c; add32 d t1; e; f; g]
  | _ => st
  end.

Definition compress (h : list N) (block : list N) : list N :=
  let st := fold_left round (combine K (schedule block)) h in
  map (fun p => add32 (fst p) (snd p)) (combine h st).

Definition digest (msg : list N) : list N :=
  let padded := pad msg in
  let blocks := chunks (List.length padded) 64 padded in
  flat_map (be_bytes 4) (fold_left compress blocks H0).

Definition bytes_of_string (s : string) : list N :=
  map N_of_ascii (list_ascii_of_string s).

Definition hex_digit (d : N) : ascii :=
  if d <? 10 then ascii_of_N (48 + d) else ascii_of_N (87 + d).

Definition hex (bs : list N) : string :=
  string_of_list_ascii
    (flat_map (fun b => [hex_digit (b / 16); hex_digit (b mod 16)]) bs).

(** [hashlib.sha256(raw).hexdigest()] *)
Definition hexdigest (raw : string) : string :=
  hex (digest (bytes_of_string raw)).

(** [hmac.new(key, message, hashlib.sha256).hexdigest()] *)
Definition hmac_hexdigest (key message : string) : string :=
  let k := bytes_of_string key in
  let k := if (64 <? List.length k)%nat then digest k else k in
  let k := k ++ repeat 0 (64 - List.length k) in
  let inner := digest (map (N.lxor 0x36) k ++ bytes_of_string message) in
  hex (digest (map (N.lxor 0x5c) k ++ inner)).

End Sha256.

(* ------------------------------------------------------------------ *)
(** ** Python values and exceptions *)

(** What [json.loads] returns: [None], [bool], [int], [str], [list],
    [dict] (numbers with a fraction are left out). A [dict] is its list
    of items, looked up by the first item with the key. *)
#[local] Unset Elimination Schemes.
Inductive json : Type :=
| JNull
| JBool (b : bool)
| JNum (n : Z)
| JStr (s : string)
| JArr (items : list json)
| JObj (fields : list (string * json)).
#[local] Set Elimination Schemes.

Inductive exn : Type :=
| AttributeError
| TypeError
| JSONDecodeError
| IntegrityError
| DoesNotExist
| NoReverseMatch
| DisallowedRedirect
| ReadError
| RuntimeError (msg : string).
(** [ReadError] stands for what [urlopen] raises while the response is
    awaited or read: [TimeoutError], [http.client.RemoteDisconnected]
    and the like, none of them a [URLError]. *)


(* ------------------------------------------------------------------ *)
(** ** Records of [models.py] *)

Inductive FeeStatus : Type := Fee_PENDING | Fee_PAID.

Inductive PaymentStatus : Type := PENDING | PAID | FAILED.

Inductive PaymentMethod : Type := UPI | CASH | BANK | ONLINE.

Inductive PaymentGateway : Type := RAZORPAY | PHONEPE.

Definition PaymentStatus_eqb (a b : PaymentStatus) : bool :=
  match a, b with
  | PENDING, PENDING | PAID, PAID | FAILED, FAILED => true
  | _, _ => false
  end.

(** The columns of [Admission] the payment code reads or writes. The
    related object [payment.admission] is named by its primary key. *)
Record Admission : Type := mkAdmission {
  a_pk : Z;
  fee_amount : Z;
  fee_paid : Z;
  fee_status : FeeStatus
}.

(** [Payment]; a blank [gateway] or [method] is [None]. *)
Record Payment : Type := mkPayment {
  pk : Z;
  admission_id : Z;
  amount : Z;
  gateway : option PaymentGateway;
  status : PaymentStatus;
  method : option PaymentMethod;
  reference_id : string;
  order_id : string;
  payment_id : string;
  signature : string;
  gateway_response : string;
  notified_at : option Z;
  created_at : Z;
  paid_at : option Z
}.

(** Assignments to the attributes the payment code sets. *)
Definition set_gateway (v : option PaymentGateway) (p : Payment) : Payment :=
  mkPayment (pk p) (admission_id p) (amount p) v (status p) (method p)
    (reference_id p) (order_id p) (payment_id p) (signature p)
    (gateway_response p) (notified_at p) (created_at p) (paid_at p).

Definition set_status (v : PaymentStatus) (p : Payment) : Payment :=
  mkPayment (pk p) (admission_id p) (amount p) (gateway p) v (method p)
    (reference_id p) (order_id p) (payment_id p) (signature p)
    (gateway_response p) (notified_at p) (created_at p) (paid_at p).

Definition set_reference_id (v : string) (p : Payment) : Payment :=
  mkPayment (pk p) (admission_id p) (amount p) (gateway p) (status p)
    (method p) v (order_id p) (payment_id p) (signature p)
    (gateway_response p) (notified_at p) (created_at p) (paid_at p).

Definition set_payment_id (v : string) (p : Payment) : Payment :=
  mkPayment (pk p) (admission_id p) (amount p) (gateway p) (status p)
    (method p) (reference_id p) (order_id p) v (signature p)
    (gateway_response p) (notified_at p) (created_at p) (paid_at p).

Definition set_signature (v : string) (p : Payment) : Payment :=
  mkPayment (pk p) (admission_id p) (amount p) (gateway p) (status p)
    (method p) (reference_id p) (order_id p) (payment_id p) v
    (gateway_response p) (notified_at p) (created_at p) (paid_at p).

Definition set_gateway_response (v : string) (p : Payment) : Payment :=
  mkPayment (pk p) (admission_id p) (amount p) (gateway p) (status p)
    (method p) (reference_id p) (order_id p) (payment_id p) (signature p)
    v (notified_at p) (created_at p) (paid_at p).

Definition set_notified_at (v : option Z) (p : Payment) : Payment :=
  mkPayment (pk p) (admission_id p) (amount p) (gateway p) (status p)
    (method p) (reference_id p) (order_id p) (payment_id p) (signature p)
    (gateway_response p) v (created_at p) (paid_at p).

Definition set_paid_at (v : option Z) (p : Payment) : Payment :=
  mkPayment (pk p) (admission_id p) (amount p) (gateway p) (status p)
    (method p) (reference_id p) (order_id p) (payment_id p) (signature p)
    (gateway_response p) (notified_at p) (created_at p) v.

Definition set_fee_status (v : FeeStatus) (a : Admission) : Admission :=
  mkAdmission (a_pk a) (fee_amount a) (fee_paid a) v.

Definition set_fee_paid (v : Z) (a : Admission) : Admission :=
  mkAdmission (a_pk a) (fee_amount a) v (fee_status a).

(* ------------------------------------------------------------------ *)
(** ** The database and what a request does to the outside *)

(** Columns that occur in an [update_fields] list of the payment code. *)
Inductive PaymentField : Type :=
| F_gateway | F_payment_id | F_reference_id | F_gateway_response
| F_status | F_paid_at | F_signature | F_notified_at.

Inductive AdmissionField : Type := F_fee_status | F_fee_paid.

Inductive Channel : Type := SMS | WhatsApp.

Inductive Event : Type :=
| PaymentSaved (key : Z) (fields : list PaymentField)
| AdmissionSaved (key : Z) (fields : list AdmissionField)
| Dispatched (ch : Channel) (delivered : bool).

Record World : Type := mkWorld {
  payments : list Payment;
  admissions : list Admission;
  log : list Event
}.

Definition copy_field (f : PaymentField) (src dst : Payment) : Payment :=
  match f with
  | F_gateway => set_gateway (gateway src) dst
  | F_payment_id => set_payment_id (payment_id src) dst
  | F_reference_id => set_reference_id (reference_id src) dst
  | F_gateway_response => set_gateway_response (gateway_response src) dst
  | F_status => set_status (status src) dst
  | F_paid_at => set_paid_at (paid_at src) dst
  | F_signature => set_signature (signature src) dst
  | F_notified_at => set_notified_at (notified_at src) dst
  end.

Definition copy_fields (fs : list PaymentField) (src dst : Payment)
  : Payment :=
  fold_left (fun row f => copy_field f src row) fs dst.

(** [payment.save(update_fields=fs)] *)
Definition save_payment (payment : Payment) (fs : list PaymentField)
    (w : World) : World :=
  mkWorld
    (map (fun row =>
            if pk row =? pk payment then copy_fields fs payment row else row)
         (payments w))
    (admissions w)
    (log w ++ [PaymentSaved (pk payment) fs])%list.

(** [admission = payment.admission; admission.fee_status = "Paid";
    admission.fee_paid = payment.amount;
    admission.save(update_fields=["fee_status", "fee_paid"])] *)
Definition save_admission_paid (payment : Payment) (w : World) : World :=
  mkWorld
    (payments w)
    (map (fun row =>
            if a_pk row =? admission_id payment
            then set_fee_paid (amount payment) (set_fee_status Fee_PAID row)
            else row)
         (admissions w))
    (log w ++ [AdmissionSaved (admission_id payment)
                 [F_fee_status; F_fee_paid]])%list.

(** [Payment.objects.filter(order_id=key).first()] *)
Definition payment_by_order_id (key : string) (w : World) : option Payment :=
  find (fun p => String.eqb (order_id p) key) (payments w).

(** [Payment.objects.filter(admission_id=key).first()] *)
Definition payment_by_admission (key : Z) (w : World) : option Payment :=
  find (fun p => admission_id p =? key) (payments w).

(** What a piece of code ends with: a value, an exception raised with
    the state as it was when the code was entered, or an exception
    raised after writes or dispatches, with the state they have left. *)
Inductive result (A : Type) : Type :=
| Ok (a : A)
| Raise (e : exn)
| RaiseAfter (e : exn) (w : World).
Arguments Ok {A} a.
Arguments Raise {A} e.
Arguments RaiseAfter {A} e w.

Definition bind {A B} (c : result A) (k : A -> result B) : result B :=
  match c with
  | Ok a => k a
  | Raise e => Raise e
  | RaiseAfter e w => RaiseAfter e w
  end.

Notation "x <- c ;; k" := (bind c (fun x => k))
  (at level 61, c at next level, right associativity).

Module Py.

(** [bool(v)] *)
Definition truthy (v : json) : bool :=
  match v with
  | JNull => false
  | JBool b => b
  | JNum n => negb (n =? 0)
  | JStr s => PyStr.truthy s
  | JArr items => match items with [] => false | _ => true end
  | JObj fields => match fields with [] => false | _ => true end
  end.

Fixpoint assoc (key : string) (fields : list (string * json))
  : option json :=
  match fields with
  | [] => None
  | (k, v) :: rest => if String.eqb k key then Some v else assoc key rest
  end.

(** [d.get(key, default)]; on a value that is not a dict the attribute
    lookup fails. *)
Definition get (d : json) (key : string) (default : json) : result json :=
  match d with
  | JObj fields =>
      Ok (match assoc key fields with Some v => v | None => default end)
  | _ => Raise AttributeError
  end.

(** [a or b] *)
Definition or_ (a : json) (b : result json) : result json :=
  if truthy a then Ok a else b.

End Py.

(** [django.conf.settings], the names the payment code reads, with the
    defaults of its [getattr] calls taken when a name is not set. *)
Record Settings : Type := mkSettings {
  RAZORPAY_KEY_SECRET : string;
  PHONEPE_MERCHANT_ID : string;
  PHONEPE_SALT_KEY : string;
  PHONEPE_SALT_INDEX : string;
  PHONEPE_BASE_URL : string;
  PHONEPE_VERIFY_CALLBACK : bool;
  SEND_PAYMENT_NOTIFICATIONS : bool;
  SMS_PROVIDER : string;
  TWILIO_ACCOUNT_SID : string;
  TWILIO_AUTH_TOKEN : string;
  TWILIO_FROM_NUMBER : string;
  WHATSAPP_PROVIDER : string;
  WHATSAPP_PHONE_NUMBER_ID : string;
  WHATSAPP_ACCESS_TOKEN : string
}.

(** What [urllib.request.urlopen] does with a request: it returns a
    response, raises [HTTPError], raises another [URLError] (the request
    could not be sent), or raises an exception that is no [URLError]
    while the response is awaited or read. *)
Inductive urlopen_outcome : Type :=
| Responded (http_status : Z) (response_body : string)
| RaisedHTTPError (detail : string)
| RaisedURLError (reason : string)
| RaisedReadError.

(** The inputs of one request that come from outside the program: the
    clock readings of its [timezone.now()] calls and the outcome of each
    outbound call it may make. *)
Record Env : Type := mkEnv {
  now_paid_at : Z;
  now_notified_at : Z;
  sms_net : urlopen_outcome;
  whatsapp_net : urlopen_outcome;
  status_net : urlopen_outcome
}.

Inductive Level : Type := Info | Success | Warning | Error.

Inductive Route : Type :=
| Route_home
| Route_admission_success (admission_id : Z).

(** A view returns an [HttpResponse] or a redirect, the latter with the
    message it has queued for the user. *)
Inductive Response : Type :=
| HttpResponse (content : string) (http_status : Z)
| Redirect (target : Route) (level : Level) (message : string).

(* ------------------------------------------------------------------ *)
(** ** The payment code of [views.py] *)

Section Views.

(** Library functions the views call and the model leaves abstract:
    [repr] of a list or dict, [str.upper] (by the Unicode tables; on
    ASCII text it is [PyStr.upper]), [json.dumps], [json.loads] ([None]
    when it raises [JSONDecodeError]) and
    [base64.b64decode(s).decode("utf-8")] of a str ([None] when either
    step raises its [ValueError]). *)
Variable py_repr : json -> string.
Variable str_upper : string -> string.
Variable json_dumps : json -> string.
Variable json_loads : string -> option json.
Variable b64decode_utf8 : string -> option string.

Variable settings : Settings.

(** [str(v)], also what an f-string does with [v]. *)
Definition py_str (v : json) : string :=
  match v with
  | JNull => "None"
  | JBool true => "True"
  | JBool false => "False"
  | JNum n => PyStr.of_Z n
  | JStr s => s
  | JArr _ | JObj _ => py_repr v
  end.

(** What a [CharField] column stores for an assigned value
    ([get_prep_value]): the value's [str], and [NULL] for [None],
    which the column refuses when the row is saved. *)
Definition char_field (v : json) : result string :=
  match v with
  | JNull => Raise IntegrityError
  | _ => Ok (py_str v)
  end.

(** [hmac.compare_digest(a, b)] of two str: it compares ASCII text and
    raises [TypeError] when either has a character out of ASCII. *)
Definition compare_digest (a b : string) : result bool :=
  if PyStr.is_ascii a && PyStr.is_ascii b then Ok (String.eqb a b)
  else Raise TypeError.

(** *** Signature Verifier *)

Section Razorpay.
(** [hmac.new(key, message, hashlib.sha256).hexdigest()] *)
Variable hmac_new : string -> string -> string.

Definition _verify_razorpay_signature_with
    (order_id payment_id signature key_secret : string) : result bool :=
  if negb (PyStr.truthy order_id && PyStr.truthy payment_id
           && PyStr.truthy signature && PyStr.truthy key_secret)
  then Ok false
  else
    let message := order_id ++ "|" ++ payment_id in
    let generated := hmac_new key_secret message in
    compare_digest generated signature.
End Razorpay.

Definition _verify_razorpay_signature
    (order_id payment_id signature key_secret : string) : result bool :=
  _verify_razorpay_signature_with Sha256.hmac_hexdigest
    order_id payment_id signature key_secret.

Definition _phonepe_checksum
    (payload_b64 api_path salt_key salt_index : string) : string :=
  let raw := payload_b64 ++ api_path ++ salt_key in
  let digest := Sha256.hexdigest raw in
  digest ++ "###" ++ salt_index.

Definition _verify_phonepe_callback
    (response_b64 : json) (header_value : option string)
    (salt_key salt_index : string) : result bool :=
  match header_value with
  | None => Ok false
  | Some header_value =>
      if negb (PyStr.truthy header_value) then Ok false
      else
        let raw := py_str response_b64 ++ salt_key in
        let digest := Sha256.hexdigest raw in
        let expected := digest ++ "###" ++ salt_index in
        compare_digest expected header_value
  end.

(** *** Notifier *)

Definition _sms_configured : bool :=
  let provider := SMS_PROVIDER settings in
  if String.eqb (PyStr.lower provider) "twilio" then
    PyStr.truthy (TWILIO_ACCOUNT_SID settings)
    && PyStr.truthy (TWILIO_AUTH_TOKEN settings)
    && PyStr.truthy (TWILIO_FROM_NUMBER settings)
  else false.

Definition _whatsapp_configured : bool :=
  let provider := WHATSAPP_PROVIDER settings in
  if String.eqb (PyStr.lower provider) "cloud" then
    PyStr.truthy (WHATSAPP_PHONE_NUMBER_ID settings)
    && PyStr.truthy (WHATSAPP_ACCESS_TOKEN settings)
  else false.

(** [with urlopen(...) as response: return 200 <= response.status < 300]
    under [except urllib.error.URLError: return False]: whether the
    call returns [True]. *)
Definition succeeded (net : urlopen_outcome) : bool :=
  match net with
  | Responded st _ => (200 <=? st) && (st <? 300)
  | RaisedHTTPError _ | RaisedURLError _ | RaisedReadError => false
  end.

(** The call is logged with what it returned, and as not delivered
    when it raised; an exception raised while the response is read is
    not caught. *)
Definition dispatch (ch : Channel) (net : urlopen_outcome) (w : World)
  : result (bool * World) :=
  let delivered := succeeded net in
  let w :=
    mkWorld (payments w) (admissions w)
      (log w ++ [Dispatched ch delivered])%list in
  match net with
  | RaisedReadError => RaiseAfter ReadError w
  | _ => Ok (delivered, w)
  end.

Definition _send_sms_twilio (env : Env) (w : World)
  : result (bool * World) :=
  let account_sid := TWILIO_ACCOUNT_SID settings in
  let auth_token := TWILIO_AUTH_TOKEN settings in
  let from_number := TWILIO_FROM_NUMBER settings in
  if negb (PyStr.truthy account_sid) || negb (PyStr.truthy auth_token)
     || negb (PyStr.truthy from_number)
  then Ok (false, w)
  else dispatch SMS (sms_net env) w.

Definition _send_whatsapp_cloud (env : Env) (w : World)
  : result (bool * World) :=
  let phone_number_id := WHATSAPP_PHONE_NUMBER_ID settings in
  let access_token := WHATSAPP_ACCESS_TOKEN settings in
  if negb (PyStr.truthy phone_number_id) || negb (PyStr.truthy access_token)
  then Ok (false, w)
  else dispatch WhatsApp (whatsapp_net env) w.

Definition _send_sms (env : Env) (w : World) : result (bool * World) :=
  let provider := PyStr.lower (SMS_PROVIDER settings) in
  if String.eqb provider "twilio" then _send_sms_twilio env w
  else Ok (false, w).

Definition _send_whatsapp (env : Env) (w : World)
  : result (bool * World) :=
  let provider := PyStr.lower (WHATSAPP_PROVIDER settings) in
  if String.eqb provider "cloud" then _send_whatsapp_cloud env w
  else Ok (false, w).

(** The text of the message and the number it goes to do not bear on
    what is written, and are not modelled. *)
Definition _maybe_send_payment_notifications
    (env : Env) (payment : Payment) (w : World)
  : result (Payment * World) :=
  if negb (SEND_PAYMENT_NOTIFICATIONS settings) then Ok (payment, w)
  else
    match notified_at payment with
    | Some _ => Ok (payment, w)
    | None =>
        sms <- (if _sms_configured then _send_sms env w
                else Ok (false, w)) ;;
        let '(sms_sent, w) := sms in
        whatsapp <- (if _whatsapp_configured then _send_whatsapp env w
                     else Ok (false, w)) ;;
        let '(whatsapp_sent, w) := whatsapp in
        if sms_sent || whatsapp_sent then
          let payment :=
            set_notified_at (Some (now_notified_at env)) payment in
          Ok (payment, save_payment payment [F_notified_at] w)
        else Ok (payment, w)
    end.

(** *** Payment Reconciler *)

Definition _map_phonepe_status (state response_code : json)
  : PaymentStatus :=
  let state_upper := str_upper (py_str state) in
  let code_upper := str_upper (py_str response_code) in
  if PyStr.mem state_upper ["COMPLETED"; "SUCCESS"]
     || PyStr.mem code_upper ["PAYMENT_SUCCESS"; "SUCCESS"]
  then PAID
  else if PyStr.mem state_upper ["FAILED"; "ERROR"]
          || PyStr.mem code_upper ["PAYMENT_ERROR"; "FAILED"]
  then FAILED
  else PENDING.

(** The fields [_update_payment_from_phonepe] reads from the decoded
    payload, in the order of the source. The two values that go into
    [CharField] columns are converted here; Python raises for them in
    the [save] that follows, before anything is written. *)
Definition decoded_fields (decoded : json)
  : result (json * json * string * string) :=
  transaction_data <- Py.get decoded "data" (JObj []) ;;
  state0 <- Py.get transaction_data "state" JNull ;;
  state <- Py.or_ state0 (Py.get decoded "state" (JStr "")) ;;
  code0 <- Py.get transaction_data "responseCode" JNull ;;
  response_code <- Py.or_ code0 (Py.get decoded "code" (JStr "")) ;;
  payment_id <- Py.get transaction_data "transactionId" (JStr "") ;;
  utr <- Py.get transaction_data "utr" (JStr "") ;;
  reference_id <-
    Py.or_ utr (Py.get transaction_data "providerReferenceId" (JStr "")) ;;
  payment_id <- char_field payment_id ;;
  reference_id <- char_field reference_id ;;
  Ok (state, response_code, payment_id, reference_id).

Definition _update_payment_from_phonepe
    (env : Env) (payment : Payment) (decoded : json) (w : World)
  : result (Payment * World) :=
  fields <- decoded_fields decoded ;;
  let '(state, response_code, payment_id, reference_id) := fields in
  let payment := set_gateway (Some PHONEPE) payment in
  let payment := set_payment_id payment_id payment in
  let payment := set_reference_id reference_id payment in
  let payment := set_gateway_response (json_dumps decoded) payment in
  let status := _map_phonepe_status state response_code in
  let payment := set_status status payment in
  let payment :=
    if PaymentStatus_eqb status PAID
    then set_paid_at (Some (now_paid_at env)) payment
    else payment in
  let w :=
    save_payment payment
      [F_gateway; F_payment_id; F_reference_id; F_gateway_response;
       F_status; F_paid_at] w in
  if PaymentStatus_eqb status PAID then
    let w := save_admission_paid payment w in
    _maybe_send_payment_notifications env payment w
  else Ok (payment, w).

(** **** Redirect-verify *)

Record VerifyRequest : Type := mkVerifyRequest {
  razorpay_order_id : string;
  razorpay_payment_id : string;
  razorpay_signature : string
}.

Definition payment_verify
    (env : Env) (request : VerifyRequest) (w : World)
  : result (Response * World) :=
  let order_id := razorpay_order_id request in
  let payment_id := razorpay_payment_id request in
  let signature := razorpay_signature request in
  match payment_by_order_id order_id w with
  | None => Ok (Redirect Route_home Error "Payment record not found.", w)
  | Some payment =>
      let key_secret := RAZORPAY_KEY_SECRET settings in
      verified <-
        _verify_razorpay_signature order_id payment_id signature
          key_secret ;;
      if negb verified
      then
        let payment := set_status FAILED payment in
        let payment := set_payment_id payment_id payment in
        let payment := set_signature signature payment in
        let w := save_payment payment
                   [F_status; F_payment_id; F_signature] w in
        Ok (Redirect (Route_admission_success (admission_id payment))
              Error "Payment verification failed.", w)
      else
        let payment := set_status PAID payment in
        let payment := set_payment_id payment_id payment in
        let payment := set_signature signature payment in
        let payment := set_paid_at (Some (now_paid_at env)) payment in
        let w := save_payment payment
                   [F_status; F_payment_id; F_signature; F_paid_at] w in
        let w := save_admission_paid payment w in
        notified <- _maybe_send_payment_notifications env payment w ;;
        let '(payment, w) := notified in
        Ok (Redirect (Route_admission_success (admission_id payment))
              Success "Payment successful.", w)
  end.

(** **** Webhook callback *)

Record CallbackRequest : Type := mkCallbackRequest {
  body : string;
  x_verify : option string
}.

(** The callback up to its database lookup: the response it returns
    early, or the merchant transaction id with the decoded envelope. *)
Definition callback_envelope (request : CallbackRequest)
  : result (Response + json * json) :=
  let raw_body := body request in
  match json_loads raw_body with
  | None => Ok (inl (HttpResponse "Invalid payload" 400))
  | Some data =>
      response_b64 <- Py.get data "response" JNull ;;
      if negb (Py.truthy response_b64)
      then Ok (inl (HttpResponse "Missing response" 400))
      else
        let merchant_id := PHONEPE_MERCHANT_ID settings in
        let salt_key := PHONEPE_SALT_KEY settings in
        let salt_index := PHONEPE_SALT_INDEX settings in
        if negb (PyStr.truthy merchant_id) || negb (PyStr.truthy salt_key)
           || negb (PyStr.truthy salt_index)
        then Ok (inl (HttpResponse "PhonePe not configured" 400))
        else
          mismatch <-
            (if PHONEPE_VERIFY_CALLBACK settings
             then
               verified <-
                 _verify_phonepe_callback response_b64 (x_verify request)
                   salt_key salt_index ;;
               Ok (negb verified)
             else Ok false) ;;
          if mismatch
          then Ok (inl (HttpResponse "Signature mismatch" 400))
          else
            match response_b64 with
            | JStr b64 =>
                match option_map json_loads (b64decode_utf8 b64) with
                | Some (Some decoded) =>
                    transaction_data <- Py.get decoded "data" (JObj []) ;;
                    merchant_txn_id <-
                      Py.get transaction_data "merchantTransactionId"
                        JNull ;;
                    if negb (Py.truthy merchant_txn_id)
                    then Ok (inl (HttpResponse "Missing transaction" 400))
                    else Ok (inr (merchant_txn_id, decoded))
                | _ => Ok (inl (HttpResponse "Invalid response data" 400))
                end
            | _ => Raise TypeError
            end
  end.

Definition phonepe_callback
    (env : Env) (request : CallbackRequest) (w : World)
  : result (Response * World) :=
  envelope <- callback_envelope request ;;
  match envelope with
  | inl response => Ok (response, w)
  | inr (merchant_txn_id, decoded) =>
      match payment_by_order_id (py_str merchant_txn_id) w with
      | None => Ok (HttpResponse "Payment not found" 404, w)
      | Some payment =>
          updated <- _update_payment_from_phonepe env payment decoded w ;;
          Ok (HttpResponse "OK" 200, snd updated)
      end
  end.

(** **** Status poll *)

(** The request it sends (the status path and its [X-VERIFY]
    checksum) leaves no trace in the state and is not modelled. *)
Definition _phonepe_fetch_status
    (env : Env) (merchant_transaction_id : string) : result json :=
  let merchant_id := PHONEPE_MERCHANT_ID settings in
  let salt_key := PHONEPE_SALT_KEY settings in
  let salt_index := PHONEPE_SALT_INDEX settings in
  let base_url := PHONEPE_BASE_URL settings in
  if negb (PyStr.truthy merchant_id) || negb (PyStr.truthy salt_key)
     || negb (PyStr.truthy salt_index) || negb (PyStr.truthy base_url)
  then Raise (RuntimeError "PhonePe settings are missing in settings.py.")
  else
    match status_net env with
    | Responded _ response_body =>
        match json_loads response_body with
        | Some response => Ok response
        | None => Raise JSONDecodeError
        end
    | RaisedHTTPError detail =>
        Raise (RuntimeError ("PhonePe status failed: " ++ detail))
    | RaisedURLError exc =>
        Raise (RuntimeError ("PhonePe connection failed: " ++ exc))
    | RaisedReadError => Raise ReadError
    end.

Definition phonepe_status_check
    (env : Env) (admission_id : Z) (w : World)
  : result (Response * World) :=
  let not_found :=
    Redirect (Route_admission_success admission_id)
      Warning "PhonePe payment not found for this admission." in
  match payment_by_admission admission_id w with
  | None => Ok (not_found, w)
  | Some payment =>
      if negb (PyStr.truthy (order_id payment)) then Ok (not_found, w)
      else
        match _phonepe_fetch_status env (order_id payment) with
        | Raise (RuntimeError exc) =>
            Ok (Redirect (Route_admission_success admission_id) Error exc,
                w)
        | Raise e => Raise e
        | RaiseAfter e w => RaiseAfter e w
        | Ok response =>
            updated <-
              _update_payment_from_phonepe env payment response w ;;
            Ok (Redirect (Route_admission_success admission_id)
                  Info "PhonePe status updated.", snd updated)
        end
  end.

(** **** The two other places that stamp [paid_at] *)

(** [admission_success], the part that writes: a Paid payment without
    a [paid_at] gets one. *)
Definition admission_success (env : Env) (admission_id : Z) (w : World)
  : result World :=
  match find (fun a => a_pk a =? admission_id) (admissions w) with
  | None => Raise DoesNotExist
  | Some admission =>
      match payment_by_admission (a_pk admission) w with
      | Some payment =>
          match status payment, paid_at payment with
          | PAID, None =>
              let payment :=
                set_paid_at (Some (now_paid_at env)) payment in
              Ok (save_payment payment [F_paid_at] w)
          | _, _ => Ok w
          end
      | None => Ok w
      end
  end.

(** [PaymentAdmin.mark_paid] of [admin.py], for one payment of the
    queryset. *)
Definition mark_paid_payment (env : Env) (w : World) (payment : Payment)
  : World :=
  let payment := set_status PAID payment in
  let payment :=
    match paid_at payment with
    | None => set_paid_at (Some (now_paid_at env)) payment
    | Some _ => payment
    end in
  let w := save_payment payment [F_status; F_paid_at] w in
  save_admission_paid payment w.

Definition mark_paid (env : Env) (queryset : list Payment) (w : World)
  : World :=
  fold_left (mark_paid_payment env) queryset w.

(** **** Sequences of reconciliation requests *)

Inductive Op : Type :=
| Op_verify (env : Env) (request : VerifyRequest)
| Op_callback (env : Env) (request : CallbackRequest)
| Op_poll (env : Env) (admission_id : Z).

(** The state a request leaves, also when it ends in an exception. *)
Definition left_by {A : Type} (r : result (A * World)) (w : World)
  : World :=
  match r with
  | Ok (_, w') => w'
  | Raise _ => w
  | RaiseAfter _ w' => w'
  end.

Definition run_op (w : World) (op : Op) : World :=
  match op with
  | Op_verify env request => left_by (payment_verify env request w) w
  | Op_callback env request => left_by (phonepe_callback env request w) w
  | Op_poll env admission_id =>
      left_by (phonepe_status_check env admission_id w) w
  end.

Definition run_ops (ops : list Op) (w : World) : World :=
  fold_left run_op ops w.

End Views.

(* ------------------------------------------------------------------ *)
(** ** Requests and states of the examples

    The scenario of the specification: admission 42 owes 1500, its
    payment has order id ADM42171700000001, and the gateway reports
    COMPLETED (or FAILED) for it. *)

Module Sample.

Definition settings0 : Settings :=
  mkSettings "rzp-secret" "MERCHANT1" "salt-key-1" "1"
    "https://api.phonepe.example" true true
    "twilio" "AC0001" "twilio-token" "+15005550006" "" "" "".

(** Settings without the Razorpay secret. *)
Definition settings_no_secret : Settings :=
  mkSettings "" "MERCHANT1" "salt-key-1" "1"
    "https://api.phonepe.example" true true
    "twilio" "AC0001" "twilio-token" "+15005550006" "" "" "".

Definition outcome (state : string) : json :=
  JObj [("data",
         JObj [("merchantTransactionId", JStr "ADM42171700000001");
               ("state", JStr state);
               ("transactionId", JStr "T1");
               ("utr", JStr "U1")])].

Definition decoded_paid : json := outcome "COMPLETED".
Definition decoded_failed : json := outcome "FAILED".

(** The base64 envelopes of the two outcomes. *)
Definition b64_paid : string :=
  "eyJkYXRhIjp7Im1lcmNoYW50VHJhbnNhY3Rpb25JZCI6IkFETTQyMTcxNzAwMDAwMDAxIiwic3RhdGUiOiJDT01QTEVURUQiLCJ0cmFuc2FjdGlvbklkIjoiVDEiLCJ1dHIiOiJVMSJ9fQ==".
Definition b64_failed : string :=
  "eyJkYXRhIjp7Im1lcmNoYW50VHJhbnNhY3Rpb25JZCI6IkFETTQyMTcxNzAwMDAwMDAxIiwic3RhdGUiOiJGQUlMRUQiLCJ0cmFuc2FjdGlvbklkIjoiVDEiLCJ1dHIiOiJVMSJ9fQ==".

Definition quote : string := String "034"%char "".

(** The body of a callback: a JSON object with the envelope under
    [response]. *)
Definition body_of (b64 : string) : string :=
  "{" ++ quote ++ "response" ++ quote ++ ":" ++ quote ++ b64 ++ quote ++ "}".

(** Stand-ins for the library functions on the texts above: each text
    is mapped to the value Python decodes it to (the decoded text of an
    envelope is named by the envelope), and the words of the examples,
    which are ASCII, are upper-cased as ASCII text. *)
Definition py_repr0 (v : json) : string := "<repr>".
Definition str_upper0 (s : string) : string := PyStr.upper s.
Definition json_dumps0 (v : json) : string := "<json>".
Definition b64decode_utf8_0 (s : string) : option string :=
  if String.eqb s b64_paid || String.eqb s b64_failed then Some s else None.
Definition json_loads0 (s : string) : option json :=
  if String.eqb s (body_of b64_paid)
  then Some (JObj [("response", JStr b64_paid)])
  else if String.eqb s (body_of b64_failed)
  then Some (JObj [("response", JStr b64_failed)])
  else if String.eqb s b64_paid then Some decoded_paid
  else if String.eqb s b64_failed then Some decoded_failed
  else None.

Definition payment0 : Payment :=
  mkPayment 1 42 1500 (Some PHONEPE) PENDING (Some ONLINE)
    "" "ADM42171700000001" "" "" "" None 1000 None.

Definition admission0 : Admission := mkAdmission 42 1500 0 Fee_PENDING.

Definition w0 : World := mkWorld [payment0] [admission0] [].

(** The same payment once it is Paid, stamped at 2000 and notified. *)
Definition payment_paid : Payment :=
  mkPayment 1 42 1500 (Some PHONEPE) PAID (Some ONLINE)
    "U1" "ADM42171700000001" "T1" "" "<json>" (Some 2001) 1000 (Some 2000).

Definition w_paid : World :=
  mkWorld [payment_paid] [mkAdmission 42 1500 1500 Fee_PAID] [].

(** A Razorpay order of the same admission. *)
Definition payment_rzp : Payment :=
  mkPayment 1 42 1500 (Some RAZORPAY) PENDING (Some ONLINE)
    "" "order_N1" "" "" "" None 1000 None.

Definition w_rzp : World := mkWorld [payment_rzp] [admission0] [].

(** The Razorpay order once it is Paid. *)
Definition payment_rzp_paid : Payment :=
  mkPayment 1 42 1500 (Some RAZORPAY) PAID (Some ONLINE)
    "" "order_N1" "pay_N1"
    "be11b327005211d24fb507d6cc05bcd5966190b7399c0473aaae9f9e426e3e03"
    "" (Some 2001) 1000 (Some 2000).

Definition w_rzp_paid : World :=
  mkWorld [payment_rzp_paid] [mkAdmission 42 1500 1500 Fee_PAID] [].

Definition up : urlopen_outcome := Responded 201 "".
Definition down : urlopen_outcome := RaisedURLError "unreachable".

(** Settings with both channels configured. *)
Definition settings_both : Settings :=
  mkSettings "rzp-secret" "MERCHANT1" "salt-key-1" "1"
    "https://api.phonepe.example" true true
    "twilio" "AC0001" "twilio-token" "+15005550006"
    "cloud" "1055" "whatsapp-token".

(** A request served at time [t] with the SMS dispatch answered and the
    answer to the WhatsApp dispatch lost while it is read. *)
Definition env_lost (t : Z) : Env :=
  mkEnv t (t + 1) up RaisedReadError (Responded 200 "").


(** A request served at time [t], with the SMS channel as given and
    the gateway answering a poll with the text [answer]. *)
Definition env_at (t : Z) (sms : urlopen_outcome) (answer : string) : Env :=
  mkEnv t (t + 1) sms down (Responded 200 answer).

Definition x_verify_of (b64 : string) : option string :=
  Some (Sha256.hexdigest (b64 ++ "salt-key-1") ++ "###1").

Definition callback_paid : CallbackRequest :=
  mkCallbackRequest (body_of b64_paid) (x_verify_of b64_paid).
Definition callback_failed : CallbackRequest :=
  mkCallbackRequest (body_of b64_failed) (x_verify_of b64_failed).

(** Redirects for order_N1: signed with the secret of the settings, and
    signed with another secret. *)
Definition redirect_valid : VerifyRequest :=
  mkVerifyRequest "order_N1" "pay_N1"
    (Sha256.hmac_hexdigest "rzp-secret" "order_N1|pay_N1").
Definition redirect_tampered : VerifyRequest :=
  mkVerifyRequest "order_N1" "pay_N1"
    (Sha256.hmac_hexdigest "wrong-secret" "order_N1|pay_N1").

End Sample.

(* ------------------------------------------------------------------ *)
(** ** Notions used in the statements *)

Arguments save_payment : simpl never.
Arguments save_admission_paid : simpl never.

(** Every row with primary key [key] (there is one) satisfies [P]. *)
Definition stored (w : World) (key : Z) (P : Payment -> Prop) : Prop :=
  (exists row, In row (payments w) /\ pk row = key)
  /\ forall row, In row (payments w) -> pk row = key -> P row.

(** The columns no save of the payment code writes. *)
Definition same_keys (p q : Payment) : Prop :=
  pk q = pk p /\ admission_id q = admission_id p /\ amount q = amount p
  /\ order_id q = order_id p /\ method q = method p
  /\ created_at q = created_at p.

(** The world with more events in its log and the same tables. *)
Definition add_log (evs : list Event) (w : World) : World :=
  mkWorld (payments w) (admissions w) (log w ++ evs)%list.

(** The call raises while the response is read. *)
Definition raised (net : urlopen_outcome) : bool :=
  match net with
  | RaisedReadError => true
  | _ => false
  end.

(** A dispatch of the notifier raises: that of a configured channel. *)
Definition cut_short (settings : Settings) (env : Env) : bool :=
  (_sms_configured settings && raised (sms_net env))
  || (_whatsapp_configured settings && raised (whatsapp_net env)).

(** At least one configured channel reports a successful dispatch. *)
Definition reported (settings : Settings) (env : Env) : bool :=
  (_sms_configured settings && succeeded (sms_net env))
  || (_whatsapp_configured settings && succeeded (whatsapp_net env)).

(** The notifier gets to its stamp: a configured channel reports a
    successful dispatch and no dispatch raises. *)
Definition delivered (settings : Settings) (env : Env) : bool :=
  reported settings env && negb (cut_short settings env).

(** The dispatches a notification makes: one for each configured
    channel, up to the first that raises. *)
Definition dispatches (settings : Settings) (env : Env) : list Event :=
  ((if _sms_configured settings
    then [Dispatched SMS (succeeded (sms_net env))] else [])
   ++ (if _sms_configured settings && raised (sms_net env) then []
       else if _whatsapp_configured settings
       then [Dispatched WhatsApp (succeeded (whatsapp_net env))]
       else []))%list.

(** The payment object after the assignments of
    [_update_payment_from_phonepe]. *)
Definition applied (new_status : PaymentStatus) (pid ref response : string)
    (now : Z) (payment : Payment) : Payment :=
  let payment :=
    set_status new_status
      (set_gateway_response response
         (set_reference_id ref
            (set_payment_id pid (set_gateway (Some PHONEPE) payment)))) in
  if PaymentStatus_eqb new_status PAID then set_paid_at (Some now) payment
  else payment.

(** The [update_fields] of its save. *)
Definition phonepe_fields : list PaymentField :=
  [F_gateway; F_payment_id; F_reference_id; F_gateway_response;
   F_status; F_paid_at].

(** Whether a call of the notifier for [payment] makes its dispatches,
    and whether it stamps [notified_at]. *)
Definition attempts (settings : Settings) (env : Env) (payment : Payment)
  : list Event :=
  if SEND_PAYMENT_NOTIFICATIONS settings
  then match notified_at payment with
       | None => dispatches settings env
       | Some _ => []
       end
  else [].

Definition stamps (settings : Settings) (env : Env) (payment : Payment)
  : bool :=
  SEND_PAYMENT_NOTIFICATIONS settings
  && match notified_at payment with
     | None => delivered settings env
     | Some _ => false
     end.

(** A call of the notifier for [payment] is left by an exception. *)
Definition interrupted (settings : Settings) (env : Env) (payment : Payment)
  : bool :=
  SEND_PAYMENT_NOTIFICATIONS settings
  && match notified_at payment with
     | None => cut_short settings env
     | Some _ => false
     end.

(** The payment object and the state a call of the notifier ends with,
    also when it is left by an exception. *)
Definition notify_step (settings : Settings) (env : Env) (payment : Payment)
    (w : World) : Payment * World :=
  if stamps settings env payment
  then
    (set_notified_at (Some (now_notified_at env)) payment,
     save_payment (set_notified_at (Some (now_notified_at env)) payment)
       [F_notified_at] (add_log (attempts settings env payment) w))
  else (payment, add_log (attempts settings env payment) w).

(** What code ends with that has come to the value [a] and the state
    [w]: these, or the exception of the dispatch that raised. *)
Definition ended {A : Type} (stopped : bool) (a : A) (w : World)
  : result (A * World) :=
  if stopped then RaiseAfter ReadError w else Ok (a, w).

(** A result that leaves no state behind: a value, or an exception
    raised before anything is written. *)
Definition stateless {A : Type} (r : result A) : Prop :=
  match r with
  | RaiseAfter _ _ => False
  | _ => True
  end.

(** A step for goals on [stateless]: by cases on the test at the head
    of the code. *)
Ltac split_if :=
  match goal with
  | |- stateless (if ?c then _ else _) => destruct c
  | |- stateless (match ?c with Some _ => _ | None => _ end) => destruct c
  end.

(** The payment with its two timestamps cleared: what must not change
    when a Paid outcome is replayed. *)
Definition forget_stamps (p : Payment) : Payment :=
  set_paid_at None (set_notified_at None p).

(** The apply step for a payload that maps to Paid. *)
Definition paid_step (settings : Settings) (env : Env) (pid ref resp : string)
    (payment : Payment) (w : World) : Payment * World :=
  let p1 := applied PAID pid ref resp (now_paid_at env) payment in
  notify_step settings env p1
    (save_admission_paid p1 (save_payment p1 phonepe_fields w)).

(** The two saves of a Paid outcome. *)
Definition paid_writes (payment : Payment) : list Event :=
  [PaymentSaved (pk payment) phonepe_fields;
   AdmissionSaved (admission_id payment) [F_fee_status; F_fee_paid]].

(** Primary keys are unique, and so is the admission of a payment (the
    one-to-one field). *)
Definition keyed (w : World) : Prop :=
  NoDup (map pk (payments w)) /\ NoDup (map admission_id (payments w)).

(** A Paid payment has an admission whose fee is Paid, and an admission
    whose fee is Paid has paid the amount of its payment. *)
Definition consistent (w : World) : Prop :=
  forall p a,
    In p (payments w) -> In a (admissions w) -> a_pk a = admission_id p ->
    (status p = PAID -> fee_status a = Fee_PAID)
    /\ (fee_status a = Fee_PAID -> fee_paid a = amount p).

(** Both together: what every reconciliation request preserves. *)
Definition sound (w : World) : Prop := keyed w /\ consistent w.

(** What the save of a Paid payment's admission makes of a row. *)
Definition mark_admission (payment : Payment) (row : Admission)
  : Admission :=
  if a_pk row =? admission_id payment
  then set_fee_paid (amount payment) (set_fee_status Fee_PAID row)
  else row.

(** The answers with which the callback turns a request away. *)
Definition callback_rejections : list Response :=
  [HttpResponse "Invalid payload" 400;
   HttpResponse "Missing response" 400;
   HttpResponse "PhonePe not configured" 400;
   HttpResponse "Signature mismatch" 400;
   HttpResponse "Invalid response data" 400;
   HttpResponse "Missing transaction" 400;
   HttpResponse "Payment not found" 404].

(** A row after a request that may write the payment with key [key]:
    its key columns are kept, and so is the whole row when its key is
    another. *)
Definition row_kept (key : Z) (r r' : Payment) : Prop :=
  same_keys r r' /\ (pk r <> key -> r' = r).

Definition admission_kept (key : Z) (a a' : Admission) : Prop :=
  a_pk a' = a_pk a /\ fee_amount a' = fee_amount a
  /\ (a_pk a <> key -> a' = a).

(** The tables of [w'] are those of [w] but for the payment [key] and
    the admission [akey]. *)
Definition touched (key akey : Z) (w w' : World) : Prop :=
  Forall2 (row_kept key) (payments w) (payments w')
  /\ Forall2 (admission_kept akey) (admissions w) (admissions w').

(** The columns of a payment that identify it and say what is owed. *)
Definition key_columns (p : Payment) : Z * Z * Z * string :=
  (pk p, admission_id p, amount p, order_id p).

Definition is_dict (v : json) : bool :=
  match v with
  | JObj _ => true
  | _ => false
  end.

(** [decoded.get("data", {})] of a dict. *)
Definition payload_data (fields : list (string * json)) : json :=
  match Py.assoc "data" fields with
  | Some v => v
  | None => JObj []
  end.

(** [d.get(key, "")] of the items of a dict. *)
Definition item_or_blank (key : string) (items : list (string * json))
  : json :=
  match Py.assoc key items with
  | Some v => v
  | None => JStr ""
  end.

(** The [paid_at] a payment has after it is marked Paid at [now]. *)
Definition paid_at_kept (now : Z) (p : Payment) : option Z :=
  match paid_at p with
  | Some t => Some t
  | None => Some now
  end.

(* ------------------------------------------------------------------ *)
(** ** Starting a payment: [start_payment] and the gateway calls

    The views that open a payment with a gateway. Their writes show in
    the tables; the log of events stays that of the reconciliation
    code. What a view sends out is returned with its result, and
    [urlopen] answers as a function of the request. *)

(** The joined [admission.student]. *)
Record Student : Type := mkStudent {
  s_pk : Z;
  mobile : string
}.

(** The names [start_payment] reads from the settings beyond those of
    [Settings]; [PAYMENT_GATEWAY] is Razorpay when not set. *)
Record GatewaySettings : Type := mkGatewaySettings {
  PAYMENT_GATEWAY : string;
  RAZORPAY_KEY_ID : string
}.

(** [urllib.request.Request(url, data=..., headers=..., method=...)] *)
Record HttpRequest : Type := mkHttpRequest {
  url : string;
  http_method : string;
  headers : list (string * string);
  data : option string
}.

(** The inputs of one [start_payment] request from outside the program:
    the gateway's answers, [int(time.time())], the time a created row
    is stamped with, and what [request.build_absolute_uri] puts before
    a path. *)
Record StartEnv : Type := mkStartEnv {
  urlopen : HttpRequest -> urlopen_outcome;
  time_time : Z;
  now_created_at : Z;
  site : string
}.

(** What [start_payment] returns: a redirect to the success page with a
    message, a redirect to the location [django.shortcuts.redirect]
    makes of the gateway's pay-page URL, or the checkout page with the
    Razorpay key, amount and order id of its context. *)
Inductive StartResponse : Type :=
| Start_redirect (target : Route) (level : Level) (message : string)
| Start_gateway (location : string)
| Start_checkout (razorpay_key_id : string) (razorpay_amount : Z)
    (razorpay_order_id : string).

Definition set_order_id (v : string) (p : Payment) : Payment :=
  mkPayment (pk p) (admission_id p) (amount p) (gateway p) (status p)
    (method p) (reference_id p) v (payment_id p) (signature p)
    (gateway_response p) (notified_at p) (created_at p) (paid_at p).

Definition set_amount (v : Z) (p : Payment) : Payment :=
  mkPayment (pk p) (admission_id p) v (gateway p) (status p)
    (method p) (reference_id p) (order_id p) (payment_id p) (signature p)
    (gateway_response p) (notified_at p) (created_at p) (paid_at p).

Definition set_method (v : option PaymentMethod) (p : Payment) : Payment :=
  mkPayment (pk p) (admission_id p) (amount p) (gateway p) (status p)
    v (reference_id p) (order_id p) (payment_id p) (signature p)
    (gateway_response p) (notified_at p) (created_at p) (paid_at p).

(** The columns of the [update_fields] lists of [start_payment] and
    [_start_phonepe_payment]. *)
Inductive StartField : Type :=
| S_gateway | S_order_id | S_amount | S_method | S_status
| S_gateway_response.

Definition copy_start_field (f : StartField) (src dst : Payment)
  : Payment :=
  match f with
  | S_gateway => set_gateway (gateway src) dst
  | S_order_id => set_order_id (order_id src) dst
  | S_amount => set_amount (amount src) dst
  | S_method => set_method (method src) dst
  | S_status => set_status (status src) dst
  | S_gateway_response => set_gateway_response (gateway_response src) dst
  end.

(** [payment.save(update_fields=fs)] for these columns. *)
Definition save_payment_start (payment : Payment) (fs : list StartField)
    (w : World) : World :=
  mkWorld
    (map (fun row =>
            if pk row =? pk payment
            then fold_left (fun r f => copy_start_field f payment r) fs row
            else row)
         (payments w))
    (admissions w)
    (log w).

(** The key of a created row: one more than the largest in use. *)
Definition next_pk (w : World) : Z :=
  1 + fold_right Z.max 0 (map pk (payments w)).

(** [Payment.objects.create(admission=admission,
    amount=admission.fee_amount, status=PaymentStatus.PENDING)] *)
Definition create_payment (created : Z) (admission : Admission) (w : World)
  : Payment * World :=
  let payment :=
    mkPayment (next_pk w) (a_pk admission) (fee_amount admission) None
      PENDING None "" "" "" "" "" None created None in
  (payment,
   mkWorld (payments w ++ [payment])%list (admissions w) (log w)).

Section Start.

(** [django.shortcuts.redirect(to)] for the value [to] that the gateway
    sent as its pay-page URL: the location of the redirect it returns,
    or the exception it raises. It resolves [to] against the URL names
    of the project and refuses what it cannot resolve ([TypeError] or
    [NoReverseMatch] for a value that is not a str, [DisallowedRedirect]
    for a scheme it does not allow). *)
Variable redirect : json -> exn + string.

(** [json.dumps] with its default separators and with
    [separators=(",", ":")], [base64.b64encode] of the UTF-8 bytes of a
    str, and the abstract functions of the views above. *)
Variable py_repr : json -> string.
Variable json_dumps : json -> string.
Variable json_dumps_compact : json -> string.
Variable json_loads : string -> option json.
Variable b64encode : string -> string.

Variable settings : Settings.
Variable gateway_settings : GatewaySettings.

Definition _get_razorpay_credentials : string * string :=
  let key_id := RAZORPAY_KEY_ID gateway_settings in
  let key_secret := RAZORPAY_KEY_SECRET settings in
  (key_id, key_secret).

Definition _get_phonepe_config : string * string * string * string :=
  let merchant_id := PHONEPE_MERCHANT_ID settings in
  let salt_key := PHONEPE_SALT_KEY settings in
  let salt_index := PHONEPE_SALT_INDEX settings in
  let base_url := PHONEPE_BASE_URL settings in
  (merchant_id, salt_key, salt_index, base_url).

(** The request [_create_razorpay_order] sends, and its result. *)
Definition _create_razorpay_order
    (env : StartEnv) (amount_paise : Z) (receipt key_id key_secret : string)
  : HttpRequest * result json :=
  let payload :=
    JObj [("amount", JNum amount_paise);
          ("currency", JStr "INR");
          ("receipt", JStr receipt);
          ("payment_capture", JNum 1)] in
  let data := json_dumps payload in
  let auth := b64encode (key_id ++ ":" ++ key_secret) in
  let request_obj :=
    mkHttpRequest "https://api.razorpay.com/v1/orders" "POST"
      [("Content-Type", "application/json");
       ("Authorization", "Basic " ++ auth)]
      (Some data) in
  (request_obj,
   match urlopen env request_obj with
   | Responded _ response_body =>
       match json_loads response_body with
       | Some response => Ok response
       | None => Raise JSONDecodeError
       end
   | RaisedHTTPError detail =>
       Raise (RuntimeError ("Razorpay order failed: " ++ detail))
   | RaisedURLError exc =>
       Raise (RuntimeError ("Razorpay connection failed: " ++ exc))
   | RaisedReadError => Raise ReadError
   end).

(** The request [_phonepe_post_request] sends, and its result. *)
Definition _phonepe_post_request
    (env : StartEnv) (base_url api_path : string) (payload : json)
    (salt_key salt_index : string) : HttpRequest * result json :=
  let payload_json := json_dumps_compact payload in
  let payload_b64 := b64encode payload_json in
  let checksum := _phonepe_checksum payload_b64 api_path salt_key salt_index in
  let body := json_dumps (JObj [("request", JStr payload_b64)]) in
  let request_obj :=
    mkHttpRequest (base_url ++ api_path) "POST"
      [("Content-Type", "application/json"); ("X-VERIFY", checksum)]
      (Some body) in
  (request_obj,
   match urlopen env request_obj with
   | Responded _ response_body =>
       match json_loads response_body with
       | Some response => Ok response
       | None => Raise JSONDecodeError
       end
   | RaisedHTTPError detail =>
       Raise (RuntimeError ("PhonePe request failed: " ++ detail))
   | RaisedURLError exc =>
       Raise (RuntimeError ("PhonePe connection failed: " ++ exc))
   | RaisedReadError => Raise ReadError
   end).

(** The payload of the pay call. *)
Definition phonepe_pay_payload (env : StartEnv) (merchant_id : string)
    (student : Student) (admission : Admission) (payment : Payment)
  : json :=
  let amount_paise := fee_amount admission * 100 in
  let redirect_url :=
    site env ++ "/admission/success/" ++ PyStr.of_Z (a_pk admission) ++ "/" in
  let callback_url := site env ++ "/payment/phonepe/callback/" in
  JObj [("merchantId", JStr merchant_id);
        ("merchantTransactionId", JStr (order_id payment));
        ("merchantUserId", JStr (PyStr.of_Z (s_pk student)));
        ("amount", JNum amount_paise);
        ("redirectUrl", JStr redirect_url);
        ("redirectMode", JStr "POST");
        ("callbackUrl", JStr callback_url);
        ("mobileNumber", JStr (mobile student));
        ("paymentInstrument", JObj [("type", JStr "PAY_PAGE")])].

(** [response.get("data", {}).get("instrumentResponse", {})
    .get("redirectInfo", {}).get("url")] *)
Definition pay_page_url (response : json) : result json :=
  response_data <- Py.get response "data" (JObj []) ;;
  instrument <- Py.get response_data "instrumentResponse" (JObj []) ;;
  redirect_info <- Py.get instrument "redirectInfo" (JObj []) ;;
  Py.get redirect_info "url" JNull.

(** [_start_phonepe_payment]: its result, the state it leaves (also
    when it raises after its save) and the requests it has sent. *)
Definition _start_phonepe_payment
    (env : StartEnv) (student : Student) (admission : Admission)
    (payment : Payment) (w : World)
  : result json * World * list HttpRequest :=
  let '(merchant_id, salt_key, salt_index, base_url) :=
    _get_phonepe_config in
  if negb (PyStr.truthy merchant_id) || negb (PyStr.truthy salt_key)
     || negb (PyStr.truthy salt_index) || negb (PyStr.truthy base_url)
  then (Raise (RuntimeError "PhonePe settings are missing in settings.py."),
        w, [])
  else
    let payment :=
      if negb (PyStr.truthy (order_id payment))
      then set_order_id
             ("ADM" ++ PyStr.of_Z (a_pk admission)
              ++ PyStr.of_Z (time_time env)) payment
      else payment in
    let payload := phonepe_pay_payload env merchant_id student admission
                     payment in
    let '(request_obj, response) :=
      _phonepe_post_request env base_url "/pg/v1/pay" payload
        salt_key salt_index in
    match response with
    | Raise e => (Raise e, w, [request_obj])
    | RaiseAfter e w' => (RaiseAfter e w', w, [request_obj])
    | Ok response =>
        let payment := set_gateway (Some PHONEPE) payment in
        let payment := set_amount (fee_amount admission) payment in
        let payment := set_method (Some ONLINE) payment in
        let payment := set_status PENDING payment in
        let payment :=
          set_gateway_response (json_dumps response) payment in
        let w :=
          save_payment_start payment
            [S_gateway; S_amount; S_method; S_status; S_order_id;
             S_gateway_response] w in
        match pay_page_url response with
        | Raise e => (Raise e, w, [request_obj])
        | RaiseAfter e w' => (RaiseAfter e w', w, [request_obj])
        | Ok redirect_url =>
            if negb (Py.truthy redirect_url)
            then (Raise (RuntimeError "PhonePe pay URL not received."),
                  w, [request_obj])
            else (Ok redirect_url, w, [request_obj])
        end
    end.

(** [start_payment]; [student] is the joined [admission.student]. *)
Definition start_payment
    (env : StartEnv) (student : Student) (admission_id : Z) (w : World)
  : result StartResponse * World * list HttpRequest :=
  match find (fun a => a_pk a =? admission_id) (admissions w) with
  | None => (Raise DoesNotExist, w, [])
  | Some admission =>
      let '(payment, w) :=
        match payment_by_admission (a_pk admission) w with
        | Some payment => (payment, w)
        | None => create_payment (now_created_at env) admission w
        end in
      let back := Start_redirect (Route_admission_success admission_id) in
      if PaymentStatus_eqb (status payment) PAID
      then (Ok (back Info "Payment already completed."), w, [])
      else if fee_amount admission <=? 0
      then (Ok (back Warning "Fee amount is not set for this admission."),
            w, [])
      else if String.eqb (PAYMENT_GATEWAY gateway_settings) "PhonePe"
      then
        let '(started, w, sent) :=
          _start_phonepe_payment env student admission payment w in
        match started with
        | Ok redirect_url =>
            match redirect redirect_url with
            | inr location => (Ok (Start_gateway location), w, sent)
            | inl e => (Raise e, w, sent)
            end
        | Raise (RuntimeError exc) => (Ok (back Error exc), w, sent)
        | Raise e => (Raise e, w, sent)
        | RaiseAfter e w' => (RaiseAfter e w', w, sent)
        end
      else
        let '(key_id, key_secret) := _get_razorpay_credentials in
        if negb (PyStr.truthy key_id) || negb (PyStr.truthy key_secret)
        then (Ok (back Warning "Razorpay keys are missing in settings."),
              w, [])
        else
          let amount_paise := fee_amount admission * 100 in
          let '(request_obj, order) :=
            _create_razorpay_order env amount_paise
              ("admission_" ++ PyStr.of_Z (a_pk admission))
              key_id key_secret in
          match order with
          | Raise (RuntimeError exc) =>
              (Ok (back Error exc), w, [request_obj])
          | Raise e => (Raise e, w, [request_obj])
          | RaiseAfter e w' => (RaiseAfter e w', w, [request_obj])
          | Ok order =>
              match (order_id <- Py.get order "id" (JStr "") ;;
                     char_field py_repr order_id) with
              | Raise e => (Raise e, w, [request_obj])
              | RaiseAfter e w' => (RaiseAfter e w', w, [request_obj])
              | Ok order_id =>
                  let payment := set_gateway (Some RAZORPAY) payment in
                  let payment := set_order_id order_id payment in
                  let payment :=
                    set_amount (fee_amount admission) payment in
                  let payment := set_method (Some ONLINE) payment in
                  let payment := set_status PENDING payment in
                  let w :=
                    save_payment_start payment
                      [S_gateway; S_order_id; S_amount; S_method;
                       S_status] w in
                  (Ok (Start_checkout key_id amount_paise order_id),
                   w, [request_obj])
              end
          end
  end.

(** [online_payment_ready] of [admission_success] and
    [student_dashboard]. *)
Definition online_payment_ready : bool :=
  if String.eqb (PAYMENT_GATEWAY gateway_settings) "PhonePe"
  then PyStr.truthy (PHONEPE_MERCHANT_ID settings)
       && PyStr.truthy (PHONEPE_SALT_KEY settings)
       && PyStr.truthy (PHONEPE_SALT_INDEX settings)
       && PyStr.truthy (PHONEPE_BASE_URL settings)
  else PyStr.truthy (RAZORPAY_KEY_ID gateway_settings)
       && PyStr.truthy (RAZORPAY_KEY_SECRET settings).

End Start.

(** The payment [start_payment] works on, which is the admission's and
    is created when it has none, and the state once it exists. *)
Definition payment_for (created : Z) (admission : Admission) (w : World)
  : Payment * World :=
  match payment_by_admission (a_pk admission) w with
  | Some payment => (payment, w)
  | None => create_payment created admission w
  end.

(** The message of [start_payment] when the settings of the gateway in
    use are incomplete. *)
Definition settings_missing (gateway_settings : GatewaySettings)
  : Level * string :=
  if String.eqb (PAYMENT_GATEWAY gateway_settings) "PhonePe"
  then (Error, "PhonePe settings are missing in settings.py.")
  else (Warning, "Razorpay keys are missing in settings.").

(** A row after [start_payment] has worked on the payment with key
    [key]: the columns that record a payment made are kept, and so is
    the whole row when its key is another. *)
Definition start_kept (key : Z) (r r' : Payment) : Prop :=
  pk r' = pk r /\ admission_id r' = admission_id r
  /\ reference_id r' = reference_id r /\ payment_id r' = payment_id r
  /\ signature r' = signature r /\ notified_at r' = notified_at r
  /\ created_at r' = created_at r /\ paid_at r' = paid_at r
  /\ (pk r <> key -> r' = r).

(** The order id [_start_phonepe_payment] sends and stores. *)
Definition phonepe_order_id (env : StartEnv) (admission : Admission)
    (payment : Payment) : string :=
  if negb (PyStr.truthy (order_id payment))
  then "ADM" ++ PyStr.of_Z (a_pk admission) ++ PyStr.of_Z (time_time env)
  else order_id payment.

Module StartSample.

Definition razorpay : GatewaySettings :=
  mkGatewaySettings "Razorpay" "rzp_test_1".
Definition phonepe : GatewaySettings := mkGatewaySettings "PhonePe" "".

Definition student0 : Student := mkStudent 7 "9876543210".

(** The payment as the admission view creates it, and the state then. *)
Definition payment_new : Payment :=
  mkPayment 1 42 1500 None PENDING None "" "" "" "" "" None 1000 None.
Definition w_new : World := mkWorld [payment_new] [Sample.admission0] [].

(** The answer of Razorpay with the order, and of PhonePe with the pay
    page. *)
Definition order_body : string :=
  "{" ++ Sample.quote ++ "id" ++ Sample.quote ++ ":"
  ++ Sample.quote ++ "order_N1" ++ Sample.quote ++ "}".
Definition order : json := JObj [("id", JStr "order_N1")].
Definition pay_body : string := "<pay page>".
Definition pay_page : json :=
  JObj [("success", JBool true);
        ("data",
         JObj [("instrumentResponse",
                JObj [("redirectInfo",
                       JObj [("url",
                              JStr "https://pay.phonepe.example/p/1")])])])].

(** Stand-ins for the library functions on these texts. No URL name of
    the project is an absolute URL, and [redirect] returns an absolute
    http(s) URL as it is. *)
Definition redirect0 (to : json) : exn + string :=
  match to with
  | JStr location => inr location
  | _ => inl TypeError
  end.
Definition json_loads1 (s : string) : option json :=
  if String.eqb s order_body then Some order
  else if String.eqb s pay_body then Some pay_page
  else Sample.json_loads0 s.
Definition b64encode0 (s : string) : string := "<base64>".

(** A request served at time [t] with every outbound call answered by
    [net]. *)
Definition env_at (t : Z) (net : urlopen_outcome) : StartEnv :=
  mkStartEnv (fun _ => net) t t "https://classes.example".

End StartSample.

(* ------------------------------------------------------------------ *)
(** ** Fees, seats and the admission form

    The batches and fee plans of [models.py], the admission form of
    [forms.py] and the views [home] and [admission]. A date is the
    number of its day. Of a new admission the state keeps the columns
    of [Admission] above; the notices of the home page are left out. *)

Record Batch : Type := mkBatch {
  b_pk : Z;
  b_student_class : string;
  b_medium : string;
  total_seats : Z;
  filled_seats : Z
}.

(** [Batch.is_full] *)
Definition is_full (self : Batch) : bool :=
  total_seats self <=? filled_seats self.

(** [Batch.remaining_seats] *)
Definition remaining_seats (self : Batch) : Z :=
  Z.max (total_seats self - filled_seats self) 0.

Record FeePlan : Type := mkFeePlan {
  plan_student_class : string;
  plan_medium : string;
  original_fee : Z;
  offer_fee : Z;
  offer_end_date : Z
}.

(** What [objects.get(...)] does: it returns the one row that matches,
    or raises [DoesNotExist] or [MultipleObjectsReturned]. *)
Inductive got (A : Type) : Type :=
| Got (a : A)
| NotExisting
| Multiple.
Arguments Got {A} a.
Arguments NotExisting {A}.
Arguments Multiple {A}.

(** [FeePlan.objects.get(student_class=..., medium=...)] *)
Definition FeePlan_get (student_class medium : string)
    (plans : list FeePlan) : got FeePlan :=
  match filter (fun plan =>
                  String.eqb (plan_student_class plan) student_class
                  && String.eqb (plan_medium plan) medium) plans with
  | [] => NotExisting
  | [plan] => Got plan
  | _ => Multiple
  end.

(** [get_fee] of [models.py] *)
Definition get_fee (today : Z) (plans : list FeePlan)
    (student_class medium : string) : got (Z * bool) :=
  match FeePlan_get student_class medium plans with
  | Got plan =>
      if today <=? offer_end_date plan
      then Got (offer_fee plan, true)
      else Got (original_fee plan, false)
  | NotExisting => NotExisting
  | Multiple => Multiple
  end.

(** The part of the context of [home] that depends on plans and
    batches. *)
Record HomeContext : Type := mkHomeContext {
  plan_missing : bool;
  selected_class : string;
  selected_medium : string;
  offer_active : bool;
  show_offer : bool;
  total_remaining : Z
}.

(** [home], with the [class] and [medium] parameters of the query
    string; [None] when the plan lookup raises
    [MultipleObjectsReturned]. *)
Definition home (today : Z) (class_param medium_param : option string)
    (batches : list Batch) (plans : list FeePlan) : option HomeContext :=
  let selected_class :=
    match class_param with Some v => v | None => "12" end in
  let selected_medium :=
    match medium_param with Some v => v | None => "Hindi" end in
  let selected_class :=
    if PyStr.mem selected_class ["11"; "12"] then selected_class
    else "12" in
  let selected_medium :=
    if PyStr.mem selected_medium ["Hindi"; "English"] then selected_medium
    else "Hindi" in
  match FeePlan_get selected_class selected_medium plans with
  | Multiple => None
  | found =>
      let plan := match found with Got plan => Some plan | _ => None end in
      let offer_active :=
        match plan with
        | Some plan => today <=? offer_end_date plan
        | None => false
        end in
      let show_offer :=
        match plan with
        | Some plan => offer_active && (offer_fee plan <? original_fee plan)
        | None => false
        end in
      let batches :=
        filter (fun batch =>
                  String.eqb (b_student_class batch) selected_class
                  && String.eqb (b_medium batch) selected_medium)
          batches in
      let total_remaining :=
        fold_left (fun total batch => total + remaining_seats batch)
          batches 0 in
      Some (mkHomeContext
              (match plan with Some _ => false | None => true end)
              selected_class selected_medium offer_active show_offer
              total_remaining)
  end.

(** The posted admission form: the values the view decides on, and
    whether the fields it only copies (name, board, mobile, whatsapp,
    address) pass their validators. *)
Record AdmissionPost : Type := mkAdmissionPost {
  post_student_class : string;
  post_medium : string;
  post_batch : option Z;
  post_mobile : string;
  copied_fields_valid : bool
}.

Record CleanedData : Type := mkCleanedData {
  c_student_class : string;
  c_medium : string;
  c_batch : option Batch;
  c_mobile : string
}.

(** [ChoiceField.clean]: [None] when it raises [ValidationError]. *)
Definition clean_choice (choices : list string) (value : string)
  : option string :=
  if PyStr.mem value choices then Some value else None.

(** [ModelChoiceField.clean] over the batches, not required: a blank
    value is [None], a key must be that of a batch. *)
Definition clean_batch_choice (batches : list Batch) (value : option Z)
  : option (option Batch) :=
  match value with
  | None => Some None
  | Some key =>
      match find (fun batch => b_pk batch =? key) batches with
      | Some batch => Some (Some batch)
      | None => None
      end
  end.

(** [AdmissionForm.clean_batch]: [None] when it raises
    [ValidationError]. *)
Definition clean_batch (batch : option Batch) : option (option Batch) :=
  match batch with
  | Some b => if is_full b then None else Some batch
  | None => Some batch
  end.

Definition differs (a : string) (b : option string) : bool :=
  match b with
  | Some b => negb (String.eqb a b)
  | None => true
  end.

(** [AdmissionForm.clean]: whether it adds its error, for the cleaned
    values at hand ([None] for a value that did not validate). *)
Definition clean (batch : option Batch) (medium student_class : option string)
  : bool :=
  match batch with
  | Some batch =>
      differs (b_medium batch) medium
      || differs (b_student_class batch) student_class
  | None => false
  end.

(** [form.is_valid()] with [form.cleaned_data]. *)
Definition is_valid (batches : list Batch) (post : AdmissionPost)
  : option CleanedData :=
  let student_class := clean_choice ["11"; "12"] (post_student_class post) in
  let medium := clean_choice ["Hindi"; "English"] (post_medium post) in
  let batch :=
    match clean_batch_choice batches (post_batch post) with
    | Some batch => clean_batch batch
    | None => None
    end in
  let clean_error :=
    match batch with
    | Some batch => clean batch medium student_class
    | None => false
    end in
  match student_class, medium, batch with
  | Some student_class, Some medium, Some batch =>
      if copied_fields_valid post && negb clean_error
      then Some (mkCleanedData student_class medium batch (post_mobile post))
      else None
  | _, _, _ => None
  end.

(** The tables the admission view works on. *)
Record Office : Type := mkOffice {
  batches : list Batch;
  fee_plans : list FeePlan;
  students : list Student;
  books : World
}.

(** What [admission] returns: the form page, or the redirect to the
    success page of the new admission with the messages queued. *)
Inductive AdmissionResponse : Type :=
| Admission_form
| Admission_redirect (target : Z) (queued : list (Level * string)).

Definition set_filled_seats (v : Z) (b : Batch) : Batch :=
  mkBatch (b_pk b) (b_student_class b) (b_medium b) (total_seats b) v.

(** [admission]; [post] is the posted form, [None] for a request that
    is not a POST. The result is [None] when the plan lookup raises
    [MultipleObjectsReturned], before anything is written. *)
Definition admission (today created : Z) (post : option AdmissionPost)
    (o : Office) : option (AdmissionResponse * Office) :=
  match post with
  | None => Some (Admission_form, o)
  | Some post =>
      match is_valid (batches o) post with
      | None => Some (Admission_form, o)
      | Some cleaned_data =>
          match FeePlan_get (c_student_class cleaned_data)
                  (c_medium cleaned_data) (fee_plans o) with
          | Multiple => None
          | found =>
              let '(fee_amount, offer_applied, warned) :=
                match found with
                | Got plan =>
                    let offer_applied :=
                      (today <=? offer_end_date plan)
                      && (offer_fee plan <? original_fee plan) in
                    let fee_amount :=
                      if offer_applied then offer_fee plan
                      else original_fee plan in
                    (fee_amount, offer_applied, [])
                | _ =>
                    (0, false,
                     [(Warning,
                       "Fee plan missing for selected class and medium. Please contact admin.")])
                end in
              let student :=
                mkStudent
                  (1 + fold_right Z.max 0 (map s_pk (students o)))
                  (c_mobile cleaned_data) in
              let admission :=
                mkAdmission
                  (1 + fold_right Z.max 0 (map a_pk (admissions (books o))))
                  fee_amount 0 Fee_PENDING in
              let w :=
                mkWorld (payments (books o))
                  (admissions (books o) ++ [admission])%list
                  (log (books o)) in
              let w := snd (create_payment created admission w) in
              let batches :=
                match c_batch cleaned_data with
                | Some batch =>
                    map (fun row =>
                           if b_pk row =? b_pk batch
                           then set_filled_seats (filled_seats batch + 1) row
                           else row)
                      (batches o)
                | None => batches o
                end in
              Some (Admission_redirect (a_pk admission)
                      (warned
                       ++ [(Success, "Admission submitted successfully.")]
                       ++ (if offer_applied
                           then [(Info,
                                  "Offer fee applied for this admission.")]
                           else []))%list,
                    mkOffice batches (fee_plans o)
                      (students o ++ [student])%list w)
          end
      end
  end.

(** The fee of an admission made on a day under a plan. *)
Definition fee_on (today : Z) (plan : FeePlan) : Z :=
  if today <=? offer_end_date plan
  then Z.min (offer_fee plan) (original_fee plan)
  else original_fee plan.

(** No batch has more seats filled than it has, and batch keys are
    unique. *)
Definition seats_kept (l : list Batch) : Prop :=
  NoDup (map b_pk l)
  /\ Forall (fun batch => filled_seats batch <= total_seats batch) l.

(** Every payment belongs to an admission of the table (the foreign
    key). *)
Definition owned (w : World) : Prop :=
  forall p, In p (payments w) ->
    exists a, In a (admissions w) /\ a_pk a = admission_id p.

Module OfficeSample.

Definition plan12 : FeePlan := mkFeePlan "12" "Hindi" 2000 1500 100.

Definition morning : Batch := mkBatch 1 "12" "Hindi" 2 1.
Definition evening : Batch := mkBatch 2 "12" "Hindi" 1 1.

Definition office0 : Office :=
  mkOffice [morning; evening] [plan12] [] (mkWorld [] [] []).

(** The office after the first admission, into the morning batch. *)
Definition office1 : Office :=
  mkOffice [mkBatch 1 "12" "Hindi" 2 2; evening] [plan12]
    [mkStudent 1 "9876543210"]
    (mkWorld
       [mkPayment 1 1 1500 None PENDING None "" "" "" "" "" None 1000 None]
       [mkAdmission 1 1500 0 Fee_PENDING] []).

Definition post_morning : AdmissionPost :=
  mkAdmissionPost "12" "Hindi" (Some 1) "9876543210" true.
Definition post_evening : AdmissionPost :=
  mkAdmissionPost "12" "Hindi" (Some 2) "9876543210" true.

End OfficeSample.

(* ------------------------------------------------------------------ *)
(** ** The digests against published test vectors *)

Example sha256_abc :
  Sha256.hexdigest "abc"
  = "ba7816bf8f01cfea414140de5dae2223b00361a396177a9cb410ff61f20015ad".
Proof. vm_compute. reflexivity. Qed.

Example hmac_sha256_rfc4231_2 :
  Sha256.hmac_hexdigest "Jefe" "what do ya want for nothing?"
  = "5bdcc146bf60754e6a042426089575c75a003f089d2739839dec58b964ec3843".
Proof. vm_compute. reflexivity. Qed.

(* ------------------------------------------------------------------ *)
(** ** Strings: case folding and emptiness *)

Lemma upper_char_idem (c : ascii) :
  PyStr.upper_char (PyStr.upper_char c) = PyStr.upper_char c.
Proof.
  destruct c as [[] [] [] [] [] [] [] []]; vm_compute; reflexivity.
Qed.

Lemma upper_char_lower_char (c : ascii) :
  PyStr.upper_char (PyStr.lower_char c) = PyStr.upper_char c.
Proof.
  destruct c as [[] [] [] [] [] [] [] []]; vm_compute; reflexivity.
Qed.

Lemma upper_idem (s : string) : PyStr.upper (PyStr.upper s) = PyStr.upper s.
Proof.
  induction s as [|c s IH]; simpl; [reflexivity|].
  unfold PyStr.upper in *; simpl. now rewrite upper_char_idem, IH.
Qed.

Lemma upper_lower (s : string) : PyStr.upper (PyStr.lower s) = PyStr.upper s.
Proof.
  induction s as [|c s IH]; simpl; [reflexivity|].
  unfold PyStr.upper, PyStr.lower in *; simpl.
  now rewrite upper_char_lower_char, IH.
Qed.

Lemma mem_In (x : string) (set : list string) :
  PyStr.mem x set = true <-> In x set.
Proof.
  unfold PyStr.mem. rewrite existsb_exists. split.
  - intros [y [Hin Heq]]. apply String.eqb_eq in Heq. now subst.
  - intros Hin. exists x. split; [assumption | apply String.eqb_refl].
Qed.

Lemma truthy_empty (s : string) : PyStr.truthy s = false <-> s = "".
Proof. destruct s; simpl; split; congruence. Qed.

Lemma is_ascii_app (a b : string) :
  PyStr.is_ascii (a ++ b) = PyStr.is_ascii a && PyStr.is_ascii b.
Proof.
  induction a as [|c a IH]; [reflexivity|].
  cbn [append PyStr.is_ascii]. rewrite IH. now rewrite andb_assoc.
Qed.

Lemma be_bytes_small (n : nat) (x : N) :
  Forall (fun b => (b < 256)%N) (Sha256.be_bytes n x).
Proof.
  revert x. induction n as [|n IH]; intros x; cbn [Sha256.be_bytes].
  - constructor.
  - apply Forall_app. split; [apply IH|].
    constructor; [|constructor]. apply N.mod_lt. discriminate.
Qed.

Lemma digest_small (msg : list N) :
  Forall (fun b => (b < 256)%N) (Sha256.digest msg).
Proof.
  unfold Sha256.digest. apply Forall_flat_map.
  apply Forall_forall. intros x _. apply be_bytes_small.
Qed.

Lemma hex_digit_ascii (d : N) :
  (d < 16)%N -> (nat_of_ascii (Sha256.hex_digit d) <? 128)%nat = true.
Proof.
  intros H.
  assert (E : In d [0; 1; 2; 3; 4; 5; 6; 7; 8; 9; 10; 11; 12; 13; 14;
                    15]%N).
  { do 16 (destruct d as [|d] using N.peano_ind;
           [cbn; tauto | rewrite ?N.add_1_r in *;
                         try (cbn; lia) ]). }
  cbn in E. repeat (destruct E as [<- | E]; [reflexivity|]). destruct E.
Qed.

Lemma hex_ascii (bs : list N) :
  Forall (fun b => (b < 256)%N) bs -> PyStr.is_ascii (Sha256.hex bs) = true.
Proof.
  unfold Sha256.hex. induction 1 as [|b bs Hb _ IH]; [reflexivity|].
  cbn [flat_map app string_of_list_ascii PyStr.is_ascii].
  rewrite IH, !hex_digit_ascii; [reflexivity | |].
  - apply N.mod_lt. discriminate.
  - apply N.Div0.div_lt_upper_bound. exact Hb.
Qed.

Lemma hexdigest_ascii (raw : string) :
  PyStr.is_ascii (Sha256.hexdigest raw) = true.
Proof. apply hex_ascii, digest_small. Qed.

Lemma hmac_hexdigest_ascii (key message : string) :
  PyStr.is_ascii (Sha256.hmac_hexdigest key message) = true.
Proof. apply hex_ascii, digest_small. Qed.

Lemma compare_digest_true (a b : string) :
  compare_digest a b = Ok true <-> a = b /\ PyStr.is_ascii a = true.
Proof.
  unfold compare_digest. split.
  - destruct (PyStr.is_ascii a) eqn:Ha; [|discriminate].
    destruct (PyStr.is_ascii b); [|discriminate].
    cbn [andb]. intros [= H]. apply String.eqb_eq in H. now split.
  - intros [<- Ha]. rewrite Ha. cbn [andb]. now rewrite String.eqb_refl.
Qed.

Lemma append_nonempty (a b : string) : b <> "" -> (a ++ b)%string <> "".
Proof.
  intros Hb. destruct a; simpl; [assumption | discriminate].
Qed.

(* ------------------------------------------------------------------ *)
(** ** Signature Verifier *)

(** The provider-A check answers [False] on an empty argument, whatever
    the keyed digest would be. *)
Lemma razorpay_guard (hmac_new : string -> string -> string)
    (order_id payment_id signature key_secret : string) :
  order_id = "" \/ payment_id = "" \/ signature = "" \/ key_secret = "" ->
  _verify_razorpay_signature_with hmac_new
    order_id payment_id signature key_secret = Ok false.
Proof.
  intros H. unfold _verify_razorpay_signature_with.
  assert (G : PyStr.truthy order_id && PyStr.truthy payment_id
              && PyStr.truthy signature && PyStr.truthy key_secret = false).
  { destruct H as [-> | [-> | [-> | ->]]]; simpl;
      rewrite ?andb_false_r; reflexivity. }
  now rewrite G.
Qed.

Lemma checksum_nonempty (digest salt_index : string) :
  (digest ++ "###" ++ salt_index)%string <> "".
Proof. apply append_nonempty. discriminate. Qed.

(** C8 (amended). The callback's integrity check accepts a header value
    exactly when it is the hexadecimal SHA-256 of the envelope followed
    by the salt key, with [###] and the salt index appended: the
    provider-B checksum taken with no API path between envelope and
    salt key. The salt index of the settings must be ASCII text for
    that: the comparison raises on any other, and accepts nothing. *)
Theorem C8_callback_check_digest
    (py_repr : json -> string) (response_b64 : string)
    (header_value : option string) (salt_key salt_index : string) :
  (_verify_phonepe_callback py_repr (JStr response_b64) header_value
     salt_key salt_index = Ok true
   <-> header_value
       = Some (Sha256.hexdigest (response_b64 ++ salt_key)
               ++ "###" ++ salt_index)
       /\ PyStr.is_ascii salt_index = true)
  /\ Sha256.hexdigest (response_b64 ++ salt_key) ++ "###" ++ salt_index
     = _phonepe_checksum response_b64 "" salt_key salt_index.
Proof.
  split; [|reflexivity].
  unfold _verify_phonepe_callback. simpl py_str.
  destruct header_value as [h|]; [|split; [discriminate | intros [[=] _]]].
  destruct (PyStr.truthy h) eqn:Hh; cbn [negb].
  - rewrite compare_digest_true, !is_ascii_app, hexdigest_ascii.
    change (PyStr.is_ascii "###") with true. cbn [andb]. split.
    + intros [E Ha]. subst h. now split.
    + intros [[= E] Ha]. subst h. now split.
  - apply truthy_empty in Hh. subst h. split; [discriminate|].
    intros [[= H] _]. symmetry in H. now apply checksum_nonempty in H.
Qed.

(** C8, as stated, fails: the header that is the provider-B digest over
    envelope, API path and salt key is turned down, for the path of the
    callback route and for the path of the pay call alike; the header
    taken without a path is accepted. *)
Lemma C8_counterexample :
  _verify_phonepe_callback Sample.py_repr0 (JStr Sample.b64_paid)
    (Some (_phonepe_checksum Sample.b64_paid "/payment/phonepe/callback/"
             "salt-key-1" "1"))
    "salt-key-1" "1" = Ok false
  /\ _verify_phonepe_callback Sample.py_repr0 (JStr Sample.b64_paid)
       (Some (_phonepe_checksum Sample.b64_paid "/pg/v1/pay"
                "salt-key-1" "1"))
       "salt-key-1" "1" = Ok false
  /\ _verify_phonepe_callback Sample.py_repr0 (JStr Sample.b64_paid)
       (Some
           "13c1849f46cea1f8b4cf180afcf2361b7aceb5b45233fe4489958c7a8ddf1a90###1")
       "salt-key-1" "1" = Ok true.
Proof. split; [|split]; vm_compute; reflexivity. Qed.

(* ------------------------------------------------------------------ *)
(** ** Status mapping *)



(* ------------------------------------------------------------------ *)
(** ** Rows and saves *)

Lemma same_keys_refl (p : Payment) : same_keys p p.
Proof. repeat split. Qed.

Lemma same_keys_trans (p q r : Payment) :
  same_keys p q -> same_keys q r -> same_keys p r.
Proof. unfold same_keys. intuition congruence. Qed.

Lemma copy_field_keys (f : PaymentField) (src dst : Payment) :
  same_keys dst (copy_field f src dst).
Proof. destruct f; repeat split. Qed.

Lemma copy_fields_keys (fs : list PaymentField) (src dst : Payment) :
  same_keys dst (copy_fields fs src dst).
Proof.
  unfold copy_fields. revert dst.
  induction fs as [|f fs IH]; intros dst; simpl.
  - apply same_keys_refl.
  - eapply same_keys_trans; [apply copy_field_keys | apply IH].
Qed.

Lemma payment_by_order_id_In (key : string) (w : World) (p : Payment) :
  payment_by_order_id key w = Some p ->
  In p (payments w) /\ order_id p = key.
Proof.
  unfold payment_by_order_id. intros H. apply find_some in H.
  destruct H as [Hin Heq]. apply String.eqb_eq in Heq. now split.
Qed.

Lemma payment_by_admission_In (key : Z) (w : World) (p : Payment) :
  payment_by_admission key w = Some p ->
  In p (payments w) /\ admission_id p = key.
Proof.
  unfold payment_by_admission. intros H. apply find_some in H.
  destruct H as [Hin Heq]. apply Z.eqb_eq in Heq. now split.
Qed.

Lemma In_save_payment (p : Payment) (fs : list PaymentField) (w : World)
    (row' : Payment) :
  In row' (payments (save_payment p fs w)) <->
  exists row, In row (payments w)
    /\ row' = if pk row =? pk p then copy_fields fs p row else row.
Proof.
  unfold save_payment; cbn. rewrite in_map_iff.
  split; intros [row [H1 H2]]; exists row; split; auto.
Qed.

(** Saving [p] puts [copy_fields fs p row] in place of the rows with its
    key. *)
Lemma stored_save_payment (p : Payment) (fs : list PaymentField)
    (w : World) (key : Z) (P : Payment -> Prop) :
  (exists row, In row (payments w) /\ pk row = key) ->
  pk p = key ->
  (forall row, In row (payments w) -> pk row = key ->
     P (copy_fields fs p row)) ->
  stored (save_payment p fs w) key P.
Proof.
  intros [row0 [Hin0 Hk0]] Hp HP. split.
  - exists (copy_fields fs p row0). split.
    + apply In_save_payment. exists row0. split; [assumption|].
      replace (pk row0 =? pk p) with true; [reflexivity|].
      symmetry. apply Z.eqb_eq. congruence.
    + destruct (copy_fields_keys fs p row0) as [E _]. congruence.
  - intros row' Hin' Hk'. apply In_save_payment in Hin'.
    destruct Hin' as [row [Hin ->]].
    destruct (pk row =? pk p) eqn:E.
    + apply Z.eqb_eq in E. apply HP; [assumption | congruence].
    + apply Z.eqb_neq in E. congruence.
Qed.

Lemma stored_weaken (w : World) (key : Z) (P Q : Payment -> Prop) :
  (forall row, P row -> Q row) -> stored w key P -> stored w key Q.
Proof. intros HPQ [Hex Hall]. split; [assumption | eauto]. Qed.

(** A column that is not in [fs] keeps its value in every row. *)
Lemma save_payment_column {A : Type} (col : Payment -> A)
    (p : Payment) (fs : list PaymentField) (w : World) :
  (forall f src dst, In f fs -> col (copy_field f src dst) = col dst) ->
  map col (payments (save_payment p fs w)) = map col (payments w).
Proof.
  intros Hcol. unfold save_payment; cbn. rewrite map_map.
  apply map_ext. intros row. destruct (pk row =? pk p); [|reflexivity].
  unfold copy_fields. revert row. induction fs as [|f fs IH]; intros row.
  - reflexivity.
  - simpl. rewrite IH.
    + apply Hcol. now left.
    + intros g src dst Hg. apply Hcol. now right.
Qed.

(* ------------------------------------------------------------------ *)
(** ** Redirect-verify with a signature that does not verify *)

Lemma payment_verify_invalid
    (settings : Settings) (env : Env) (request : VerifyRequest)
    (w : World) (payment : Payment) :
  payment_by_order_id (razorpay_order_id request) w = Some payment ->
  _verify_razorpay_signature (razorpay_order_id request)
    (razorpay_payment_id request) (razorpay_signature request)
    (RAZORPAY_KEY_SECRET settings) = Ok false ->
  exists w',
    payment_verify settings env request w
    = Ok (Redirect (Route_admission_success (admission_id payment))
            Error "Payment verification failed.", w')
    /\ stored w' (pk payment)
         (fun row => status row = FAILED
                     /\ payment_id row = razorpay_payment_id request
                     /\ signature row = razorpay_signature request)
    /\ admissions w' = admissions w
    /\ map paid_at (payments w') = map paid_at (payments w)
    /\ map notified_at (payments w') = map notified_at (payments w).
Proof.
  intros Hfind Hsig. unfold payment_verify. rewrite Hfind, Hsig.
  apply payment_by_order_id_In in Hfind. destruct Hfind as [Hin _].
  eexists. split; [reflexivity|]. split; [|split; [reflexivity|split]].
  - apply stored_save_payment; [exists payment; now split | reflexivity |].
    intros row _ _. repeat split.
  - apply save_payment_column. intros f src dst [<-|[<-|[<-|[]]]]; reflexivity.
  - apply save_payment_column. intros f src dst [<-|[<-|[<-|[]]]]; reflexivity.
Qed.

(** The provider-A check on arguments none of which is empty: it
    compares a signature that is ASCII text with the keyed digest, and
    raises on any other. *)
Lemma razorpay_check (order_id payment_id signature key_secret : string) :
  order_id <> "" -> payment_id <> "" -> signature <> "" ->
  key_secret <> "" ->
  _verify_razorpay_signature order_id payment_id signature key_secret
  = if PyStr.is_ascii signature
    then Ok (String.eqb
               (Sha256.hmac_hexdigest key_secret
                  (order_id ++ "|" ++ payment_id)) signature)
    else Raise TypeError.
Proof.
  intros Ho Hp Hs Hk.
  unfold _verify_razorpay_signature, _verify_razorpay_signature_with,
    compare_digest.
  destruct order_id; [now elim Ho|]. destruct payment_id; [now elim Hp|].
  destruct signature as [|c signature]; [now elim Hs|].
  destruct key_secret as [|k key_secret]; [now elim Hk|].
  cbn [PyStr.truthy andb negb]. rewrite hmac_hexdigest_ascii.
  reflexivity.
Qed.




(** C10. The provider-A check answers False as soon as one of its four
    arguments is empty, whatever the keyed digest; so with no Razorpay
    secret configured every redirect-verify that finds a Payment marks
    it Failed and answers with the verification-failed error. *)
Theorem C10_empty_argument_rejects
    (hmac_new : string -> string -> string)
    (settings : Settings) (env : Env) (request : VerifyRequest)
    (w : World) (payment : Payment) :
  (forall order_id payment_id signature key_secret : string,
     order_id = "" \/ payment_id = "" \/ signature = ""
     \/ key_secret = "" ->
     _verify_razorpay_signature_with hmac_new
       order_id payment_id signature key_secret = Ok false)
  /\ (RAZORPAY_KEY_SECRET settings = "" ->
      payment_by_order_id (razorpay_order_id request) w = Some payment ->
      exists w',
        payment_verify settings env request w
        = Ok (Redirect (Route_admission_success (admission_id payment))
                Error "Payment verification failed.", w')
        /\ stored w' (pk payment) (fun row => status row = FAILED)
        /\ admissions w' = admissions w).
Proof.
  split.
  - intros. now apply razorpay_guard.
  - intros Hsecret Hfind.
    destruct (payment_verify_invalid settings env request w payment Hfind)
      as [w' [H1 [H2 [H3 _]]]].
    + apply razorpay_guard. rewrite Hsecret. auto.
    + exists w'. repeat split; try assumption.
      * apply H2.
      * intros row Hin Hk. now apply H2.
Qed.

(** C10 at the validly signed redirect for order_N1, served without a
    configured secret: the check is False for the empty secret and the
    payment is marked Failed. *)
Lemma C10_witness :
  _verify_razorpay_signature_with Sha256.hmac_hexdigest
    "order_N1" "pay_N1"
    "be11b327005211d24fb507d6cc05bcd5966190b7399c0473aaae9f9e426e3e03" ""
  = Ok false
  /\ exists w',
       payment_verify Sample.settings_no_secret
         (Sample.env_at 2000 Sample.up "") Sample.redirect_valid
         Sample.w_rzp
       = Ok (Redirect (Route_admission_success 42)
               Error "Payment verification failed.", w')
       /\ stored w' 1 (fun row => status row = FAILED)
       /\ admissions w' = [Sample.admission0].
Proof.
  destruct (C10_empty_argument_rejects Sha256.hmac_hexdigest
              Sample.settings_no_secret (Sample.env_at 2000 Sample.up "")
              Sample.redirect_valid Sample.w_rzp Sample.payment_rzp)
    as [Hguard Hverify].
  split.
  - apply Hguard. right. right. right. reflexivity.
  - apply Hverify; reflexivity.
Defined.

(* ------------------------------------------------------------------ *)
(** ** Notifier *)

Lemma add_log_nil (w : World) : add_log [] w = w.
Proof. destruct w. unfold add_log; simpl. now rewrite app_nil_r. Qed.

Lemma add_log_app (evs evs' : list Event) (w : World) :
  add_log evs' (add_log evs w) = add_log (evs ++ evs') w.
Proof. unfold add_log; simpl. now rewrite app_assoc. Qed.

Lemma send_sms_configured (settings : Settings) (env : Env) (w : World) :
  _sms_configured settings = true ->
  _send_sms settings env w
  = ended (raised (sms_net env)) (succeeded (sms_net env))
      (add_log [Dispatched SMS (succeeded (sms_net env))] w).
Proof.
  unfold _sms_configured, _send_sms, _send_sms_twilio.
  destruct (PyStr.lower (SMS_PROVIDER settings) =? "twilio")%string;
    [|discriminate].
  intros H. apply andb_prop in H. destruct H as [H H3].
  apply andb_prop in H. destruct H as [H1 H2].
  rewrite H1, H2, H3. unfold dispatch, ended, add_log.
  destruct (sms_net env); reflexivity.
Qed.

Lemma send_whatsapp_configured
    (settings : Settings) (env : Env) (w : World) :
  _whatsapp_configured settings = true ->
  _send_whatsapp settings env w
  = ended (raised (whatsapp_net env)) (succeeded (whatsapp_net env))
      (add_log [Dispatched WhatsApp (succeeded (whatsapp_net env))] w).
Proof.
  unfold _whatsapp_configured, _send_whatsapp, _send_whatsapp_cloud.
  destruct (PyStr.lower (WHATSAPP_PROVIDER settings) =? "cloud")%string;
    [|discriminate].
  intros H. apply andb_prop in H. destruct H as [H1 H2].
  rewrite H1, H2. unfold dispatch, ended, add_log.
  destruct (whatsapp_net env); reflexivity.
Qed.

(** The notifier ends as [notify_step] describes: with its payment and
    state, returned or left behind by the dispatch that raised. *)
Lemma notify_ended
    (settings : Settings) (env : Env) (payment : Payment) (w : World) :
  _maybe_send_payment_notifications settings env payment w
  = ended (interrupted settings env payment)
      (fst (notify_step settings env payment w))
      (snd (notify_step settings env payment w)).
Proof.
  unfold _maybe_send_payment_notifications, notify_step, interrupted,
    stamps, attempts, delivered, reported, cut_short, dispatches.
  destruct (SEND_PAYMENT_NOTIFICATIONS settings); cbn [negb andb];
    [|now rewrite add_log_nil].
  destruct (notified_at payment); [now rewrite add_log_nil|].
  destruct (_sms_configured settings) eqn:Hs;
    [rewrite send_sms_configured by assumption; unfold ended;
     destruct (raised (sms_net env)), (succeeded (sms_net env))|];
    cbn [bind andb orb negb app fst snd];
    (destruct (_whatsapp_configured settings) eqn:Hw;
     [rewrite ?send_whatsapp_configured by assumption; unfold ended;
      destruct (raised (whatsapp_net env)),
        (succeeded (whatsapp_net env))|];
     cbn [bind andb orb negb app fst snd];
     rewrite ?add_log_app, ?add_log_nil; reflexivity).
Qed.






(* ------------------------------------------------------------------ *)
(** ** Lookups that find no Payment *)

(** C7. Each entry point reports that the payment was not found and
    leaves the state as it is (tables and log of writes) when its lookup
    finds nothing: redirect-verify for an order id of no Payment, the
    callback for an envelope whose transaction id is the order id of no
    Payment, the poll for an admission without a Payment or with one
    that has no order id. *)
Theorem C7_payment_not_found
    (py_repr : json -> string) (str_upper : string -> string)
    (json_dumps : json -> string)
    (json_loads : string -> option json)
    (b64decode_utf8 : string -> option string)
    (settings : Settings) (env : Env) (w : World) :
  (forall request,
     payment_by_order_id (razorpay_order_id request) w = None ->
     payment_verify settings env request w
     = Ok (Redirect Route_home Error "Payment record not found.", w))
  /\ (forall request merchant_txn_id decoded,
        callback_envelope py_repr json_loads b64decode_utf8 settings request
        = Ok (inr (merchant_txn_id, decoded)) ->
        payment_by_order_id (py_str py_repr merchant_txn_id) w = None ->
        phonepe_callback py_repr str_upper json_dumps json_loads b64decode_utf8
          settings env request w
        = Ok (HttpResponse "Payment not found" 404, w))
  /\ (forall admission_id,
        payment_by_admission admission_id w = None
        \/ (exists payment,
              payment_by_admission admission_id w = Some payment
              /\ order_id payment = "") ->
        phonepe_status_check py_repr str_upper json_dumps json_loads settings
            env
          admission_id w
        = Ok (Redirect (Route_admission_success admission_id) Warning
                "PhonePe payment not found for this admission.", w)).
Proof.
  repeat split.
  - intros request H. unfold payment_verify. now rewrite H.
  - intros request txn decoded Henv H. unfold phonepe_callback.
    rewrite Henv. simpl. now rewrite H.
  - intros admission_id [H | [payment [H Hblank]]];
      unfold phonepe_status_check; rewrite H; [reflexivity|].
    now rewrite Hblank.
Qed.

(** C7 on the state that holds only the Razorpay order order_N1: a
    redirect for order_N2, the verified callback for ADM42171700000001
    and the poll for admission 7 are each answered with not-found and
    change nothing. *)
Lemma C7_witness :
  payment_verify Sample.settings0 (Sample.env_at 2000 Sample.up "")
    (mkVerifyRequest "order_N2" "pay_N2" "00") Sample.w_rzp
  = Ok (Redirect Route_home Error "Payment record not found.",
        Sample.w_rzp)
  /\ phonepe_callback Sample.py_repr0 Sample.str_upper0 Sample.json_dumps0
      Sample.json_loads0
       Sample.b64decode_utf8_0 Sample.settings0
       (Sample.env_at 2000 Sample.up "") Sample.callback_paid Sample.w_rzp
     = Ok (HttpResponse "Payment not found" 404, Sample.w_rzp)
  /\ phonepe_status_check Sample.py_repr0 Sample.str_upper0 Sample.json_dumps0
       Sample.json_loads0 Sample.settings0
       (Sample.env_at 2000 Sample.up Sample.b64_paid) 7 Sample.w_rzp
     = Ok (Redirect (Route_admission_success 7) Warning
             "PhonePe payment not found for this admission.", Sample.w_rzp).
Proof.
  destruct (C7_payment_not_found Sample.py_repr0 Sample.str_upper0
      Sample.json_dumps0
              Sample.json_loads0 Sample.b64decode_utf8_0 Sample.settings0
              (Sample.env_at 2000 Sample.up "") Sample.w_rzp)
    as [Hverify [Hcallback _]].
  destruct (C7_payment_not_found Sample.py_repr0 Sample.str_upper0
      Sample.json_dumps0
              Sample.json_loads0 Sample.b64decode_utf8_0 Sample.settings0
              (Sample.env_at 2000 Sample.up Sample.b64_paid) Sample.w_rzp)
    as [_ [_ Hpoll]].
  split; [|split].
  - apply Hverify. reflexivity.
  - apply (Hcallback Sample.callback_paid
             (JStr "ADM42171700000001") Sample.decoded_paid).
    + vm_compute. reflexivity.
    + reflexivity.
  - apply Hpoll. left. reflexivity.
Defined.

(* ------------------------------------------------------------------ *)
(** ** The apply step *)

Lemma update_payment_unfold
    (py_repr : json -> string) (str_upper : string -> string)
    (json_dumps : json -> string)
    (settings : Settings) (env : Env) (payment : Payment) (decoded : json)
    (w : World) (state code : json) (pid ref : string) :
  decoded_fields py_repr decoded = Ok (state, code, pid, ref) ->
  _update_payment_from_phonepe py_repr str_upper json_dumps settings env payment
    decoded w
  = let status := _map_phonepe_status py_repr str_upper state code in
    let p1 := applied status pid ref (json_dumps decoded)
                (now_paid_at env) payment in
    let w1 := save_payment p1 phonepe_fields w in
    if PaymentStatus_eqb status PAID
    then _maybe_send_payment_notifications settings env p1
           (save_admission_paid p1 w1)
    else Ok (p1, w1).
Proof.
  intros H. unfold _update_payment_from_phonepe. rewrite H.
  unfold bind, applied, phonepe_fields. cbv zeta.
  destruct (PaymentStatus_eqb (_map_phonepe_status py_repr str_upper state
      code) PAID);
    reflexivity.
Qed.

Lemma PaymentStatus_eqb_eq (a b : PaymentStatus) :
  PaymentStatus_eqb a b = true <-> a = b.
Proof. destruct a, b; simpl; split; congruence. Qed.

Lemma applied_columns (st : PaymentStatus) (pid ref resp : string)
    (now : Z) (payment : Payment) :
  same_keys payment (applied st pid ref resp now payment)
  /\ status (applied st pid ref resp now payment) = st
  /\ payment_id (applied st pid ref resp now payment) = pid
  /\ reference_id (applied st pid ref resp now payment) = ref
  /\ gateway_response (applied st pid ref resp now payment) = resp
  /\ gateway (applied st pid ref resp now payment) = Some PHONEPE
  /\ signature (applied st pid ref resp now payment) = signature payment
  /\ notified_at (applied st pid ref resp now payment)
     = notified_at payment
  /\ paid_at (applied st pid ref resp now payment)
     = if PaymentStatus_eqb st PAID then Some now else paid_at payment.
Proof.
  unfold applied. destruct (PaymentStatus_eqb st PAID); repeat split.
Qed.

(** Saving the object over the row it was loaded from gives the
    object. *)
Lemma copy_fields_applied (st : PaymentStatus) (pid ref resp : string)
    (now : Z) (payment : Payment) :
  copy_fields phonepe_fields (applied st pid ref resp now payment) payment
  = applied st pid ref resp now payment.
Proof.
  unfold applied. destruct payment.
  destruct (PaymentStatus_eqb st PAID); reflexivity.
Qed.

Lemma stored_save_keep (p : Payment) (fs : list PaymentField) (w : World)
    (key : Z) (P : Payment -> Prop) :
  stored w key P ->
  (forall row, P row -> P (copy_fields fs p row)) ->
  stored (save_payment p fs w) key P.
Proof.
  intros [[row0 [Hin0 Hk0]] Hall] Hkeep. split.
  - exists (if pk row0 =? pk p then copy_fields fs p row0 else row0).
    split; [apply In_save_payment; eauto|].
    destruct (pk row0 =? pk p); [|assumption].
    destruct (copy_fields_keys fs p row0) as [E _]. congruence.
  - intros row' Hin' Hk'. apply In_save_payment in Hin'.
    destruct Hin' as [row [Hin ->]].
    destruct (pk row =? pk p).
    + apply Hkeep. apply Hall; [assumption|].
      destruct (copy_fields_keys fs p row) as [E _]. congruence.
    + now apply Hall.
Qed.

Lemma stored_same_rows (w w' : World) (key : Z) (P : Payment -> Prop) :
  payments w' = payments w -> stored w key P -> stored w' key P.
Proof. unfold stored. intros ->. auto. Qed.

(** The notifier leaves the admissions alone and touches no column of a
    payment but [notified_at]. *)
Lemma notify_shape
    (settings : Settings) (env : Env) (payment : Payment) (w : World) :
  exists evs,
    notify_step settings env payment w = (payment, add_log evs w)
    \/ (notified_at payment = None
        /\ notify_step settings env payment w
           = (set_notified_at (Some (now_notified_at env)) payment,
              save_payment
                (set_notified_at (Some (now_notified_at env)) payment)
                [F_notified_at] (add_log evs w))).
Proof.
  exists (attempts settings env payment). unfold notify_step.
  destruct (stamps settings env payment) eqn:E; [right | left; reflexivity].
  split; [|reflexivity]. unfold stamps in E.
  destruct (notified_at payment); [|reflexivity].
  now rewrite andb_false_r in E.
Qed.

Lemma notify_admissions
    (settings : Settings) (env : Env) (payment : Payment) (w : World) :
  admissions (snd (notify_step settings env payment w)) = admissions w.
Proof.
  destruct (notify_shape settings env payment w) as [evs [E | [_ E]]];
    rewrite E; reflexivity.
Qed.

Lemma notify_stored
    (settings : Settings) (env : Env) (payment : Payment) (w : World)
    (key : Z) (P : Payment -> Prop) :
  (forall row t, P row -> P (set_notified_at t row)) ->
  stored w key P ->
  stored (snd (notify_step settings env payment w)) key P.
Proof.
  intros Hkeep Hst.
  destruct (notify_shape settings env payment w) as [evs [E | [_ E]]];
    rewrite E; simpl snd.
  - now apply (stored_same_rows w).
  - apply stored_save_keep.
    + now apply (stored_same_rows w).
    + intros row HP. apply Hkeep. exact HP.
Qed.

Lemma notify_column {A : Type} (col : Payment -> A)
    (settings : Settings) (env : Env) (payment : Payment) (w : World) :
  (forall t row, col (set_notified_at t row) = col row) ->
  map col (payments (snd (notify_step settings env payment w)))
  = map col (payments w)
  /\ col (fst (notify_step settings env payment w)) = col payment.
Proof.
  intros Hcol.
  destruct (notify_shape settings env payment w) as [evs [E | [_ E]]];
    rewrite E; simpl fst; simpl snd.
  - split; reflexivity.
  - split; [|apply Hcol].
    rewrite save_payment_column; [reflexivity|].
    intros f src dst [<-|[]]. apply Hcol.
Qed.

(** What follows a call that ends as [ended] says. *)
Lemma bind_ended {A B : Type} (stopped : bool) (a : A) (w : World)
    (b : B) :
  (x <- ended stopped a w ;; Ok (b, snd x)) = ended stopped b w.
Proof. destruct stopped; reflexivity. Qed.

Lemma left_by_ended {A : Type} (stopped : bool) (a : A) (w w0 : World) :
  left_by (ended stopped a w) w0 = w.
Proof. destruct stopped; reflexivity. Qed.

Lemma stored_applied (st : PaymentStatus) (pid ref resp : string) (now : Z)
    (payment : Payment) (w : World) :
  In payment (payments w) ->
  stored (save_payment (applied st pid ref resp now payment)
            phonepe_fields w)
    (pk payment)
    (fun row => status row = st /\ payment_id row = pid
                /\ reference_id row = ref /\ gateway_response row = resp
                /\ gateway row = Some PHONEPE
                /\ paid_at row
                   = if PaymentStatus_eqb st PAID then Some now
                     else paid_at payment).
Proof.
  intros Hin. apply stored_save_payment.
  - exists payment. now split.
  - apply applied_columns.
  - intros row _ _. unfold applied.
    destruct (PaymentStatus_eqb st PAID); repeat split.
Qed.

(** The result of the apply step on a payload whose fields can be
    read. *)
Lemma update_payment_result
    (py_repr : json -> string) (str_upper : string -> string)
    (json_dumps : json -> string)
    (settings : Settings) (env : Env) (payment : Payment) (decoded : json)
    (w : World) (state code : json) (pid ref : string) :
  decoded_fields py_repr decoded = Ok (state, code, pid, ref) ->
  In payment (payments w) ->
  exists payment' w',
    _update_payment_from_phonepe py_repr str_upper json_dumps settings env
      payment decoded w
    = ended (PaymentStatus_eqb
               (_map_phonepe_status py_repr str_upper state code) PAID
             && interrupted settings env payment) payment' w'
    /\ status payment' = _map_phonepe_status py_repr str_upper state code
    /\ stored w' (pk payment)
         (fun row =>
            status row = _map_phonepe_status py_repr str_upper state code
            /\ paid_at row
               = if PaymentStatus_eqb
                      (_map_phonepe_status py_repr str_upper state code) PAID
                 then Some (now_paid_at env) else paid_at payment).
Proof.
  intros Hfields Hin.
  rewrite (update_payment_unfold py_repr str_upper json_dumps settings env
             payment decoded w state code pid ref Hfields).
  cbv zeta.
  set (st := _map_phonepe_status py_repr str_upper state code).
  set (p1 := applied st pid ref (json_dumps decoded) (now_paid_at env)
               payment).
  assert (Hst : stored (save_payment p1 phonepe_fields w) (pk payment)
                  (fun row =>
                     status row = st
                     /\ paid_at row
                        = if PaymentStatus_eqb st PAID
                          then Some (now_paid_at env) else paid_at payment)).
  { eapply stored_weaken; [|apply stored_applied; exact Hin].
    simpl. intros row H. split; apply H. }
  destruct (PaymentStatus_eqb st PAID) eqn:E; cbn [andb].
  - rewrite notify_ended.
    assert (Hi : interrupted settings env p1
                 = interrupted settings env payment).
    { unfold interrupted, p1, applied. rewrite E. reflexivity. }
    rewrite Hi. eexists; eexists. split; [reflexivity|]. split.
    + destruct (notify_column status settings env p1
                  (save_admission_paid p1
                     (save_payment p1 phonepe_fields w))) as [_ H];
        [reflexivity|].
      rewrite H. apply applied_columns.
    + apply notify_stored.
      * intros row t H. exact H.
      * eapply stored_same_rows; [|exact Hst]. reflexivity.
  - exists p1, (save_payment p1 phonepe_fields w).
    split; [reflexivity|]. split; [apply applied_columns | exact Hst].
Qed.

(** The provider-A check returns, or raises [TypeError]. *)
Lemma razorpay_cases (order_id payment_id signature key_secret : string) :
  (exists verified,
     _verify_razorpay_signature order_id payment_id signature key_secret
     = Ok verified)
  \/ (_verify_razorpay_signature order_id payment_id signature key_secret
      = Raise TypeError
      /\ order_id <> "" /\ payment_id <> "" /\ signature <> ""
      /\ key_secret <> "" /\ PyStr.is_ascii signature = false).
Proof.
  destruct (string_dec order_id "") as [Ho | Ho];
    [left; exists false; apply razorpay_guard; tauto|].
  destruct (string_dec payment_id "") as [Hp | Hp];
    [left; exists false; apply razorpay_guard; tauto|].
  destruct (string_dec signature "") as [Hs | Hs];
    [left; exists false; apply razorpay_guard; tauto|].
  destruct (string_dec key_secret "") as [Hk | Hk];
    [left; exists false; apply razorpay_guard; tauto|].
  rewrite (razorpay_check _ _ _ _ Ho Hp Hs Hk).
  destruct (PyStr.is_ascii signature); [left; eauto | right; tauto].
Qed.

(** Redirect-verify with a signature that verifies. *)
Lemma payment_verify_valid_step
    (settings : Settings) (env : Env) (request : VerifyRequest)
    (w : World) (payment : Payment) :
  payment_by_order_id (razorpay_order_id request) w = Some payment ->
  _verify_razorpay_signature (razorpay_order_id request)
    (razorpay_payment_id request) (razorpay_signature request)
    (RAZORPAY_KEY_SECRET settings) = Ok true ->
  let p1 :=
    set_paid_at (Some (now_paid_at env))
      (set_signature (razorpay_signature request)
         (set_payment_id (razorpay_payment_id request)
            (set_status PAID payment))) in
  payment_verify settings env request w
  = ended (interrupted settings env payment)
      (Redirect (Route_admission_success (admission_id payment))
         Success "Payment successful.")
      (snd (notify_step settings env p1
              (save_admission_paid p1
                 (save_payment p1
                    [F_status; F_payment_id; F_signature; F_paid_at] w)))).
Proof.
  intros Hfind Hsig p1. unfold payment_verify.
  rewrite Hfind, Hsig. cbn [bind negb]. cbv zeta. fold p1.
  rewrite notify_ended.
  change (interrupted settings env p1)
    with (interrupted settings env payment).
  destruct (interrupted settings env payment); cbn [ended bind];
    [reflexivity|].
  destruct (notify_column admission_id settings env p1
              (save_admission_paid p1
                 (save_payment p1
                    [F_status; F_payment_id; F_signature; F_paid_at] w)))
    as [_ H]; [reflexivity|].
  destruct (notify_step settings env p1 _) as [p' w'].
  cbn [fst snd] in *. rewrite H. reflexivity.
Qed.

(* ------------------------------------------------------------------ *)
(** ** Status after an outcome *)

(** C1 (amended). For a Payment whose status is Paid, the status after
    an outcome is the status of that outcome. The apply step of the
    callback and the poll leaves it with the mapped status of the
    payload, so it stays Paid exactly when the payload maps to Paid;
    the step returns, or, for a payload mapped to Paid, ends with the
    exception of a notification dispatch after the save. Redirect-verify
    leaves it Paid when the signature check answers True and Failed
    when it answers False; the check either answers or raises
    [TypeError] (a signature with a character out of ASCII), and then
    the request ends with that exception and the payment is as it
    was. *)
Theorem C1_status_follows_outcome
    (py_repr : json -> string) (str_upper : string -> string)
    (json_dumps : json -> string)
    (settings : Settings) (env : Env) (payment : Payment) (w : World) :
  status payment = PAID ->
  In payment (payments w) ->
  (forall decoded state code pid ref,
     decoded_fields py_repr decoded = Ok (state, code, pid, ref) ->
     exists payment' w',
       _update_payment_from_phonepe py_repr str_upper json_dumps settings env
         payment decoded w
       = ended (PaymentStatus_eqb
                  (_map_phonepe_status py_repr str_upper state code) PAID
                && interrupted settings env payment) payment' w'
       /\ status payment' = _map_phonepe_status py_repr str_upper state code
       /\ stored w' (pk payment)
            (fun row =>
               status row
               = _map_phonepe_status py_repr str_upper state code))
  /\ (forall request,
        payment_by_order_id (razorpay_order_id request) w = Some payment ->
        let verified :=
          _verify_razorpay_signature (razorpay_order_id request)
            (razorpay_payment_id request) (razorpay_signature request)
            (RAZORPAY_KEY_SECRET settings) in
        (verified = Ok true ->
         exists response w',
           payment_verify settings env request w
           = ended (interrupted settings env payment) response w'
           /\ stored w' (pk payment) (fun row => status row = PAID))
        /\ (verified = Ok false ->
            exists response w',
              payment_verify settings env request w = Ok (response, w')
              /\ stored w' (pk payment) (fun row => status row = FAILED))
        /\ ((exists answer, verified = Ok answer)
            \/ (verified = Raise TypeError
                /\ PyStr.is_ascii (razorpay_signature request) = false
                /\ payment_verify settings env request w
                   = Raise TypeError))).
Proof.
  intros _ Hin. split.
  - intros decoded state code pid ref Hfields.
    destruct (update_payment_result py_repr str_upper json_dumps settings
                env payment decoded w state code pid ref Hfields Hin)
      as [p' [w' [E [Hs Hst]]]].
    exists p', w'. split; [exact E|]. split; [exact Hs|].
    eapply stored_weaken; [|exact Hst]. simpl. intros row H. apply H.
  - intros request Hfind verified. split; [|split].
    + intros Hsig.
      pose proof (payment_verify_valid_step settings env request w payment
                    Hfind Hsig) as E. cbv zeta in E.
      eexists; eexists. split; [exact E|].
      apply notify_stored; [intros row t H; exact H|].
      eapply stored_same_rows; [reflexivity|].
      apply stored_save_payment;
        [exists payment; now split | reflexivity |].
      intros row _ _. reflexivity.
    + intros Hsig.
      destruct (payment_verify_invalid settings env request w payment
                  Hfind Hsig) as [w' [E [Hst _]]].
      eexists; exists w'. split; [exact E|].
      eapply stored_weaken; [|exact Hst]. simpl. intros row H. apply H.
    + destruct (razorpay_cases (razorpay_order_id request)
                  (razorpay_payment_id request) (razorpay_signature request)
                  (RAZORPAY_KEY_SECRET settings))
        as [Hok | [Hraise [_ [_ [_ [_ Ha]]]]]]; [left; exact Hok|].
      right. split; [exact Hraise|]. split; [exact Ha|].
      unfold payment_verify. rewrite Hfind, Hraise. reflexivity.
Qed.

(** C1 at the Paid payment of the scenario: the FAILED payload leaves it
    Failed, the COMPLETED payload leaves it Paid, and a redirect with a
    signature that does not verify leaves it Failed. *)
Lemma C1_witness :
  (exists payment' w',
     _update_payment_from_phonepe Sample.py_repr0 Sample.str_upper0
       Sample.json_dumps0
       Sample.settings0 (Sample.env_at 3000 Sample.up "")
       Sample.payment_paid Sample.decoded_failed Sample.w_paid
     = Ok (payment', w')
     /\ status payment' = FAILED
     /\ stored w' 1 (fun row => status row = FAILED))
  /\ (exists payment' w',
        _update_payment_from_phonepe Sample.py_repr0 Sample.str_upper0
          Sample.json_dumps0
          Sample.settings0 (Sample.env_at 3000 Sample.up "")
          Sample.payment_paid Sample.decoded_paid Sample.w_paid
        = Ok (payment', w')
        /\ status payment' = PAID
        /\ stored w' 1 (fun row => status row = PAID))
  /\ (exists response w',
        payment_verify Sample.settings0 (Sample.env_at 3000 Sample.up "")
          (mkVerifyRequest "ADM42171700000001" "pay_X" "00") Sample.w_paid
        = Ok (response, w')
        /\ stored w' 1 (fun row => status row = FAILED)).
Proof.
  destruct (C1_status_follows_outcome Sample.py_repr0 Sample.str_upper0
              Sample.json_dumps0
              Sample.settings0 (Sample.env_at 3000 Sample.up "")
              Sample.payment_paid Sample.w_paid eq_refl
              (or_introl eq_refl)) as [Hupdate Hverify].
  split; [|split].
  - apply (Hupdate Sample.decoded_failed (JStr "FAILED") (JStr "")
             "T1" "U1" eq_refl).
  - apply (Hupdate Sample.decoded_paid (JStr "COMPLETED") (JStr "")
             "T1" "U1" eq_refl).
  - apply (Hverify (mkVerifyRequest "ADM42171700000001" "pay_X" "00")
             eq_refl). vm_compute. reflexivity.
Defined.

(** C1, as stated, fails: the Paid payment of the scenario is Failed
    after the verified callback that reports FAILED and after the poll
    that is answered FAILED, Pending after a payload with an unknown
    state, and the Paid Razorpay payment is Failed after a redirect
    whose signature does not verify. *)
Lemma C1_counterexample :
  map status (payments Sample.w_paid) = [PAID]
  /\ (exists w',
        phonepe_callback Sample.py_repr0 Sample.str_upper0 Sample.json_dumps0
          Sample.json_loads0 Sample.b64decode_utf8_0 Sample.settings0
          (Sample.env_at 3000 Sample.up "") Sample.callback_failed
          Sample.w_paid
        = Ok (HttpResponse "OK" 200, w')
        /\ map status (payments w') = [FAILED])
  /\ (exists w',
        phonepe_status_check Sample.py_repr0 Sample.str_upper0
            Sample.json_dumps0
          Sample.json_loads0 Sample.settings0
          (Sample.env_at 3000 Sample.up Sample.b64_failed) 42 Sample.w_paid
        = Ok (Redirect (Route_admission_success 42) Info
                "PhonePe status updated.", w')
        /\ map status (payments w') = [FAILED])
  /\ (exists payment' w',
        _update_payment_from_phonepe Sample.py_repr0 Sample.str_upper0
            Sample.json_dumps0
          Sample.settings0 (Sample.env_at 3000 Sample.up "")
          Sample.payment_paid (Sample.outcome "PAYMENT_PENDING")
          Sample.w_paid
        = Ok (payment', w')
        /\ map status (payments w') = [PENDING])
  /\ map status (payments Sample.w_rzp_paid) = [PAID]
  /\ (exists w',
        payment_verify Sample.settings0 (Sample.env_at 3000 Sample.up "")
          Sample.redirect_tampered Sample.w_rzp_paid
        = Ok (Redirect (Route_admission_success 42) Error
                "Payment verification failed.", w')
        /\ map status (payments w') = [FAILED]).
Proof.
  split; [reflexivity|].
  split; [eexists; split; [vm_compute; reflexivity | reflexivity]|].
  split; [eexists; split; [vm_compute; reflexivity | reflexivity]|].
  split; [eexists; eexists; split; [vm_compute; reflexivity | reflexivity]|].
  split; [reflexivity|].
  eexists; split; [vm_compute; reflexivity | reflexivity].
Qed.

(* ------------------------------------------------------------------ *)
(** ** Replaying a Paid outcome *)

Lemma delivered_dispatches (settings : Settings) (env : Env) :
  cut_short settings env = false ->
  ((exists ch, In (Dispatched ch true) (dispatches settings env))
   <-> delivered settings env = true).
Proof.
  unfold delivered, reported, cut_short, dispatches.
  destruct (_sms_configured settings), (_whatsapp_configured settings),
    (succeeded (sms_net env)), (succeeded (whatsapp_net env)),
    (raised (sms_net env)), (raised (whatsapp_net env));
    cbn; intros Hcut; try discriminate Hcut;
    split; try reflexivity; try discriminate;
    try (intros _; (exists SMS; tauto) || (exists WhatsApp; tauto));
    intros [ch H]; intuition discriminate.
Qed.

(** The lookup by order id finds the saved object where it found the
    row the object was loaded from. *)
Lemma payment_by_order_id_save (key : string) (w : World)
    (payment p : Payment) (fs : list PaymentField) :
  payment_by_order_id key w = Some payment ->
  pk p = pk payment ->
  payment_by_order_id key (save_payment p fs w)
  = Some (copy_fields fs p payment).
Proof.
  unfold payment_by_order_id, save_payment. cbn [payments].
  intros Hfind Hpk. induction (payments w) as [|row rows IH]; [discriminate|].
  cbn [find map] in *.
  assert (Hord : order_id (if pk row =? pk p
                           then copy_fields fs p row else row)
                 = order_id row).
  { destruct (pk row =? pk p); [|reflexivity].
    apply (copy_fields_keys fs p row). }
  rewrite Hord.
  destruct (order_id row =? key)%string.
  - injection Hfind as ->.
    replace (pk payment =? pk p) with true; [reflexivity|].
    symmetry. apply Z.eqb_eq. congruence.
  - apply IH. exact Hfind.
Qed.

Lemma payment_by_order_id_rows (key : string) (w w' : World) :
  payments w' = payments w ->
  payment_by_order_id key w' = payment_by_order_id key w.
Proof. unfold payment_by_order_id. now intros ->. Qed.

Lemma update_payment_paid
    (py_repr : json -> string) (str_upper : string -> string)
    (json_dumps : json -> string)
    (settings : Settings) (env : Env) (payment : Payment) (decoded : json)
    (w : World) (state code : json) (pid ref : string) :
  decoded_fields py_repr decoded = Ok (state, code, pid, ref) ->
  _map_phonepe_status py_repr str_upper state code = PAID ->
  _update_payment_from_phonepe py_repr str_upper json_dumps settings env payment
    decoded w
  = ended (interrupted settings env payment)
      (fst (paid_step settings env pid ref (json_dumps decoded) payment w))
      (snd (paid_step settings env pid ref (json_dumps decoded) payment w)).
Proof.
  intros Hfields Hpaid.
  rewrite (update_payment_unfold py_repr str_upper json_dumps settings env
      payment
             decoded w state code pid ref Hfields).
  cbv zeta. rewrite Hpaid. cbn [PaymentStatus_eqb].
  rewrite notify_ended. reflexivity.
Qed.

Lemma paid_step_eq (settings : Settings) (env : Env) (pid ref resp : string)
    (payment : Payment) (w : World) :
  let p1 := applied PAID pid ref resp (now_paid_at env) payment in
  let w1 := add_log (paid_writes payment ++ attempts settings env payment)
              (mkWorld
                 (payments (save_payment p1 phonepe_fields w))
                 (admissions (save_admission_paid p1 w))
                 (log w)) in
  paid_step settings env pid ref resp payment w
  = if stamps settings env payment
    then (set_notified_at (Some (now_notified_at env)) p1,
          save_payment (set_notified_at (Some (now_notified_at env)) p1)
            [F_notified_at] w1)
    else (p1, w1).
Proof.
  cbv zeta. unfold paid_step, notify_step.
  assert (Hs : stamps settings env
                 (applied PAID pid ref resp (now_paid_at env) payment)
               = stamps settings env payment) by reflexivity.
  assert (Ha : attempts settings env
                 (applied PAID pid ref resp (now_paid_at env) payment)
               = attempts settings env payment) by reflexivity.
  rewrite Hs, Ha.
  assert (Hw : add_log (attempts settings env payment)
                 (save_admission_paid
                    (applied PAID pid ref resp (now_paid_at env) payment)
                    (save_payment
                       (applied PAID pid ref resp (now_paid_at env) payment)
                       phonepe_fields w))
               = add_log (paid_writes payment
                          ++ attempts settings env payment)
                   (mkWorld
                      (payments
                         (save_payment
                            (applied PAID pid ref resp (now_paid_at env)
                               payment) phonepe_fields w))
                      (admissions
                         (save_admission_paid
                            (applied PAID pid ref resp (now_paid_at env)
                               payment) w))
                      (log w))).
  { unfold add_log, save_admission_paid, save_payment, paid_writes.
    cbn. rewrite <- !app_assoc. reflexivity. }
  rewrite Hw. reflexivity.
Qed.

Lemma save_admission_paid_admissions (p : Payment) (w : World) :
  admissions (save_admission_paid p w)
  = map (fun row =>
           if a_pk row =? admission_id p
           then set_fee_paid (amount p) (set_fee_status Fee_PAID row)
           else row) (admissions w).
Proof. reflexivity. Qed.

Lemma paid_step_admissions (settings : Settings) (env : Env)
    (pid ref resp : string) (payment : Payment) (w : World) :
  admissions (snd (paid_step settings env pid ref resp payment w))
  = map (fun row =>
           if a_pk row =? admission_id payment
           then set_fee_paid (amount payment) (set_fee_status Fee_PAID row)
           else row) (admissions w).
Proof.
  unfold paid_step. rewrite notify_admissions.
  rewrite save_admission_paid_admissions.
  destruct (applied_columns PAID pid ref resp (now_paid_at env) payment)
    as [[_ [Ha [Hm _]]] _].
  rewrite Ha, Hm. reflexivity.
Qed.

Lemma mark_admission_idem (key amount : Z) (rows : list Admission) :
  let mark := fun row =>
    if a_pk row =? key
    then set_fee_paid amount (set_fee_status Fee_PAID row) else row in
  map mark (map mark rows) = map mark rows.
Proof.
  cbv zeta. rewrite map_map. apply map_ext. intros row.
  destruct (a_pk row =? key) eqn:E; [|now rewrite E].
  cbn. rewrite E. reflexivity.
Qed.

Lemma paid_step_found (settings : Settings) (env : Env)
    (pid ref resp : string) (payment : Payment) (w : World) (key : string) :
  payment_by_order_id key w = Some payment ->
  payment_by_order_id key
    (snd (paid_step settings env pid ref resp payment w))
  = Some (fst (paid_step settings env pid ref resp payment w)).
Proof.
  intros Hfind.
  pose proof (paid_step_eq settings env pid ref resp payment w) as E.
  cbv zeta in E. rewrite E. clear E.
  set (p1 := applied PAID pid ref resp (now_paid_at env) payment).
  assert (H1 : payment_by_order_id key (save_payment p1 phonepe_fields w)
               = Some p1).
  { rewrite (payment_by_order_id_save key w payment p1 phonepe_fields Hfind).
    - unfold p1. now rewrite copy_fields_applied.
    - apply applied_columns. }
  destruct (stamps settings env payment); cbn [fst snd].
  - erewrite payment_by_order_id_save.
    + reflexivity.
    + erewrite payment_by_order_id_rows; [exact H1 | reflexivity].
    + reflexivity.
  - erewrite payment_by_order_id_rows; [exact H1 | reflexivity].
Qed.

Lemma forget_stamps_notified (t : option Z) (row : Payment) :
  forget_stamps (set_notified_at t row) = forget_stamps row.
Proof. reflexivity. Qed.

(** Saving the applied object over rows that already hold its gateway
    columns changes, at most, their [paid_at]. *)
Lemma replay_same_rows (p : Payment) (w : World) :
  (forall row, In row (payments w) -> pk row = pk p ->
     status row = status p /\ payment_id row = payment_id p
     /\ reference_id row = reference_id p
     /\ gateway_response row = gateway_response p
     /\ gateway row = gateway p) ->
  map forget_stamps (payments (save_payment p phonepe_fields w))
  = map forget_stamps (payments w).
Proof.
  intros H. unfold save_payment. cbn [payments]. rewrite map_map.
  apply map_ext_in. intros row Hin.
  destruct (pk row =? pk p) eqn:E; [|reflexivity].
  apply Z.eqb_eq in E. destruct (H row Hin E) as [H1 [H2 [H3 [H4 H5]]]].
  destruct row, p. cbn in *. subst. reflexivity.
Qed.

Lemma paid_step_rows (settings : Settings) (env : Env)
    (pid ref resp : string) (payment : Payment) (w : World) :
  In payment (payments w) ->
  stored (snd (paid_step settings env pid ref resp payment w)) (pk payment)
    (fun row => status row = PAID /\ payment_id row = pid
                /\ reference_id row = ref /\ gateway_response row = resp
                /\ gateway row = Some PHONEPE).
Proof.
  intros Hin. unfold paid_step. apply notify_stored.
  - intros row t H. exact H.
  - eapply stored_same_rows; [reflexivity|].
    eapply stored_weaken; [|apply stored_applied; exact Hin].
    cbn beta. intros row H. repeat split; apply H.
Qed.

Lemma paid_step_object (settings : Settings) (env : Env)
    (pid ref resp : string) (payment : Payment) (w : World) :
  let p' := fst (paid_step settings env pid ref resp payment w) in
  same_keys payment p'
  /\ status p' = PAID /\ payment_id p' = pid /\ reference_id p' = ref
  /\ gateway_response p' = resp /\ gateway p' = Some PHONEPE
  /\ signature p' = signature payment
  /\ paid_at p' = Some (now_paid_at env)
  /\ notified_at p'
     = if stamps settings env payment then Some (now_notified_at env)
       else notified_at payment.
Proof.
  pose proof (paid_step_eq settings env pid ref resp payment w) as E.
  cbv zeta in *. rewrite E.
  destruct (stamps settings env payment); cbn [fst]; repeat split.
Qed.

Lemma paid_step_log (settings : Settings) (env : Env)
    (pid ref resp : string) (payment : Payment) (w : World) :
  log (snd (paid_step settings env pid ref resp payment w))
  = (log w ++ paid_writes payment ++ attempts settings env payment
     ++ (if stamps settings env payment
         then [PaymentSaved (pk payment) [F_notified_at]] else []))%list.
Proof.
  pose proof (paid_step_eq settings env pid ref resp payment w) as E.
  cbv zeta in *. rewrite E.
  destruct (stamps settings env payment); cbn [snd].
  - unfold save_payment, add_log. cbn. rewrite <- !app_assoc. reflexivity.
  - unfold add_log. cbn. rewrite app_nil_r. reflexivity.
Qed.

Lemma attempts_notified (settings : Settings) (env : Env) (p : Payment) :
  notified_at p <> None ->
  attempts settings env p = [] /\ stamps settings env p = false.
Proof.
  unfold attempts, stamps. destruct (notified_at p); [|congruence].
  intros _. destruct (SEND_PAYMENT_NOTIFICATIONS settings); split;
    reflexivity.
Qed.

Lemma attempts_delivered (settings : Settings) (env : Env) (p : Payment)
    (ch : Channel) :
  In (Dispatched ch true) (attempts settings env p) ->
  interrupted settings env p = false ->
  stamps settings env p = true.
Proof.
  unfold attempts, stamps, interrupted.
  destruct (SEND_PAYMENT_NOTIFICATIONS settings); [|intros []].
  destruct (notified_at p); [intros []|].
  intros H Hcut. cbn [andb] in *.
  apply delivered_dispatches; [exact Hcut | now exists ch].
Qed.

Lemma interrupted_calm (settings : Settings) (env : Env) (p : Payment) :
  cut_short settings env = false -> interrupted settings env p = false.
Proof.
  unfold interrupted. intros ->.
  destruct (SEND_PAYMENT_NOTIFICATIONS settings), (notified_at p);
    reflexivity.
Qed.

Lemma callback_paid
    (py_repr : json -> string) (str_upper : string -> string)
    (json_dumps : json -> string)
    (json_loads : string -> option json)
    (b64decode_utf8 : string -> option string)
    (settings : Settings) (env : Env) (request : CallbackRequest)
    (w : World) (merchant_txn_id decoded state code : json)
    (pid ref : string) (payment : Payment) :
  callback_envelope py_repr json_loads b64decode_utf8 settings request
  = Ok (inr (merchant_txn_id, decoded)) ->
  payment_by_order_id (py_str py_repr merchant_txn_id) w = Some payment ->
  decoded_fields py_repr decoded = Ok (state, code, pid, ref) ->
  _map_phonepe_status py_repr str_upper state code = PAID ->
  phonepe_callback py_repr str_upper json_dumps json_loads b64decode_utf8
      settings
    env request w
  = ended (interrupted settings env payment) (HttpResponse "OK" 200)
      (snd (paid_step settings env pid ref (json_dumps decoded)
              payment w)).
Proof.
  intros Henv Hfind Hfields Hpaid. unfold phonepe_callback.
  rewrite Henv. cbn [bind]. rewrite Hfind.
  rewrite (update_payment_paid py_repr str_upper json_dumps settings env payment
             decoded w state code pid ref Hfields Hpaid).
  apply bind_ended.
Qed.

(** C2 (amended). Two deliveries of the same callback whose payload maps
    to Paid are both applied: each is answered OK or, where a dispatch
    of its notification raises, ends with that exception after its
    saves. After the second, the payment is Paid as after the first,
    every column of every payment other than [paid_at] and
    [notified_at] is as after the first, and so are the admissions,
    whose fee is Paid with the payment's amount. If the payment is
    notified after the first delivery, the second makes no dispatch and
    leaves [notified_at] as it is; if it is not, the second delivery
    makes the dispatches again and stamps [notified_at] when one
    succeeds and none raises. A dispatch that succeeded in a first
    delivery that was answered leaves the payment notified, so at most
    one of the two deliveries has a successful dispatch. *)
Theorem C2_paid_replay
    (py_repr : json -> string) (str_upper : string -> string)
    (json_dumps : json -> string)
    (json_loads : string -> option json)
    (b64decode_utf8 : string -> option string)
    (settings : Settings) (env1 env2 : Env) (request : CallbackRequest)
    (w : World) (merchant_txn_id decoded state code : json)
    (pid ref : string) (payment : Payment) :
  callback_envelope py_repr json_loads b64decode_utf8 settings request
  = Ok (inr (merchant_txn_id, decoded)) ->
  payment_by_order_id (py_str py_repr merchant_txn_id) w = Some payment ->
  decoded_fields py_repr decoded = Ok (state, code, pid, ref) ->
  _map_phonepe_status py_repr str_upper state code = PAID ->
  exists p1 w1 p2 w2 evs1 evs2,
    phonepe_callback py_repr str_upper json_dumps json_loads b64decode_utf8
        settings
      env1 request w
    = ended (interrupted settings env1 payment) (HttpResponse "OK" 200) w1
    /\ payment_by_order_id (py_str py_repr merchant_txn_id) w1 = Some p1
    /\ phonepe_callback py_repr str_upper json_dumps json_loads b64decode_utf8
         settings env2 request w1
       = ended (interrupted settings env2 p1) (HttpResponse "OK" 200) w2
    /\ payment_by_order_id (py_str py_repr merchant_txn_id) w2 = Some p2
    /\ status p1 = PAID /\ status p2 = PAID
    /\ forget_stamps p2 = forget_stamps p1
    /\ map forget_stamps (payments w2) = map forget_stamps (payments w1)
    /\ admissions w2 = admissions w1
    /\ (forall a, In a (admissions w2) -> a_pk a = admission_id payment ->
          fee_status a = Fee_PAID /\ fee_paid a = amount payment)
    /\ log w1 = (log w ++ evs1)%list
    /\ log w2 = (log w1 ++ evs2)%list
    /\ (notified_at p1 <> None ->
        notified_at p2 = notified_at p1
        /\ map notified_at (payments w2) = map notified_at (payments w1)
        /\ evs2 = paid_writes payment)
    /\ (notified_at p1 = None ->
        SEND_PAYMENT_NOTIFICATIONS settings = true ->
        evs2 = (paid_writes payment ++ dispatches settings env2
                ++ (if delivered settings env2
                    then [PaymentSaved (pk payment) [F_notified_at]]
                    else []))%list
        /\ notified_at p2
           = if delivered settings env2 then Some (now_notified_at env2)
             else None)
    /\ ((exists ch, In (Dispatched ch true) evs1) ->
        interrupted settings env1 payment = false ->
        notified_at p1 <> None).
Proof.
  intros Henv Hfind Hfields Hpaid.
  set (resp := json_dumps decoded).
  set (key := py_str py_repr merchant_txn_id) in *.
  set (s1 := paid_step settings env1 pid ref resp payment w).
  set (s2 := paid_step settings env2 pid ref resp (fst s1) (snd s1)).
  assert (Hfind1 : payment_by_order_id key (snd s1) = Some (fst s1))
    by (apply paid_step_found; exact Hfind).
  assert (Hfind2 : payment_by_order_id key (snd s2) = Some (fst s2))
    by (apply paid_step_found; exact Hfind1).
  destruct (payment_by_order_id_In key w payment Hfind) as [Hin _].
  destruct (payment_by_order_id_In key (snd s1) (fst s1) Hfind1)
    as [Hin1 _].
  pose proof (paid_step_object settings env1 pid ref resp payment w)
    as Ho1.
  pose proof (paid_step_object settings env2 pid ref resp (fst s1) (snd s1))
    as Ho2.
  cbv zeta in Ho1, Ho2. fold s1 in Ho1. fold s1 s2 in Ho2.
  destruct Ho1 as [K1 [S1 [P1 [R1 [G1 [W1 [Sg1 [Pa1 N1]]]]]]]].
  destruct Ho2 as [K2 [S2 [P2 [R2 [G2 [W2 [Sg2 [Pa2 N2]]]]]]]].
  destruct K1 as [K1a [K1b [K1c [K1d [K1e K1f]]]]].
  destruct K2 as [K2a [K2b [K2c [K2d [K2e K2f]]]]].
  exists (fst s1), (snd s1), (fst s2), (snd s2).
  exists (paid_writes payment ++ attempts settings env1 payment
          ++ (if stamps settings env1 payment
              then [PaymentSaved (pk payment) [F_notified_at]] else []))%list.
  exists (paid_writes payment ++ attempts settings env2 (fst s1)
          ++ (if stamps settings env2 (fst s1)
              then [PaymentSaved (pk payment) [F_notified_at]] else []))%list.
  split; [apply (callback_paid py_repr str_upper json_dumps json_loads
      b64decode_utf8
                   settings env1 request w merchant_txn_id decoded state
                   code pid ref payment Henv Hfind Hfields Hpaid)|].
  split; [exact Hfind1|].
  split; [apply (callback_paid py_repr str_upper json_dumps json_loads
      b64decode_utf8
                   settings env2 request (snd s1) merchant_txn_id decoded
                   state code pid ref (fst s1) Henv Hfind1 Hfields Hpaid)|].
  split; [exact Hfind2|].
  split; [exact S1|]. split; [exact S2|].
  split.
  { destruct (fst s1), (fst s2). cbn in *. subst. reflexivity. }
  split.
  { unfold s2, paid_step.
    destruct (notify_column forget_stamps settings env2
                (applied PAID pid ref resp (now_paid_at env2) (fst s1))
                (save_admission_paid
                   (applied PAID pid ref resp (now_paid_at env2) (fst s1))
                   (save_payment
                      (applied PAID pid ref resp (now_paid_at env2) (fst s1))
                      phonepe_fields (snd s1)))) as [Hc _].
    { intros t row. apply forget_stamps_notified. }
    rewrite Hc. change (payments (save_admission_paid ?p ?x))
      with (payments x).
    apply replay_same_rows. intros row Hrow Hk.
    destruct (applied_columns PAID pid ref resp (now_paid_at env2) (fst s1))
      as [[Ka _] [A1 [A2 [A3 [A4 [A5 _]]]]]].
    rewrite A1, A2, A3, A4, A5.
    destruct (paid_step_rows settings env1 pid ref resp payment w Hin)
      as [_ Hall].
    fold s1 in Hall. apply Hall; [exact Hrow | congruence]. }
  split.
  { unfold s2. rewrite paid_step_admissions. unfold s1.
    rewrite paid_step_admissions. fold s1. rewrite K1b, K1c.
    apply mark_admission_idem. }
  split.
  { intros a Ha Hk. unfold s2 in Ha. rewrite paid_step_admissions in Ha.
    apply in_map_iff in Ha. destruct Ha as [a0 [<- _]].
    rewrite K1b, K1c in *.
    destruct (a_pk a0 =? admission_id payment) eqn:E.
    - split; reflexivity.
    - apply Z.eqb_neq in E. contradiction. }
  split; [apply paid_step_log|].
  split.
  { unfold s2. rewrite paid_step_log. unfold paid_writes.
    rewrite K1a, K1b. reflexivity. }
  split.
  { intros Hn.
    destruct (attempts_notified settings env2 (fst s1) Hn) as [Ha Hs].
    rewrite Ha, Hs in *. split; [exact N2|]. split.
    - unfold s2. rewrite (paid_step_eq settings env2 pid ref resp).
      cbv zeta. rewrite Hs. cbn [snd add_log payments].
      apply save_payment_column.
      intros f src dst Hf. unfold phonepe_fields in Hf. cbn in Hf.
      destruct Hf as [<-|[<-|[<-|[<-|[<-|[<-|[]]]]]]]; reflexivity.
    - cbn [app]. rewrite app_nil_r. reflexivity. }
  split.
  { intros Hn Hon. rewrite N2. unfold attempts, stamps.
    rewrite Hon, Hn. cbn [andb].
    destruct (delivered settings env2); split; reflexivity. }
  intros [ch Hch] Hcalm. rewrite N1.
  assert (Hs : stamps settings env1 payment = true).
  { apply in_app_or in Hch. destruct Hch as [Hch | Hch].
    - unfold paid_writes in Hch. cbn in Hch.
      destruct Hch as [H|[H|[]]]; discriminate.
    - apply in_app_or in Hch. destruct Hch as [Hch | Hch].
      + now apply (attempts_delivered settings env1 payment ch).
      + destruct (stamps settings env1 payment); [reflexivity|].
        destruct Hch. }
  rewrite Hs. discriminate.
Qed.

(** C2 at the scenario of the specification: the verified COMPLETED
    callback delivered at 2000 and again at 3000, the SMS channel
    reachable both times. *)
Lemma C2_witness :
  exists p1 w1 p2 w2,
    phonepe_callback Sample.py_repr0 Sample.str_upper0 Sample.json_dumps0
        Sample.json_loads0
      Sample.b64decode_utf8_0 Sample.settings0
      (Sample.env_at 2000 Sample.up "") Sample.callback_paid Sample.w0
    = Ok (HttpResponse "OK" 200, w1)
    /\ payment_by_order_id "ADM42171700000001" w1 = Some p1
    /\ phonepe_callback Sample.py_repr0 Sample.str_upper0 Sample.json_dumps0
         Sample.json_loads0 Sample.b64decode_utf8_0 Sample.settings0
         (Sample.env_at 3000 Sample.up "") Sample.callback_paid w1
       = Ok (HttpResponse "OK" 200, w2)
    /\ payment_by_order_id "ADM42171700000001" w2 = Some p2
    /\ status p1 = PAID /\ status p2 = PAID
    /\ forget_stamps p2 = forget_stamps p1
    /\ map forget_stamps (payments w2) = map forget_stamps (payments w1)
    /\ admissions w2 = admissions w1
    /\ (forall a, In a (admissions w2) -> a_pk a = 42 ->
          fee_status a = Fee_PAID /\ fee_paid a = 1500).
Proof.
  destruct (C2_paid_replay Sample.py_repr0 Sample.str_upper0 Sample.json_dumps0
              Sample.json_loads0 Sample.b64decode_utf8_0 Sample.settings0
              (Sample.env_at 2000 Sample.up "")
              (Sample.env_at 3000 Sample.up "") Sample.callback_paid
              Sample.w0 (JStr "ADM42171700000001") Sample.decoded_paid
              (JStr "COMPLETED") (JStr "") "T1" "U1" Sample.payment0)
    as [p1 [w1 [p2 [w2 [evs1 [evs2 H]]]]]].
  - vm_compute. reflexivity.
  - reflexivity.
  - reflexivity.
  - reflexivity.
  - exists p1, w1, p2, w2.
    destruct H as [H1 [H2 [H3 [H4 [H5 [H6 [H7 [H8 [H9 [H10 _]]]]]]]]]].
    rewrite (interrupted_calm Sample.settings0
               (Sample.env_at 3000 Sample.up "") p1 eq_refl) in H3.
    split; [exact H1|]. split; [exact H2|]. split; [exact H3|].
    repeat (split; [assumption|]). exact H10.
Defined.

(** C2, as stated, fails: the same verified COMPLETED callback is
    delivered at 2000 with the SMS channel down and at 3000 with it up.
    After the first delivery [paid_at] is 2000 and [notified_at] is
    null; after the second [paid_at] is 3000 and [notified_at] is
    3001. And with both channels configured, a first delivery whose SMS
    dispatch succeeds and whose WhatsApp dispatch raises ends with the
    exception and leaves the payment not notified: the second delivery
    dispatches the SMS again, and both deliveries have a successful
    dispatch. *)
Lemma C2_counterexample :
  (exists w1 w2,
     phonepe_callback Sample.py_repr0 Sample.str_upper0 Sample.json_dumps0
       Sample.json_loads0 Sample.b64decode_utf8_0 Sample.settings0
       (Sample.env_at 2000 Sample.down "") Sample.callback_paid Sample.w0
     = Ok (HttpResponse "OK" 200, w1)
     /\ phonepe_callback Sample.py_repr0 Sample.str_upper0
          Sample.json_dumps0 Sample.json_loads0 Sample.b64decode_utf8_0
          Sample.settings0 (Sample.env_at 3000 Sample.up "")
          Sample.callback_paid w1
        = Ok (HttpResponse "OK" 200, w2)
     /\ map paid_at (payments w1) = [Some 2000]
     /\ map paid_at (payments w2) = [Some 3000]
     /\ map notified_at (payments w1) = [None]
     /\ map notified_at (payments w2) = [Some 3001]
     /\ payments w2 <> payments w1)
  /\ (exists w1 w2,
        phonepe_callback Sample.py_repr0 Sample.str_upper0
          Sample.json_dumps0 Sample.json_loads0 Sample.b64decode_utf8_0
          Sample.settings_both (Sample.env_lost 2000) Sample.callback_paid
          Sample.w0
        = RaiseAfter ReadError w1
        /\ phonepe_callback Sample.py_repr0 Sample.str_upper0
             Sample.json_dumps0 Sample.json_loads0 Sample.b64decode_utf8_0
             Sample.settings_both (Sample.env_at 3000 Sample.up "")
             Sample.callback_paid w1
           = Ok (HttpResponse "OK" 200, w2)
        /\ log w1
           = [PaymentSaved 1 phonepe_fields;
              AdmissionSaved 42 [F_fee_status; F_fee_paid];
              Dispatched SMS true; Dispatched WhatsApp false]
        /\ map notified_at (payments w1) = [None]
        /\ log w2
           = (log w1
              ++ [PaymentSaved 1 phonepe_fields;
                  AdmissionSaved 42 [F_fee_status; F_fee_paid];
                  Dispatched SMS true; Dispatched WhatsApp false;
                  PaymentSaved 1 [F_notified_at]])%list).
Proof.
  split.
  - eexists; eexists.
    split; [vm_compute; reflexivity|].
    split; [vm_compute; reflexivity|].
    repeat (split; [reflexivity|]). discriminate.
  - eexists; eexists.
    split; [vm_compute; reflexivity|].
    split; [vm_compute; reflexivity|].
    repeat (split; [reflexivity|]). reflexivity.
Qed.

(* ------------------------------------------------------------------ *)
(** ** The time of payment *)

(** C3, the code at the replay of a Paid outcome: the payment of the
    scenario is Paid since 2000; the verified COMPLETED callback
    delivered again at 3000, and the poll answered COMPLETED at 3000,
    each put 3000 in [paid_at]; so does the validly signed redirect for
    the Paid Razorpay payment. *)
Lemma C3_paid_at_overwritten_on_replay :
  map paid_at (payments Sample.w_paid) = [Some 2000]
  /\ (exists w',
        phonepe_callback Sample.py_repr0 Sample.str_upper0 Sample.json_dumps0
          Sample.json_loads0 Sample.b64decode_utf8_0 Sample.settings0
          (Sample.env_at 3000 Sample.up "") Sample.callback_paid
          Sample.w_paid
        = Ok (HttpResponse "OK" 200, w')
        /\ map paid_at (payments w') = [Some 3000])
  /\ (exists w',
        phonepe_status_check Sample.py_repr0 Sample.str_upper0
            Sample.json_dumps0
          Sample.json_loads0 Sample.settings0
          (Sample.env_at 3000 Sample.up Sample.b64_paid) 42 Sample.w_paid
        = Ok (Redirect (Route_admission_success 42) Info
                "PhonePe status updated.", w')
        /\ map paid_at (payments w') = [Some 3000])
  /\ map paid_at (payments Sample.w_rzp_paid) = [Some 2000]
  /\ (exists w',
        payment_verify Sample.settings0 (Sample.env_at 3000 Sample.up "")
          Sample.redirect_valid Sample.w_rzp_paid
        = Ok (Redirect (Route_admission_success 42) Success
                "Payment successful.", w')
        /\ map paid_at (payments w') = [Some 3000]).
Proof.
  split; [reflexivity|].
  split; [eexists; split; [vm_compute; reflexivity | reflexivity]|].
  split; [eexists; split; [vm_compute; reflexivity | reflexivity]|].
  split; [reflexivity|].
  eexists; split; [vm_compute; reflexivity | reflexivity].
Qed.

(** The admin action and the success page, which also stamp [paid_at],
    keep a [paid_at] that is set. *)
Lemma mark_paid_keeps_paid_at (env : Env) (w : World) (payment : Payment)
    (t : Z) :
  In payment (payments w) ->
  paid_at payment = Some t ->
  stored (mark_paid_payment env w payment) (pk payment)
    (fun row => status row = PAID /\ paid_at row = Some t).
Proof.
  intros Hin Ht. unfold mark_paid_payment. cbv zeta.
  cbn [paid_at set_status]. rewrite Ht.
  eapply stored_same_rows; [reflexivity|].
  apply stored_save_payment; [exists payment; now split | reflexivity |].
  intros row _ _. cbn. split; [reflexivity | exact Ht].
Qed.

Lemma admission_success_keeps_paid_at (env : Env) (admission_id : Z)
    (w w' : World) (payment : Payment) :
  admission_success env admission_id w = Ok w' ->
  payment_by_admission admission_id w = Some payment ->
  paid_at payment <> None ->
  w' = w.
Proof.
  unfold admission_success. intros H Hfind Hpaid.
  destruct (find (fun a => a_pk a =? admission_id) (admissions w))
    as [a|] eqn:Ha; [|discriminate].
  apply find_some in Ha. destruct Ha as [_ Ha]. apply Z.eqb_eq in Ha.
  rewrite Ha, Hfind in H.
  destruct (status payment), (paid_at payment); congruence.
Qed.

(* ------------------------------------------------------------------ *)
(** ** Fee status of the admission *)

Lemma NoDup_map_eq {A B : Type} (f : A -> B) (l : list A) (x y : A) :
  NoDup (map f l) -> In x l -> In y l -> f x = f y -> x = y.
Proof.
  induction l as [|a l IH]; intros Hnd Hx Hy Hf; [destruct Hx|].
  cbn in Hnd. inversion Hnd as [|? ? Hnotin Hnd']; subst.
  destruct Hx as [-> | Hx], Hy as [-> | Hy].
  - reflexivity.
  - exfalso. apply Hnotin. rewrite Hf. now apply in_map.
  - exfalso. apply Hnotin. rewrite <- Hf. now apply in_map.
  - now apply IH.
Qed.

Lemma keyed_save_payment (p : Payment) (fs : list PaymentField) (w : World) :
  keyed w -> keyed (save_payment p fs w).
Proof.
  unfold keyed. intros [H1 H2].
  rewrite !save_payment_column; [now split | |];
    intros f src dst _; destruct f; reflexivity.
Qed.

Lemma keyed_same_rows (w w' : World) :
  payments w' = payments w -> keyed w -> keyed w'.
Proof. unfold keyed. now intros ->. Qed.

Lemma consistent_same (w w' : World) :
  payments w' = payments w -> admissions w' = admissions w ->
  consistent w -> consistent w'.
Proof. unfold consistent. intros -> ->. auto. Qed.

(** A save that makes no row Paid keeps the relation. *)
Lemma consistent_save_payment (p : Payment) (fs : list PaymentField)
    (w : World) :
  (forall row, In row (payments w) -> pk row = pk p ->
     status (copy_fields fs p row) = PAID -> status row = PAID) ->
  consistent w -> consistent (save_payment p fs w).
Proof.
  intros Hst Hc q a Hq Ha Hk. apply In_save_payment in Hq.
  destruct Hq as [row [Hrow ->]].
  change (admissions (save_payment p fs w)) with (admissions w) in Ha.
  destruct (pk row =? pk p) eqn:E.
  - apply Z.eqb_eq in E.
    destruct (copy_fields_keys fs p row) as [_ [Kb [Kc _]]].
    rewrite Kb in Hk. rewrite Kc.
    destruct (Hc row a Hrow Ha Hk) as [C1 C2]. split; [|exact C2].
    intros Hpaid. apply C1. now apply Hst.
  - now apply Hc.
Qed.

(** Marking a payment Paid and then its admission keeps the relation. *)
Lemma consistent_paid (p payment : Payment) (fs : list PaymentField)
    (w : World) :
  keyed w -> In payment (payments w) -> same_keys payment p ->
  consistent w ->
  consistent (save_admission_paid p (save_payment p fs w)).
Proof.
  intros [Hpk Hadm] Hin [Ka [Kb [Kc _]]] Hc q a Hq Ha Hk.
  change (payments (save_admission_paid p (save_payment p fs w)))
    with (payments (save_payment p fs w)) in Hq.
  apply In_save_payment in Hq. destruct Hq as [row [Hrow ->]].
  unfold save_admission_paid in Ha. cbn [admissions] in Ha.
  apply in_map_iff in Ha. destruct Ha as [a0 [<- Ha0]].
  change (admissions (save_payment p fs w)) with (admissions w) in Ha0.
  assert (Hq : same_keys row
                 (if pk row =? pk p then copy_fields fs p row else row)).
  { destruct (pk row =? pk p);
      [apply copy_fields_keys | apply same_keys_refl]. }
  destruct Hq as [_ [Qb [Qc _]]]. rewrite Qb in Hk. rewrite Qc.
  destruct (a_pk a0 =? admission_id p) eqn:Ea.
  - apply Z.eqb_eq in Ea. cbn in Hk. cbn. split; [reflexivity|].
    intros _. rewrite Kc. f_equal.
    apply (NoDup_map_eq admission_id (payments w)); try assumption.
    congruence.
  - apply Z.eqb_neq in Ea.
    destruct (Hc row a0 Hrow Ha0 Hk) as [C1 C2]. split; [|exact C2].
    destruct (pk row =? pk p) eqn:E; [|exact C1].
    apply Z.eqb_eq in E. exfalso. apply Ea.
    assert (row = payment).
    { apply (NoDup_map_eq pk (payments w)); try assumption. congruence. }
    subst row. congruence.
Qed.

Lemma notify_consistent
    (settings : Settings) (env : Env) (payment : Payment) (w : World) :
  (keyed w -> keyed (snd (notify_step settings env payment w)))
  /\ (consistent w ->
      consistent (snd (notify_step settings env payment w))).
Proof.
  destruct (notify_shape settings env payment w) as [evs [E | [_ E]]];
    rewrite E; cbn [snd]; split; intros H.
  - exact H.
  - exact H.
  - apply keyed_save_payment. exact H.
  - apply consistent_save_payment; [|exact H].
    intros row _ _ Hs. exact Hs.
Qed.

Lemma sound_paid (settings : Settings) (env : Env) (p payment : Payment)
    (fs : list PaymentField) (w : World) :
  In payment (payments w) -> same_keys payment p -> sound w ->
  sound (snd (notify_step settings env p
                (save_admission_paid p (save_payment p fs w)))).
Proof.
  intros Hin Hk [Hkeyed Hc].
  destruct (notify_consistent settings env p
              (save_admission_paid p (save_payment p fs w))) as [N1 N2].
  split.
  - apply N1. eapply keyed_same_rows; [reflexivity|].
    now apply keyed_save_payment.
  - apply N2. now apply (consistent_paid p payment).
Qed.

(** The code that runs before the first write raises with the state as
    it was. *)
Lemma bind_stateless {A B : Type} (r : result A) (k : A -> result B) :
  stateless r -> (forall a, stateless (k a)) -> stateless (bind r k).
Proof. destruct r; cbn; auto. Qed.

Lemma get_stateless (d : json) (key : string) (default : json) :
  stateless (Py.get d key default).
Proof. destruct d; exact I. Qed.

Lemma or_stateless (a : json) (b : result json) :
  stateless b -> stateless (Py.or_ a b).
Proof. unfold Py.or_. destruct (Py.truthy a); [intros _; exact I | auto]. Qed.

Lemma char_field_stateless (py_repr : json -> string) (v : json) :
  stateless (char_field py_repr v).
Proof. destruct v; exact I. Qed.

Lemma compare_digest_stateless (a b : string) :
  stateless (compare_digest a b).
Proof.
  unfold compare_digest.
  destruct (PyStr.is_ascii a && PyStr.is_ascii b); exact I.
Qed.

Lemma decoded_fields_stateless (py_repr : json -> string) (decoded : json) :
  stateless (decoded_fields py_repr decoded).
Proof.
  unfold decoded_fields.
  repeat first
    [ apply bind_stateless; [|intros ?]
    | apply get_stateless
    | apply or_stateless
    | apply char_field_stateless
    | exact I ].
Qed.

Lemma callback_envelope_stateless
    (py_repr : json -> string) (json_loads : string -> option json)
    (b64decode_utf8 : string -> option string)
    (settings : Settings) (request : CallbackRequest) :
  stateless (callback_envelope py_repr json_loads b64decode_utf8 settings
               request).
Proof.
  unfold callback_envelope, _verify_phonepe_callback. cbv zeta.
  destruct (json_loads (body request)); [|exact I].
  apply bind_stateless; [apply get_stateless | intros response_b64].
  split_if; [exact I|]. split_if; [exact I|].
  apply bind_stateless.
  - split_if; [|exact I].
    apply bind_stateless; [|intros ?; exact I].
    repeat split_if; try exact I; apply compare_digest_stateless.
  - intros mismatch. destruct mismatch; [exact I|].
    destruct response_b64; try exact I.
    destruct (option_map json_loads (b64decode_utf8 s)) as [[decoded|]|];
      try exact I.
    apply bind_stateless; [apply get_stateless | intros data].
    apply bind_stateless; [apply get_stateless | intros txn].
    split_if; exact I.
Qed.

Lemma fetch_status_stateless
    (json_loads : string -> option json) (settings : Settings) (env : Env)
    (merchant_transaction_id : string) :
  stateless (_phonepe_fetch_status json_loads settings env
               merchant_transaction_id).
Proof.
  unfold _phonepe_fetch_status. cbv zeta.
  split_if; [exact I|].
  destruct (status_net env); try exact I.
  destruct (json_loads _); exact I.
Qed.

Lemma sound_verify (settings : Settings) (env : Env)
    (request : VerifyRequest) (w : World) :
  sound w -> sound (left_by (payment_verify settings env request w) w).
Proof.
  intros Hs.
  destruct (payment_by_order_id (razorpay_order_id request) w)
    as [payment|] eqn:Hfind;
    [|unfold payment_verify; rewrite Hfind; exact Hs].
  destruct (razorpay_cases (razorpay_order_id request)
              (razorpay_payment_id request) (razorpay_signature request)
              (RAZORPAY_KEY_SECRET settings))
    as [[[|] Hsig] | [Hraise _]].
  - pose proof (payment_verify_valid_step settings env request w payment
                  Hfind Hsig) as E. cbv zeta in E.
    rewrite E, left_by_ended.
    apply payment_by_order_id_In in Hfind. destruct Hfind as [Hin _].
    apply (sound_paid settings env _ payment); [exact Hin | | exact Hs].
    repeat split.
  - unfold payment_verify. rewrite Hfind, Hsig. cbn [bind negb left_by].
    apply payment_by_order_id_In in Hfind.
    destruct Hs as [Hk Hc]. split.
    + now apply keyed_save_payment.
    + apply consistent_save_payment; [|exact Hc].
      intros row _ _ H. discriminate H.
  - unfold payment_verify. rewrite Hfind, Hraise. exact Hs.
Qed.

Lemma sound_update
    (py_repr : json -> string) (str_upper : string -> string)
    (json_dumps : json -> string)
    (settings : Settings) (env : Env) (payment : Payment) (decoded : json)
    (w : World) :
  In payment (payments w) -> sound w ->
  sound (left_by (_update_payment_from_phonepe py_repr str_upper json_dumps
                    settings env payment decoded w) w).
Proof.
  intros Hin Hs.
  pose proof (decoded_fields_stateless py_repr decoded) as Hpure.
  destruct (decoded_fields py_repr decoded)
    as [[[[state code] pid] ref] | e | e w0] eqn:Hfields.
  - rewrite (update_payment_unfold py_repr str_upper json_dumps settings env
               payment decoded w state code pid ref Hfields).
    cbv zeta.
    set (st := _map_phonepe_status py_repr str_upper state code).
    set (p1 := applied st pid ref (json_dumps decoded) (now_paid_at env)
                 payment).
    destruct (PaymentStatus_eqb st PAID) eqn:E.
    + rewrite notify_ended, left_by_ended.
      apply (sound_paid settings env p1 payment); [exact Hin | | exact Hs].
      apply applied_columns.
    + cbn [left_by]. destruct Hs as [Hk Hc]. split.
      * now apply keyed_save_payment.
      * apply consistent_save_payment; [|exact Hc].
        intros row _ _ Hpaid. exfalso.
        assert (Hst : status (copy_fields phonepe_fields p1 row) = st).
        { unfold p1, applied. rewrite E. reflexivity. }
        rewrite Hst in Hpaid. apply PaymentStatus_eqb_eq in Hpaid.
        congruence.
  - unfold _update_payment_from_phonepe. rewrite Hfields. exact Hs.
  - destruct Hpure.
Qed.

Lemma left_by_bind {A B : Type} (r : result (A * World))
    (k : A * World -> B) (w : World) :
  left_by (x <- r ;; Ok (k x, snd x)) w = left_by r w.
Proof. destruct r as [[a w'] | e | e w']; reflexivity. Qed.

Lemma sound_callback
    (py_repr : json -> string) (str_upper : string -> string)
    (json_dumps : json -> string)
    (json_loads : string -> option json)
    (b64decode_utf8 : string -> option string)
    (settings : Settings) (env : Env) (request : CallbackRequest)
    (w : World) :
  sound w ->
  sound (left_by (phonepe_callback py_repr str_upper json_dumps json_loads
                    b64decode_utf8 settings env request w) w).
Proof.
  intros Hs. unfold phonepe_callback.
  pose proof (callback_envelope_stateless py_repr json_loads b64decode_utf8
                settings request) as Hpure.
  destruct (callback_envelope py_repr json_loads b64decode_utf8 settings
              request) as [[early | [txn decoded]] | e | e w0]; cbn [bind].
  - exact Hs.
  - destruct (payment_by_order_id (py_str py_repr txn) w) as [payment|]
      eqn:Hfind; [|exact Hs].
    apply payment_by_order_id_In in Hfind. destruct Hfind as [Hin _].
    rewrite (left_by_bind _ (fun _ => HttpResponse "OK" 200)).
    now apply sound_update.
  - exact Hs.
  - destruct Hpure.
Qed.

Lemma sound_poll
    (py_repr : json -> string) (str_upper : string -> string)
    (json_dumps : json -> string)
    (json_loads : string -> option json)
    (settings : Settings) (env : Env) (admission_id : Z)
    (w : World) :
  sound w ->
  sound (left_by (phonepe_status_check py_repr str_upper json_dumps
                    json_loads settings env admission_id w) w).
Proof.
  intros Hs. unfold phonepe_status_check.
  destruct (payment_by_admission admission_id w) as [payment|] eqn:Hfind;
    [|exact Hs].
  apply payment_by_admission_In in Hfind. destruct Hfind as [Hin _].
  destruct (PyStr.truthy (order_id payment)); cbn [negb]; [|exact Hs].
  pose proof (fetch_status_stateless json_loads settings env
                (order_id payment)) as Hpure.
  destruct (_phonepe_fetch_status json_loads settings env
              (order_id payment)) as [answer | e | e w0].
  - rewrite (left_by_bind _
               (fun _ => Redirect (Route_admission_success admission_id)
                           Info "PhonePe status updated.")).
    now apply sound_update.
  - destruct e; exact Hs.
  - destruct Hpure.
Qed.

Lemma sound_run_op
    (py_repr : json -> string) (str_upper : string -> string)
    (json_dumps : json -> string)
    (json_loads : string -> option json)
    (b64decode_utf8 : string -> option string)
    (settings : Settings) (w : World) (op : Op) :
  sound w ->
  sound (run_op py_repr str_upper json_dumps json_loads b64decode_utf8
           settings w op).
Proof.
  intros Hs. destruct op as [env request | env request | env admission_id];
    cbn [run_op].
  - now apply sound_verify.
  - now apply sound_callback.
  - now apply sound_poll.
Qed.

(** C5 (amended). In a state with unique payment keys and at most one
    payment per admission, in which every Paid payment has a fee-Paid
    admission and every fee-Paid admission has paid its payment's
    amount, the same holds after any sequence of redirect-verify,
    callback and poll requests: whenever the Payment is Paid the
    Admission's fee status is Paid, and whenever the fee status is Paid
    the amount paid is the Payment's amount. *)
Theorem C5_fee_follows_payment
    (py_repr : json -> string) (str_upper : string -> string)
    (json_dumps : json -> string)
    (json_loads : string -> option json)
    (b64decode_utf8 : string -> option string)
    (settings : Settings) (ops : list Op) (w : World) :
  keyed w -> consistent w ->
  keyed (run_ops py_repr str_upper json_dumps json_loads b64decode_utf8 settings
           ops w)
  /\ consistent (run_ops py_repr str_upper json_dumps json_loads b64decode_utf8
                   settings ops w).
Proof.
  intros Hk Hc. assert (Hs : sound w) by now split. clear Hk Hc.
  unfold run_ops. revert w Hs.
  induction ops as [|op ops IH]; intros w Hs; cbn [fold_left].
  - exact Hs.
  - apply IH. now apply sound_run_op.
Qed.

(** C5 at the scenario: after the COMPLETED callback, the FAILED
    callback and a redirect for an unknown order, the relation holds. *)
Lemma C5_witness :
  let w :=
    run_ops Sample.py_repr0 Sample.str_upper0 Sample.json_dumps0
        Sample.json_loads0
      Sample.b64decode_utf8_0 Sample.settings0
      [Op_callback (Sample.env_at 2000 Sample.up "") Sample.callback_paid;
       Op_callback (Sample.env_at 3000 Sample.up "") Sample.callback_failed;
       Op_verify (Sample.env_at 4000 Sample.up "") Sample.redirect_valid]
      Sample.w0 in
  keyed w /\ consistent w.
Proof.
  apply (C5_fee_follows_payment Sample.py_repr0 Sample.str_upper0
      Sample.json_dumps0
           Sample.json_loads0 Sample.b64decode_utf8_0 Sample.settings0).
  - split; simpl; (constructor; [intros [] | constructor]).
  - intros p a [<- | []] [<- | []] _. simpl. split; discriminate.
Defined.

(** C5, as stated, fails: from the fresh state of the scenario, the
    verified COMPLETED callback followed by the verified FAILED callback
    leaves the admission with fee status Paid and the amount paid, and
    its payment Failed. *)
Lemma C5_counterexample :
  let w :=
    run_ops Sample.py_repr0 Sample.str_upper0 Sample.json_dumps0
        Sample.json_loads0
      Sample.b64decode_utf8_0 Sample.settings0
      [Op_callback (Sample.env_at 2000 Sample.up "") Sample.callback_paid;
       Op_callback (Sample.env_at 3000 Sample.up "") Sample.callback_failed]
      Sample.w0 in
  map status (payments w) = [FAILED]
  /\ map admission_id (payments w) = [42]
  /\ admissions w = [mkAdmission 42 1500 1500 Fee_PAID].
Proof. vm_compute. repeat split. Qed.

(* ------------------------------------------------------------------ *)
(** ** Shape of the digests *)

Lemma be_bytes_length (n : nat) (x : N) :
  List.length (Sha256.be_bytes n x) = n.
Proof.
  revert x. induction n as [|n IH]; intros x; simpl; [reflexivity|].
  rewrite length_app, IH. simpl. lia.
Qed.

Lemma round_length (st : list N) (kw : N * N) :
  List.length (Sha256.round st kw) = List.length st.
Proof.
  unfold Sha256.round.
  destruct st as [|a [|b [|c [|d [|e [|f [|g [|h [|i st]]]]]]]]];
    reflexivity.
Qed.

Lemma rounds_length (kws : list (N * N)) (st : list N) :
  List.length (fold_left Sha256.round kws st) = List.length st.
Proof.
  revert st. induction kws as [|kw kws IH]; intros st; simpl;
    [reflexivity|].
  now rewrite IH, round_length.
Qed.

Lemma compress_length (h block : list N) :
  List.length (Sha256.compress h block) = List.length h.
Proof.
  unfold Sha256.compress.
  rewrite length_map, length_combine, rounds_length. lia.
Qed.

Lemma blocks_length (blocks : list (list N)) (h : list N) :
  List.length (fold_left Sha256.compress blocks h) = List.length h.
Proof.
  revert h. induction blocks as [|b blocks IH]; intros h; simpl;
    [reflexivity|].
  now rewrite IH, compress_length.
Qed.

Lemma flat_map_length_const {A B : Type} (f : A -> list B) (k : nat)
    (l : list A) :
  (forall x, List.length (f x) = k) ->
  List.length (flat_map f l) = (k * List.length l)%nat.
Proof.
  intros Hf. induction l as [|x l IH]; simpl; [lia|].
  rewrite length_app, Hf, IH. lia.
Qed.

Lemma digest_length (msg : list N) :
  List.length (Sha256.digest msg) = 32%nat.
Proof.
  unfold Sha256.digest.
  rewrite (flat_map_length_const (Sha256.be_bytes 4) 4);
    [|intros x; apply be_bytes_length].
  rewrite blocks_length. reflexivity.
Qed.

Lemma string_of_list_length (l : list ascii) :
  String.length (string_of_list_ascii l) = List.length l.
Proof. induction l as [|c l IH]; simpl; [reflexivity | now rewrite IH]. Qed.

Lemma hex_length (bs : list N) :
  String.length (Sha256.hex bs) = (2 * List.length bs)%nat.
Proof.
  unfold Sha256.hex. rewrite string_of_list_length.
  apply flat_map_length_const. reflexivity.
Qed.

Lemma hexdigest_length (raw : string) :
  String.length (Sha256.hexdigest raw) = 64%nat.
Proof.
  unfold Sha256.hexdigest. now rewrite hex_length, digest_length.
Qed.

Lemma hmac_hexdigest_length (key message : string) :
  String.length (Sha256.hmac_hexdigest key message) = 64%nat.
Proof.
  unfold Sha256.hmac_hexdigest. cbv zeta.
  now rewrite hex_length, digest_length.
Qed.

Lemma truthy_length (s : string) :
  String.length s <> 0%nat -> PyStr.truthy s = true.
Proof. destruct s; simpl; congruence. Qed.

Lemma truthy_nonempty (s : string) : PyStr.truthy s = true <-> s <> "".
Proof. destruct s; simpl; split; congruence. Qed.

(* ------------------------------------------------------------------ *)
(** ** Redirect-verify with a signature that verifies *)

(** X1. The provider-A check accepts exactly the HMAC-SHA256 of
    [order_id|payment_id] under the secret, given in hexadecimal, and
    only when order id, payment id and secret are not empty. *)
Theorem X1_razorpay_signature_exact
    (order_id payment_id signature key_secret : string) :
  _verify_razorpay_signature order_id payment_id signature key_secret
  = Ok true
  <-> order_id <> "" /\ payment_id <> "" /\ key_secret <> ""
      /\ signature
         = Sha256.hmac_hexdigest key_secret (order_id ++ "|" ++ payment_id).
Proof.
  unfold _verify_razorpay_signature, _verify_razorpay_signature_with.
  split.
  - destruct (PyStr.truthy order_id) eqn:Ho;
      destruct (PyStr.truthy payment_id) eqn:Hp;
      destruct (PyStr.truthy signature) eqn:Hs;
      destruct (PyStr.truthy key_secret) eqn:Hk;
      cbn [andb negb]; try discriminate.
    intros H. apply compare_digest_true in H. destruct H as [H _].
    rewrite <- !truthy_nonempty. auto.
  - intros [Ho [Hp [Hk ->]]].
    apply truthy_nonempty in Ho, Hp, Hk. rewrite Ho, Hp, Hk.
    rewrite truthy_length
      by (rewrite hmac_hexdigest_length; discriminate).
    cbn [andb negb]. apply compare_digest_true.
    split; [reflexivity | apply hmac_hexdigest_ascii].
Qed.

(** X2. A redirect-verify whose order id finds a Payment and whose
    signature verifies leaves every row of the Payment Paid with the
    offered payment id and signature and the current time in [paid_at],
    and sets fee status Paid and the payment's amount on its Admission
    and on no other. It answers with the success message, unless a
    dispatch of the notification raises: then the request ends with
    that exception, after these writes. *)
Theorem X2_redirect_valid_signature
    (settings : Settings) (env : Env) (request : VerifyRequest)
    (w : World) (payment : Payment) :
  payment_by_order_id (razorpay_order_id request) w = Some payment ->
  _verify_razorpay_signature (razorpay_order_id request)
    (razorpay_payment_id request) (razorpay_signature request)
    (RAZORPAY_KEY_SECRET settings) = Ok true ->
  exists w',
    payment_verify settings env request w
    = (if interrupted settings env payment then RaiseAfter ReadError w'
       else Ok (Redirect (Route_admission_success (admission_id payment))
                  Success "Payment successful.", w'))
    /\ stored w' (pk payment)
         (fun row => status row = PAID
                     /\ payment_id row = razorpay_payment_id request
                     /\ signature row = razorpay_signature request
                     /\ paid_at row = Some (now_paid_at env))
    /\ admissions w' = map (mark_admission payment) (admissions w).
Proof.
  intros Hfind Hsig.
  pose proof (payment_verify_valid_step settings env request w payment
                Hfind Hsig) as E. cbv zeta in E.
  apply payment_by_order_id_In in Hfind. destruct Hfind as [Hin _].
  eexists. split; [exact E|]. split.
  - apply notify_stored.
    + intros row t H. exact H.
    + eapply stored_same_rows; [reflexivity|].
      apply stored_save_payment;
        [exists payment; now split | reflexivity |].
      intros row _ _. repeat split.
  - rewrite notify_admissions. reflexivity.
Qed.

(** X2 at the validly signed redirect for order_N1 at time 2000. *)
Lemma X2_witness :
  exists w',
    payment_verify Sample.settings0 (Sample.env_at 2000 Sample.up "")
      Sample.redirect_valid Sample.w_rzp
    = Ok (Redirect (Route_admission_success 42) Success
            "Payment successful.", w')
    /\ stored w' 1
         (fun row => status row = PAID /\ payment_id row = "pay_N1"
                     /\ signature row
                        = razorpay_signature Sample.redirect_valid
                     /\ paid_at row = Some 2000)
    /\ admissions w' = [mkAdmission 42 1500 1500 Fee_PAID].
Proof.
  apply (X2_redirect_valid_signature Sample.settings0
           (Sample.env_at 2000 Sample.up "") Sample.redirect_valid
           Sample.w_rzp Sample.payment_rzp).
  - reflexivity.
  - vm_compute. reflexivity.
Defined.

(* ------------------------------------------------------------------ *)
(** ** What the callback and the poll leave alone *)

(** The callback has checked the envelope and found nothing amiss, or
    raised, or found a mismatch. *)
Lemma callback_envelope_early
    (py_repr : json -> string) (json_loads : string -> option json)
    (b64decode_utf8 : string -> option string) (settings : Settings)
    (request : CallbackRequest) (response : Response) :
  callback_envelope py_repr json_loads b64decode_utf8 settings request
  = Ok (inl response) ->
  In response callback_rejections.
Proof.
  unfold callback_envelope, callback_rejections.
  destruct (json_loads (body request)) as [data|];
    [|intros [= <-]; simpl; tauto].
  destruct (Py.get data "response" JNull) as [response_b64 | e | e w0];
    cbn [bind]; [|discriminate|discriminate].
  destruct (Py.truthy response_b64); cbn [negb];
    [|intros [= <-]; simpl; tauto].
  destruct (negb (PyStr.truthy (PHONEPE_MERCHANT_ID settings))
            || negb (PyStr.truthy (PHONEPE_SALT_KEY settings))
            || negb (PyStr.truthy (PHONEPE_SALT_INDEX settings)));
    [intros [= <-]; simpl; tauto|].
  match goal with
  | |- context [bind ?m _] => destruct m as [[|] | e | e w0]
  end; cbn [bind]; [intros [= <-]; simpl; tauto | | discriminate..].
  destruct response_b64 as [| | |b64| |]; try discriminate.
  destruct (b64decode_utf8 b64) as [text|]; cbn [option_map];
    [|intros [= <-]; simpl; tauto].
  destruct (json_loads text) as [decoded|];
    [|intros [= <-]; simpl; tauto].
  destruct (Py.get decoded "data" (JObj [])) as [tx | e | e w0];
    cbn [bind]; [|discriminate|discriminate].
  destruct (Py.get tx "merchantTransactionId" JNull) as [txn | e | e w0];
    cbn [bind]; [|discriminate|discriminate].
  destruct (Py.truthy txn); cbn [negb]; [discriminate|].
  intros [= <-]; simpl; tauto.
Qed.

(** X3. A callback that is not answered with OK is answered with one of
    seven rejections and has changed nothing: neither a table nor the
    log of writes and dispatches. *)
Theorem X3_callback_rejection_writes_nothing
    (py_repr : json -> string) (str_upper : string -> string)
    (json_dumps : json -> string)
    (json_loads : string -> option json)
    (b64decode_utf8 : string -> option string)
    (settings : Settings) (env : Env) (request : CallbackRequest)
    (w w' : World) (response : Response) :
  phonepe_callback py_repr str_upper json_dumps json_loads b64decode_utf8
      settings
    env request w = Ok (response, w') ->
  response <> HttpResponse "OK" 200 ->
  In response callback_rejections /\ w' = w.
Proof.
  unfold phonepe_callback.
  destruct (callback_envelope py_repr json_loads b64decode_utf8 settings
              request) as [[early | [txn decoded]] | e | e w0] eqn:Henv;
    cbn [bind]; [| |discriminate|discriminate].
  - intros [= <- <-] _. split; [|reflexivity].
    exact (callback_envelope_early py_repr json_loads b64decode_utf8
             settings request early Henv).
  - destruct (payment_by_order_id (py_str py_repr txn) w) as [payment|].
    + destruct (_update_payment_from_phonepe py_repr str_upper json_dumps
        settings
                  env payment decoded w) as [[p' w1] | e | e w1];
        cbn [bind]; [|discriminate|discriminate].
      intros [= <- _] Hne. now elim Hne.
    + intros [= <- <-] _. split; [|reflexivity].
      unfold callback_rejections. simpl. tauto.
Qed.

(** X3 at the COMPLETED callback with the [X-VERIFY] header of the
    FAILED one: it is turned down and nothing changes. *)
Lemma X3_witness :
  In (HttpResponse "Signature mismatch" 400) callback_rejections
  /\ Sample.w0 = Sample.w0.
Proof.
  apply (X3_callback_rejection_writes_nothing Sample.py_repr0 Sample.str_upper0
           Sample.json_dumps0 Sample.json_loads0 Sample.b64decode_utf8_0
           Sample.settings0 (Sample.env_at 2000 Sample.up "")
           (mkCallbackRequest (Sample.body_of Sample.b64_paid)
              (Sample.x_verify_of Sample.b64_failed))
           Sample.w0 Sample.w0 (HttpResponse "Signature mismatch" 400)).
  - vm_compute. reflexivity.
  - discriminate.
Defined.

Lemma verify_callback_header
    (py_repr : json -> string) (response_b64 : json)
    (header_value : option string) (salt_key salt_index : string) :
  _verify_phonepe_callback py_repr response_b64 header_value
    salt_key salt_index = Ok true ->
  header_value
  = Some (_phonepe_checksum (py_str py_repr response_b64) ""
            salt_key salt_index).
Proof.
  unfold _verify_phonepe_callback, _phonepe_checksum.
  destruct header_value as [h|]; [|discriminate].
  destruct (PyStr.truthy h); cbn [negb]; [|discriminate].
  intros H. apply compare_digest_true in H. destruct H as [H _].
  rewrite <- H. reflexivity.
Qed.

(** X4. With callback verification enabled, a callback is answered OK
    (the only answer after which the state may differ) only if its
    body carries an envelope and its [X-VERIFY] header is the checksum
    of that envelope under the configured salt key and index. *)
Theorem X4_callback_accepts_only_verified
    (py_repr : json -> string) (str_upper : string -> string)
    (json_dumps : json -> string)
    (json_loads : string -> option json)
    (b64decode_utf8 : string -> option string)
    (settings : Settings) (env : Env) (request : CallbackRequest)
    (w w' : World) :
  PHONEPE_VERIFY_CALLBACK settings = true ->
  phonepe_callback py_repr str_upper json_dumps json_loads b64decode_utf8
      settings
    env request w = Ok (HttpResponse "OK" 200, w') ->
  exists data b64,
    json_loads (body request) = Some data
    /\ Py.get data "response" JNull = Ok (JStr b64)
    /\ x_verify request
       = Some (_phonepe_checksum b64 "" (PHONEPE_SALT_KEY settings)
                 (PHONEPE_SALT_INDEX settings)).
Proof.
  intros Hon. unfold phonepe_callback.
  destruct (callback_envelope py_repr json_loads b64decode_utf8 settings
              request) as [[early | [txn decoded]] | e | e w0] eqn:Henv;
    cbn [bind]; [| |discriminate|discriminate].
  - intros [= -> _].
    pose proof (callback_envelope_early py_repr json_loads b64decode_utf8
                  settings request _ Henv) as H.
    unfold callback_rejections in H. simpl in H.
    repeat (destruct H as [H|H]; [discriminate H|]). destruct H.
  - intros _. revert Henv. unfold callback_envelope.
    destruct (json_loads (body request)) as [data|]; [|discriminate].
    destruct (Py.get data "response" JNull)
      as [response_b64 | e | e w0] eqn:Hget;
      cbn [bind]; [|discriminate|discriminate].
    destruct (Py.truthy response_b64); cbn [negb]; [|discriminate].
    destruct (negb (PyStr.truthy (PHONEPE_MERCHANT_ID settings))
              || negb (PyStr.truthy (PHONEPE_SALT_KEY settings))
              || negb (PyStr.truthy (PHONEPE_SALT_INDEX settings)));
      [discriminate|].
    rewrite Hon.
    destruct (_verify_phonepe_callback py_repr response_b64
                (x_verify request) (PHONEPE_SALT_KEY settings)
                (PHONEPE_SALT_INDEX settings)) as [[|] | e | e w0] eqn:Hv;
      cbn [bind negb]; [|discriminate..].
    destruct response_b64 as [| | |b64| |]; try discriminate.
    intros _. exists data, b64.
    split; [reflexivity|]. split; [exact Hget|].
    exact (verify_callback_header py_repr (JStr b64) (x_verify request)
             _ _ Hv).
Qed.

(** X4 at the verified COMPLETED callback of the scenario. *)
Lemma X4_witness :
  exists data b64,
    Sample.json_loads0 (body Sample.callback_paid) = Some data
    /\ Py.get data "response" JNull = Ok (JStr b64)
    /\ x_verify Sample.callback_paid
       = Some (_phonepe_checksum b64 "" "salt-key-1" "1").
Proof.
  apply (X4_callback_accepts_only_verified Sample.py_repr0 Sample.str_upper0
           Sample.json_dumps0 Sample.json_loads0 Sample.b64decode_utf8_0
           Sample.settings0 (Sample.env_at 2000 Sample.up "")
           Sample.callback_paid Sample.w0
           (snd (paid_step Sample.settings0
                   (Sample.env_at 2000 Sample.up "") "T1" "U1" "<json>"
                   Sample.payment0 Sample.w0))).
  - reflexivity.
  - vm_compute. reflexivity.
Defined.

(** X5. A poll changes the state only when it is answered with the
    status-updated message. When the gateway cannot be asked or does not
    answer (settings missing, HTTP error, connection error) the poll of
    a payment with an order id reports the error and writes nothing.
    Another exception of the call is not reported: it ends the poll,
    which has written nothing. *)
Theorem X5_poll_failure_writes_nothing
    (py_repr : json -> string) (str_upper : string -> string)
    (json_dumps : json -> string)
    (json_loads : string -> option json)
    (settings : Settings) (env : Env) (admission_id : Z) (w : World) :
  (forall response w',
     phonepe_status_check py_repr str_upper json_dumps json_loads settings env
       admission_id w = Ok (response, w') ->
     response <> Redirect (Route_admission_success admission_id) Info
                   "PhonePe status updated." ->
     w' = w)
  /\ (forall payment exc,
        payment_by_admission admission_id w = Some payment ->
        order_id payment <> "" ->
        _phonepe_fetch_status json_loads settings env (order_id payment)
        = Raise (RuntimeError exc) ->
        phonepe_status_check py_repr str_upper json_dumps json_loads settings
            env
          admission_id w
        = Ok (Redirect (Route_admission_success admission_id) Error exc,
              w))
  /\ (forall key,
        PHONEPE_MERCHANT_ID settings = "" \/ PHONEPE_SALT_KEY settings = ""
        \/ PHONEPE_SALT_INDEX settings = ""
        \/ PHONEPE_BASE_URL settings = "" ->
        _phonepe_fetch_status json_loads settings env key
        = Raise (RuntimeError
                   "PhonePe settings are missing in settings.py."))
  /\ (forall key,
        PHONEPE_MERCHANT_ID settings <> "" ->
        PHONEPE_SALT_KEY settings <> "" ->
        PHONEPE_SALT_INDEX settings <> "" ->
        PHONEPE_BASE_URL settings <> "" ->
        _phonepe_fetch_status json_loads settings env key
        = match status_net env with
          | Responded _ response_body =>
              match json_loads response_body with
              | Some response => Ok response
              | None => Raise JSONDecodeError
              end
          | RaisedHTTPError detail =>
              Raise (RuntimeError ("PhonePe status failed: " ++ detail))
          | RaisedURLError reason =>
              Raise (RuntimeError ("PhonePe connection failed: " ++ reason))
          | RaisedReadError => Raise ReadError
          end)
  /\ (forall payment,
        payment_by_admission admission_id w = Some payment ->
        order_id payment <> "" ->
        _phonepe_fetch_status json_loads settings env (order_id payment)
        = Raise ReadError ->
        phonepe_status_check py_repr str_upper json_dumps json_loads settings
          env admission_id w
        = Raise ReadError).
Proof.
  split; [|split; [|split; [|split]]].
  - intros response w'. unfold phonepe_status_check.
    destruct (payment_by_admission admission_id w) as [payment|];
      [|intros [= _ <-]; reflexivity].
    destruct (PyStr.truthy (order_id payment)); cbn [negb];
      [|intros [= _ <-]; reflexivity].
    destruct (_phonepe_fetch_status json_loads settings env
                (order_id payment)) as [answer | e | e w0].
    + destruct (_update_payment_from_phonepe py_repr str_upper json_dumps
        settings
                  env payment answer w) as [[p' w1] | e | e w1];
        cbn [bind]; [|discriminate|discriminate].
      intros [= <- _] Hne. now elim Hne.
    + destruct e; try discriminate. intros [= _ <-]. reflexivity.
    + discriminate.
  - intros payment exc Hfind Hord Hfetch. unfold phonepe_status_check.
    rewrite Hfind. apply truthy_nonempty in Hord. rewrite Hord.
    cbn [negb]. rewrite Hfetch. reflexivity.
  - intros key H. unfold _phonepe_fetch_status.
    assert (G : negb (PyStr.truthy (PHONEPE_MERCHANT_ID settings))
                || negb (PyStr.truthy (PHONEPE_SALT_KEY settings))
                || negb (PyStr.truthy (PHONEPE_SALT_INDEX settings))
                || negb (PyStr.truthy (PHONEPE_BASE_URL settings)) = true).
    { destruct H as [H | [H | [H | H]]]; rewrite H; cbn;
        rewrite ?orb_true_r; reflexivity. }
    now rewrite G.
  - intros key H1 H2 H3 H4. unfold _phonepe_fetch_status.
    apply truthy_nonempty in H1, H2, H3, H4.
    rewrite H1, H2, H3, H4. reflexivity.
  - intros payment Hfind Hord Hfetch. unfold phonepe_status_check.
    rewrite Hfind. apply truthy_nonempty in Hord. rewrite Hord.
    cbn [negb]. rewrite Hfetch. reflexivity.
Qed.

(** X5 at the payment of the scenario when the gateway answers the poll
    with an HTTP error. *)
Lemma X5_witness :
  phonepe_status_check Sample.py_repr0 Sample.str_upper0 Sample.json_dumps0
    Sample.json_loads0 Sample.settings0
    (mkEnv 2000 2001 Sample.up Sample.down (RaisedHTTPError "503")) 42
    Sample.w0
  = Ok (Redirect (Route_admission_success 42) Error
          "PhonePe status failed: 503", Sample.w0).
Proof.
  destruct (X5_poll_failure_writes_nothing Sample.py_repr0 Sample.str_upper0
              Sample.json_dumps0 Sample.json_loads0 Sample.settings0
              (mkEnv 2000 2001 Sample.up Sample.down
                 (RaisedHTTPError "503")) 42 Sample.w0)
    as [_ [H _]].
  apply (H Sample.payment0); [reflexivity | discriminate | reflexivity].
Defined.

(* ------------------------------------------------------------------ *)
(** ** Effect of the apply step *)

(** X6. An outcome that does not map to Paid writes the payment and
    nothing else: its rows take the mapped status and the gateway's
    identifiers and keep their [paid_at]; no [notified_at] or signature
    changes, no admission changes, and the only event is the save of
    the payment. *)
Theorem X6_outcome_not_paid
    (py_repr : json -> string) (str_upper : string -> string)
    (json_dumps : json -> string)
    (settings : Settings) (env : Env) (payment : Payment) (decoded : json)
    (w : World) (state code : json) (pid ref : string) :
  decoded_fields py_repr decoded = Ok (state, code, pid, ref) ->
  _map_phonepe_status py_repr str_upper state code <> PAID ->
  In payment (payments w) ->
  exists payment' w',
    _update_payment_from_phonepe py_repr str_upper json_dumps settings env
        payment
      decoded w = Ok (payment', w')
    /\ stored w' (pk payment)
         (fun row =>
            status row = _map_phonepe_status py_repr str_upper state code
            /\ payment_id row = pid /\ reference_id row = ref
            /\ gateway_response row = json_dumps decoded
            /\ gateway row = Some PHONEPE
            /\ paid_at row = paid_at payment)
    /\ map notified_at (payments w') = map notified_at (payments w)
    /\ map signature (payments w') = map signature (payments w)
    /\ admissions w' = admissions w
    /\ log w' = (log w ++ [PaymentSaved (pk payment) phonepe_fields])%list.
Proof.
  intros Hfields Hst Hin.
  rewrite (update_payment_unfold py_repr str_upper json_dumps settings env
      payment
             decoded w state code pid ref Hfields).
  cbv zeta.
  destruct (PaymentStatus_eqb (_map_phonepe_status py_repr str_upper state
      code) PAID)
    eqn:E.
  - apply PaymentStatus_eqb_eq in E. contradiction.
  - unfold applied. rewrite E.
    eexists; eexists. split; [reflexivity|]. split.
    + apply stored_save_payment;
        [exists payment; now split | reflexivity |].
      intros row _ _. repeat split.
    + split; [|split; [|split]]; try reflexivity.
      * apply save_payment_column. unfold phonepe_fields.
        intros f src dst Hf. cbn in Hf.
        destruct Hf as [<-|[<-|[<-|[<-|[<-|[<-|[]]]]]]]; reflexivity.
      * apply save_payment_column. unfold phonepe_fields.
        intros f src dst Hf. cbn in Hf.
        destruct Hf as [<-|[<-|[<-|[<-|[<-|[<-|[]]]]]]]; reflexivity.
Qed.

(** X6 at the Paid payment of the scenario and the FAILED payload. *)
Lemma X6_witness :
  exists payment' w',
    _update_payment_from_phonepe Sample.py_repr0 Sample.str_upper0
        Sample.json_dumps0
      Sample.settings0 (Sample.env_at 3000 Sample.up "")
      Sample.payment_paid Sample.decoded_failed Sample.w_paid
    = Ok (payment', w')
    /\ stored w' 1
         (fun row =>
            status row = FAILED /\ payment_id row = "T1"
            /\ reference_id row = "U1" /\ gateway_response row = "<json>"
            /\ gateway row = Some PHONEPE /\ paid_at row = Some 2000)
    /\ map notified_at (payments w') = [Some 2001]
    /\ map signature (payments w') = [""]
    /\ admissions w' = [mkAdmission 42 1500 1500 Fee_PAID]
    /\ log w' = [PaymentSaved 1 phonepe_fields].
Proof.
  apply (X6_outcome_not_paid Sample.py_repr0 Sample.str_upper0
      Sample.json_dumps0
           Sample.settings0 (Sample.env_at 3000 Sample.up "")
           Sample.payment_paid Sample.decoded_failed Sample.w_paid
           (JStr "FAILED") (JStr "") "T1" "U1").
  - reflexivity.
  - discriminate.
  - left. reflexivity.
Defined.

Lemma paid_step_stamped (settings : Settings) (env : Env)
    (pid ref resp : string) (payment : Payment) (w : World) :
  In payment (payments w) ->
  stored (snd (paid_step settings env pid ref resp payment w)) (pk payment)
    (fun row => status row = PAID /\ payment_id row = pid
                /\ reference_id row = ref /\ gateway_response row = resp
                /\ gateway row = Some PHONEPE
                /\ paid_at row = Some (now_paid_at env)).
Proof.
  intros Hin. unfold paid_step. apply notify_stored.
  - intros row t H. exact H.
  - eapply stored_same_rows; [reflexivity|].
    apply (stored_applied PAID pid ref resp (now_paid_at env) payment w Hin).
Qed.

(** X7. An outcome that maps to Paid leaves the rows of the payment Paid
    with the gateway's identifiers and the current time in [paid_at],
    sets fee status Paid and the payment's amount on its admission and
    on no other, and then runs the notifier: the events are the two
    saves, the dispatches the notifier makes, and the save of
    [notified_at] when one of them succeeded and none raised. The step
    returns the payment, or ends with the exception of the dispatch
    that raised; the writes are the same. *)
Theorem X7_outcome_paid
    (py_repr : json -> string) (str_upper : string -> string)
    (json_dumps : json -> string)
    (settings : Settings) (env : Env) (payment : Payment) (decoded : json)
    (w : World) (state code : json) (pid ref : string) :
  decoded_fields py_repr decoded = Ok (state, code, pid, ref) ->
  _map_phonepe_status py_repr str_upper state code = PAID ->
  In payment (payments w) ->
  exists payment' w',
    _update_payment_from_phonepe py_repr str_upper json_dumps settings env
        payment
      decoded w
    = (if interrupted settings env payment then RaiseAfter ReadError w'
       else Ok (payment', w'))
    /\ stored w' (pk payment)
         (fun row =>
            status row = PAID /\ payment_id row = pid
            /\ reference_id row = ref
            /\ gateway_response row = json_dumps decoded
            /\ gateway row = Some PHONEPE
            /\ paid_at row = Some (now_paid_at env))
    /\ paid_at payment' = Some (now_paid_at env)
    /\ notified_at payment'
       = (if stamps settings env payment then Some (now_notified_at env)
          else notified_at payment)
    /\ admissions w' = map (mark_admission payment) (admissions w)
    /\ log w'
       = (log w ++ paid_writes payment ++ attempts settings env payment
          ++ (if stamps settings env payment
              then [PaymentSaved (pk payment) [F_notified_at]]
              else []))%list.
Proof.
  intros Hfields Hpaid Hin.
  rewrite (update_payment_paid py_repr str_upper json_dumps settings env payment
             decoded w state code pid ref Hfields Hpaid).
  unfold ended.
  destruct (paid_step settings env pid ref (json_dumps decoded) payment w)
    as [p' w'] eqn:E.
  exists p', w'. cbn [fst snd]. split; [reflexivity|].
  pose proof (paid_step_stamped settings env pid ref (json_dumps decoded)
                payment w Hin) as Hrows.
  pose proof (paid_step_object settings env pid ref (json_dumps decoded)
                payment w) as Hobj.
  pose proof (paid_step_admissions settings env pid ref (json_dumps decoded)
                payment w) as Hadm.
  pose proof (paid_step_log settings env pid ref (json_dumps decoded)
                payment w) as Hlog.
  cbv zeta in Hobj. rewrite E in Hrows, Hobj, Hadm, Hlog.
  cbn [fst snd] in *.
  split; [exact Hrows|].
  destruct Hobj as [_ [_ [_ [_ [_ [_ [_ [Hp Hn]]]]]]]].
  split; [exact Hp|]. split; [exact Hn|].
  split; [exact Hadm | exact Hlog].
Qed.

(** X7 at the fresh payment of the scenario and the COMPLETED payload,
    the SMS channel reachable. *)
Lemma X7_witness :
  exists payment' w',
    _update_payment_from_phonepe Sample.py_repr0 Sample.str_upper0
        Sample.json_dumps0
      Sample.settings0 (Sample.env_at 2000 Sample.up "")
      Sample.payment0 Sample.decoded_paid Sample.w0
    = Ok (payment', w')
    /\ stored w' 1
         (fun row =>
            status row = PAID /\ payment_id row = "T1"
            /\ reference_id row = "U1" /\ gateway_response row = "<json>"
            /\ gateway row = Some PHONEPE /\ paid_at row = Some 2000)
    /\ paid_at payment' = Some 2000
    /\ notified_at payment' = Some 2001
    /\ admissions w' = [mkAdmission 42 1500 1500 Fee_PAID]
    /\ log w'
       = [PaymentSaved 1 phonepe_fields;
          AdmissionSaved 42 [F_fee_status; F_fee_paid];
          Dispatched SMS true; PaymentSaved 1 [F_notified_at]].
Proof.
  apply (X7_outcome_paid Sample.py_repr0 Sample.str_upper0 Sample.json_dumps0
           Sample.settings0 (Sample.env_at 2000 Sample.up "")
           Sample.payment0 Sample.decoded_paid Sample.w0
           (JStr "COMPLETED") (JStr "") "T1" "U1").
  - reflexivity.
  - reflexivity.
  - left. reflexivity.
Defined.

(* ------------------------------------------------------------------ *)
(** ** Rows a request leaves alone *)

Lemma Forall2_map_self {A : Type} (R : A -> A -> Prop) (g : A -> A)
    (l : list A) :
  (forall x, In x l -> R x (g x)) -> Forall2 R l (map g l).
Proof.
  induction l as [|x l IH]; intros H; simpl; constructor.
  - apply H. now left.
  - apply IH. intros y Hy. apply H. now right.
Qed.

Lemma Forall2_trans {A : Type} (R : A -> A -> Prop) (l1 l2 l3 : list A) :
  (forall x y z, R x y -> R y z -> R x z) ->
  Forall2 R l1 l2 -> Forall2 R l2 l3 -> Forall2 R l1 l3.
Proof.
  intros Htrans H12. revert l3.
  induction H12 as [|x y l1 l2 Hxy _ IH]; intros l3 H23;
    inversion H23; subst; constructor; eauto.
Qed.

Lemma Forall2_refl {A : Type} (R : A -> A -> Prop) (l : list A) :
  (forall x, R x x) -> Forall2 R l l.
Proof. intros H. induction l; constructor; auto. Qed.

Lemma row_kept_refl (key : Z) (r : Payment) : row_kept key r r.
Proof. split; [apply same_keys_refl | reflexivity]. Qed.

Lemma row_kept_trans (key : Z) (r1 r2 r3 : Payment) :
  row_kept key r1 r2 -> row_kept key r2 r3 -> row_kept key r1 r3.
Proof.
  intros [K1 E1] [K2 E2]. split.
  - eapply same_keys_trans; eassumption.
  - intros Hne. rewrite <- (E1 Hne). apply E2.
    destruct K1 as [K _]. congruence.
Qed.

Lemma admission_kept_refl (key : Z) (a : Admission) : admission_kept key a a.
Proof. repeat split. Qed.

Lemma admission_kept_trans (key : Z) (a1 a2 a3 : Admission) :
  admission_kept key a1 a2 -> admission_kept key a2 a3 ->
  admission_kept key a1 a3.
Proof.
  intros [K1 [F1 E1]] [K2 [F2 E2]]. repeat split; try congruence.
  intros Hne. rewrite <- (E1 Hne). apply E2. congruence.
Qed.

Lemma touched_refl (key akey : Z) (w w' : World) :
  payments w' = payments w -> admissions w' = admissions w ->
  touched key akey w w'.
Proof.
  intros H1 H2. unfold touched. rewrite H1, H2.
  split; apply Forall2_refl;
    [apply row_kept_refl | apply admission_kept_refl].
Qed.

Lemma touched_trans (key akey : Z) (w1 w2 w3 : World) :
  touched key akey w1 w2 -> touched key akey w2 w3 ->
  touched key akey w1 w3.
Proof.
  intros [P1 A1] [P2 A2]. split.
  - eapply Forall2_trans; [apply row_kept_trans | eassumption..].
  - eapply Forall2_trans; [apply admission_kept_trans | eassumption..].
Qed.

Lemma touched_save_payment (p : Payment) (fs : list PaymentField)
    (akey : Z) (w : World) :
  touched (pk p) akey w (save_payment p fs w).
Proof.
  split.
  - unfold save_payment. cbn [payments]. apply Forall2_map_self.
    intros row _. destruct (pk row =? pk p) eqn:E.
    + split; [apply copy_fields_keys|].
      apply Z.eqb_eq in E. congruence.
    + apply row_kept_refl.
  - apply Forall2_refl. apply admission_kept_refl.
Qed.

Lemma touched_save_admission_paid (p : Payment) (key : Z) (w : World) :
  touched key (admission_id p) w (save_admission_paid p w).
Proof.
  split.
  - apply Forall2_refl. apply row_kept_refl.
  - unfold save_admission_paid. cbn [admissions].
    apply Forall2_map_self. intros row _.
    destruct (a_pk row =? admission_id p) eqn:E.
    + repeat split. apply Z.eqb_eq in E. congruence.
    + apply admission_kept_refl.
Qed.

Lemma touched_notify (settings : Settings) (env : Env) (payment : Payment)
    (akey : Z) (w : World) :
  touched (pk payment) akey w (snd (notify_step settings env payment w)).
Proof.
  destruct (notify_shape settings env payment w) as [evs [E | [_ E]]];
    rewrite E; cbn [snd].
  - now apply touched_refl.
  - eapply touched_trans; [apply (touched_refl _ _ w (add_log evs w));
                           reflexivity|].
    apply (touched_save_payment
             (set_notified_at (Some (now_notified_at env)) payment)).
Qed.

Lemma touched_paid (settings : Settings) (env : Env) (p : Payment)
    (fs : list PaymentField) (w : World) :
  touched (pk p) (admission_id p) w
    (snd (notify_step settings env p
            (save_admission_paid p (save_payment p fs w)))).
Proof.
  eapply touched_trans; [apply touched_save_payment|].
  eapply touched_trans; [apply touched_save_admission_paid|].
  apply touched_notify.
Qed.

Lemma touched_update
    (py_repr : json -> string) (str_upper : string -> string)
    (json_dumps : json -> string)
    (settings : Settings) (env : Env) (payment : Payment) (decoded : json)
    (w : World) :
  touched (pk payment) (admission_id payment) w
    (left_by (_update_payment_from_phonepe py_repr str_upper json_dumps
                settings env payment decoded w) w).
Proof.
  pose proof (decoded_fields_stateless py_repr decoded) as Hpure.
  destruct (decoded_fields py_repr decoded)
    as [[[[state code] pid] ref] | e | e w0] eqn:Hfields.
  - rewrite (update_payment_unfold py_repr str_upper json_dumps settings env
               payment decoded w state code pid ref Hfields).
    cbv zeta.
    set (p1 := applied (_map_phonepe_status py_repr str_upper state code)
                 pid ref (json_dumps decoded) (now_paid_at env) payment).
    assert (K : pk p1 = pk payment /\ admission_id p1 = admission_id payment).
    { destruct (applied_columns
                  (_map_phonepe_status py_repr str_upper state code)
                  pid ref (json_dumps decoded) (now_paid_at env) payment)
        as [[Ka [Kb _]] _]. now split. }
    destruct K as [Ka Kb]. rewrite <- Ka, <- Kb.
    destruct (PaymentStatus_eqb
                (_map_phonepe_status py_repr str_upper state code) PAID).
    + rewrite notify_ended, left_by_ended. apply touched_paid.
    + cbn [left_by]. apply touched_save_payment.
  - unfold _update_payment_from_phonepe. rewrite Hfields. cbn [bind left_by].
    now apply touched_refl.
  - destruct Hpure.
Qed.

Lemma run_op_touched
    (py_repr : json -> string) (str_upper : string -> string)
    (json_dumps : json -> string)
    (json_loads : string -> option json)
    (b64decode_utf8 : string -> option string)
    (settings : Settings) (w : World) (op : Op) :
  let w' := run_op py_repr str_upper json_dumps json_loads b64decode_utf8
              settings w op in
  (payments w' = payments w /\ admissions w' = admissions w)
  \/ exists payment,
       In payment (payments w)
       /\ touched (pk payment) (admission_id payment) w w'.
Proof.
  cbv zeta. destruct op as [env request | env request | env admission_id];
    cbn [run_op].
  - destruct (payment_by_order_id (razorpay_order_id request) w)
      as [payment|] eqn:Hfind;
      [|unfold payment_verify; rewrite Hfind; left; now split].
    destruct (payment_by_order_id_In _ _ _ Hfind) as [Hin _].
    right. exists payment. split; [exact Hin|].
    destruct (razorpay_cases (razorpay_order_id request)
                (razorpay_payment_id request) (razorpay_signature request)
                (RAZORPAY_KEY_SECRET settings))
      as [[[|] Hsig] | [Hraise _]].
    + pose proof (payment_verify_valid_step settings env request w payment
                    Hfind Hsig) as E. cbv zeta in E.
      rewrite E, left_by_ended.
      match goal with
      | |- context [notify_step ?s ?e ?p
                      (save_admission_paid ?p (save_payment ?p ?fs ?x))] =>
          exact (touched_paid s e p fs x)
      end.
    + unfold payment_verify. rewrite Hfind, Hsig. cbn [bind negb left_by].
      apply (touched_save_payment
               (set_signature (razorpay_signature request)
                  (set_payment_id (razorpay_payment_id request)
                     (set_status FAILED payment)))).
    + unfold payment_verify. rewrite Hfind, Hraise. cbn [bind left_by].
      now apply touched_refl.
  - unfold phonepe_callback.
    pose proof (callback_envelope_stateless py_repr json_loads
                  b64decode_utf8 settings request) as Hpure.
    destruct (callback_envelope py_repr json_loads b64decode_utf8 settings
                request) as [[early | [txn decoded]] | e | e w0];
      cbn [bind left_by];
      [left; now split | | left; now split | destruct Hpure].
    destruct (payment_by_order_id (py_str py_repr txn) w) as [payment|]
      eqn:Hfind; [|left; now split].
    apply payment_by_order_id_In in Hfind. destruct Hfind as [Hin _].
    rewrite (left_by_bind _ (fun _ => HttpResponse "OK" 200)).
    right. exists payment. split; [exact Hin|]. apply touched_update.
  - unfold phonepe_status_check.
    destruct (payment_by_admission admission_id w) as [payment|] eqn:Hfind;
      [|left; now split].
    apply payment_by_admission_In in Hfind. destruct Hfind as [Hin _].
    destruct (PyStr.truthy (order_id payment)); cbn [negb];
      [|left; now split].
    pose proof (fetch_status_stateless json_loads settings env
                  (order_id payment)) as Hpure.
    destruct (_phonepe_fetch_status json_loads settings env
                (order_id payment)) as [answer | e | e w0].
    + rewrite (left_by_bind _
                 (fun _ => Redirect (Route_admission_success admission_id)
                             Info "PhonePe status updated.")).
      right. exists payment. split; [exact Hin|]. apply touched_update.
    + destruct e; left; now split.
    + destruct Hpure.
Qed.

(** X8. Every reconciliation request (redirect-verify, callback, poll)
    either leaves both tables as they are or works on one payment of the
    table: payments with another key and admissions other than that
    payment's are unchanged row for row, no row is added or removed, and
    no payment's key, admission, amount, order id, method or creation
    time and no admission's key or fee amount changes. *)
Theorem X8_request_touches_one_payment
    (py_repr : json -> string) (str_upper : string -> string)
    (json_dumps : json -> string)
    (json_loads : string -> option json)
    (b64decode_utf8 : string -> option string)
    (settings : Settings) (w : World) (op : Op) :
  let w' := run_op py_repr str_upper json_dumps json_loads b64decode_utf8
      settings
              w op in
  (payments w' = payments w /\ admissions w' = admissions w)
  \/ exists payment,
       In payment (payments w)
       /\ touched (pk payment) (admission_id payment) w w'.
Proof. apply run_op_touched. Qed.

Lemma touched_key_columns (key akey : Z) (w w' : World) :
  touched key akey w w' ->
  map key_columns (payments w') = map key_columns (payments w)
  /\ map (fun a => (a_pk a, fee_amount a)) (admissions w')
     = map (fun a => (a_pk a, fee_amount a)) (admissions w).
Proof.
  intros [HP HA]. split.
  - induction HP as [|r r' l l' [[K1 [K2 [K3 [K4 _]]]] _] _ IH];
      simpl; [reflexivity|].
    rewrite IH. unfold key_columns. now rewrite K1, K2, K3, K4.
  - induction HA as [|a a' l l' [K1 [K2 _]] _ IH]; simpl; [reflexivity|].
    now rewrite IH, K1, K2.
Qed.

(** X9. No sequence of reconciliation requests changes the key, the
    admission, the amount or the order id of a payment, or the key or
    the fee amount of an admission, and none adds or removes a row. *)
Theorem X9_requests_keep_key_columns
    (py_repr : json -> string) (str_upper : string -> string)
    (json_dumps : json -> string)
    (json_loads : string -> option json)
    (b64decode_utf8 : string -> option string)
    (settings : Settings) (ops : list Op) (w : World) :
  let w' := run_ops py_repr str_upper json_dumps json_loads b64decode_utf8
      settings
              ops w in
  map key_columns (payments w') = map key_columns (payments w)
  /\ map (fun a => (a_pk a, fee_amount a)) (admissions w')
     = map (fun a => (a_pk a, fee_amount a)) (admissions w).
Proof.
  cbv zeta. unfold run_ops. revert w.
  induction ops as [|op ops IH]; intros w; cbn [fold_left];
    [now split|].
  destruct (IH (run_op py_repr str_upper json_dumps json_loads b64decode_utf8
                  settings w op)) as [IH1 IH2].
  rewrite IH1, IH2.
  destruct (run_op_touched py_repr str_upper json_dumps json_loads
      b64decode_utf8
              settings w op) as [[E1 E2] | [p [_ Ht]]].
  - now rewrite E1, E2.
  - exact (touched_key_columns _ _ _ _ Ht).
Qed.

(* ------------------------------------------------------------------ *)
(** ** Payloads the apply step cannot read *)

(** X10. The apply step reads its fields only from a payload that is an
    object whose [data], when present, is an object: anything else ends
    in AttributeError. A null [transactionId], or a null
    [providerReferenceId] with no [utr], ends in IntegrityError.
    Otherwise the fields are read, the payment id being the
    [transactionId] and the reference the [utr] or, without one, the
    [providerReferenceId] (blank when absent). *)
Theorem X10_payload_fields
    (py_repr : json -> string) (decoded : json) :
  (is_dict decoded = false ->
   decoded_fields py_repr decoded = Raise AttributeError)
  /\ (forall fields,
        decoded = JObj fields ->
        is_dict (payload_data fields) = false ->
        decoded_fields py_repr decoded = Raise AttributeError)
  /\ (forall fields tx,
        decoded = JObj fields ->
        payload_data fields = JObj tx ->
        let pid := item_or_blank "transactionId" tx in
        let utr := item_or_blank "utr" tx in
        let ref :=
          if Py.truthy utr then utr
          else item_or_blank "providerReferenceId" tx in
        (pid = JNull \/ ref = JNull ->
         decoded_fields py_repr decoded = Raise IntegrityError)
        /\ (pid <> JNull -> ref <> JNull ->
            exists state code,
              decoded_fields py_repr decoded
              = Ok (state, code, py_str py_repr pid, py_str py_repr ref))).
Proof.
  split; [|split].
  - destruct decoded; try reflexivity. discriminate.
  - intros fields -> H. unfold decoded_fields. cbn [Py.get bind].
    fold (payload_data fields).
    destruct (payload_data fields); try reflexivity. discriminate.
  - intros fields tx -> Htx. cbv zeta.
    unfold decoded_fields. cbn [Py.get bind].
    fold (payload_data fields). rewrite Htx. cbn [Py.get bind].
    fold (item_or_blank "transactionId" tx) (item_or_blank "utr" tx)
      (item_or_blank "providerReferenceId" tx).
    set (state0 := match Py.assoc "state" tx with
                   | Some v => v | None => JNull end).
    set (code0 := match Py.assoc "responseCode" tx with
                  | Some v => v | None => JNull end).
    unfold Py.or_.
    destruct (Py.truthy state0); destruct (Py.truthy code0);
      cbn [bind];
      (destruct (Py.truthy (item_or_blank "utr" tx)) eqn:Hutr; cbn [bind];
       (split;
        [ intros [H | H]; rewrite H in *;
          [ reflexivity
          | try discriminate Hutr;
            destruct (item_or_blank "transactionId" tx); reflexivity ]
        | intros Hp Hr;
          destruct (item_or_blank "transactionId" tx) eqn:Ep;
          try (now elim Hp); cbn [char_field bind];
          match goal with
          | |- context [char_field py_repr ?r] =>
              destruct r eqn:Er; try (now elim Hr)
          end;
          cbn [char_field bind]; eexists; eexists; reflexivity ])).
Qed.

Lemma X10_witness :
  decoded_fields Sample.py_repr0 (JArr []) = Raise AttributeError
  /\ decoded_fields Sample.py_repr0
       (JObj [("data", JObj [("transactionId", JNull)])])
     = Raise IntegrityError
  /\ exists state code,
       decoded_fields Sample.py_repr0 Sample.decoded_paid
       = Ok (state, code, "T1", "U1").
Proof.
  split; [|split].
  - apply (proj1 (X10_payload_fields Sample.py_repr0 (JArr []))).
    reflexivity.
  - apply (proj1 (proj2 (proj2 (X10_payload_fields Sample.py_repr0
                                  (JObj [("data",
                                          JObj [("transactionId", JNull)])])))
                    _ [("transactionId", JNull)] eq_refl eq_refl)).
    left. reflexivity.
  - apply (proj2 (proj2 (proj2 (X10_payload_fields Sample.py_repr0
                                  Sample.decoded_paid))
                    _ _ eq_refl eq_refl)); discriminate.
Defined.

(* ------------------------------------------------------------------ *)
(** ** The admin action and the success page *)

Lemma stored_save_other (q : Payment) (fs : list PaymentField) (w : World)
    (key : Z) (P : Payment -> Prop) :
  pk q <> key -> stored w key P -> stored (save_payment q fs w) key P.
Proof.
  intros Hne [[row0 [Hin0 Hk0]] Hall]. split.
  - exists row0. split; [|exact Hk0].
    apply In_save_payment. exists row0. split; [exact Hin0|].
    replace (pk row0 =? pk q) with false; [reflexivity|].
    symmetry. apply Z.eqb_neq. congruence.
  - intros row' Hin' Hk'. apply In_save_payment in Hin'.
    destruct Hin' as [row [Hin ->]].
    destruct (pk row =? pk q) eqn:E.
    + apply Z.eqb_eq in E.
      destruct (copy_fields_keys fs q row) as [K _]. congruence.
    + now apply Hall.
Qed.

Lemma In_save_other (q row : Payment) (fs : list PaymentField) (w : World) :
  pk row <> pk q -> In row (payments w) ->
  In row (payments (save_payment q fs w)).
Proof.
  intros Hne Hin. apply In_save_payment. exists row. split; [exact Hin|].
  replace (pk row =? pk q) with false; [reflexivity|].
  symmetry. now apply Z.eqb_neq.
Qed.

Lemma mark_paid_payment_eq (env : Env) (w : World) (payment : Payment) :
  mark_paid_payment env w payment
  = save_admission_paid
      (set_paid_at (paid_at_kept (now_paid_at env) payment)
         (set_status PAID payment))
      (save_payment
         (set_paid_at (paid_at_kept (now_paid_at env) payment)
            (set_status PAID payment))
         [F_status; F_paid_at] w).
Proof.
  unfold mark_paid_payment, paid_at_kept. cbv zeta.
  cbn [paid_at set_status]. destruct payment as [? ? ? ? ? ? ? ? ? ? ? ? ? pa].
  cbn. destruct pa; reflexivity.
Qed.

Lemma mark_paid_payment_sound (env : Env) (w : World) (payment : Payment) :
  In payment (payments w) -> sound w ->
  sound (mark_paid_payment env w payment).
Proof.
  intros Hin [Hk Hc]. rewrite mark_paid_payment_eq. split.
  - eapply keyed_same_rows; [reflexivity|]. now apply keyed_save_payment.
  - apply (consistent_paid _ payment); try assumption. repeat split.
Qed.

Lemma mark_paid_payment_stored (env : Env) (w : World) (payment : Payment) :
  In payment (payments w) ->
  stored (mark_paid_payment env w payment) (pk payment)
    (fun row => status row = PAID
                /\ paid_at row = paid_at_kept (now_paid_at env) payment).
Proof.
  intros Hin. rewrite mark_paid_payment_eq.
  eapply stored_same_rows; [reflexivity|].
  apply stored_save_payment; [exists payment; now split | reflexivity |].
  intros row _ _. split; reflexivity.
Qed.

Lemma mark_paid_payment_other (env : Env) (w : World) (q : Payment)
    (key : Z) (P : Payment -> Prop) :
  pk q <> key -> stored w key P ->
  stored (mark_paid_payment env w q) key P.
Proof.
  intros Hne Hst. rewrite mark_paid_payment_eq.
  eapply stored_same_rows; [reflexivity|].
  now apply stored_save_other.
Qed.

Lemma mark_paid_other (env : Env) (qs : list Payment) (w : World)
    (key : Z) (P : Payment -> Prop) :
  (forall q, In q qs -> pk q <> key) -> stored w key P ->
  stored (mark_paid env qs w) key P.
Proof.
  unfold mark_paid. revert w.
  induction qs as [|q qs IH]; intros w Hne Hst; cbn [fold_left];
    [exact Hst|].
  apply IH.
  - intros q' Hq'. apply Hne. now right.
  - apply mark_paid_payment_other; [|exact Hst]. apply Hne. now left.
Qed.

(** X11. The admin action, run on distinct payments of a table with
    unique keys and at most one payment per admission, leaves each of
    them Paid, with the [paid_at] it had or, when it had none, the
    current time; it keeps the keys unique and keeps the rule that a
    Paid payment has a fee-Paid admission that has paid the payment's
    amount. *)
Theorem X11_admin_mark_paid
    (env : Env) (queryset : list Payment) (w : World) :
  keyed w -> consistent w -> NoDup queryset ->
  (forall p, In p queryset -> In p (payments w)) ->
  keyed (mark_paid env queryset w)
  /\ consistent (mark_paid env queryset w)
  /\ forall p, In p queryset ->
       stored (mark_paid env queryset w) (pk p)
         (fun row => status row = PAID
                     /\ paid_at row = paid_at_kept (now_paid_at env) p).
Proof.
  intros Hk Hc. assert (Hs : sound w) by now split. clear Hk Hc.
  revert w Hs. induction queryset as [|q qs IH]; intros w Hs Hnd Hin.
  - split; [apply Hs|]. split; [apply Hs|]. intros p [].
  - inversion Hnd as [|? ? Hq Hnd']; subst.
    assert (Hinq : In q (payments w)) by (apply Hin; now left).
    assert (Hne : forall p, In p qs -> pk p <> pk q).
    { intros p Hp E. apply Hq.
      assert (p = q); [|now subst].
      apply (NoDup_map_eq pk (payments w)); try assumption.
      - apply Hs.
      - apply Hin. now right. }
    change (mark_paid env (q :: qs) w)
      with (mark_paid env qs (mark_paid_payment env w q)).
    destruct (IH (mark_paid_payment env w q)) as [K [C S]].
    + now apply mark_paid_payment_sound.
    + exact Hnd'.
    + intros p Hp. rewrite mark_paid_payment_eq.
      change (payments (save_admission_paid ?a ?b)) with (payments b).
      apply In_save_other; [|apply Hin; now right].
      cbn [pk set_paid_at set_status]. now apply Hne.
    + split; [exact K|]. split; [exact C|].
      intros p [<- | Hp]; [|now apply S].
      apply mark_paid_other; [exact Hne|].
      now apply mark_paid_payment_stored.
Qed.

(** X11 at the fresh payment of the scenario, marked Paid at 5000. *)
Lemma X11_witness :
  keyed (mark_paid (Sample.env_at 5000 Sample.up "") [Sample.payment0]
           Sample.w0)
  /\ consistent (mark_paid (Sample.env_at 5000 Sample.up "")
                   [Sample.payment0] Sample.w0)
  /\ forall p, In p [Sample.payment0] ->
       stored (mark_paid (Sample.env_at 5000 Sample.up "")
                 [Sample.payment0] Sample.w0) (pk p)
         (fun row => status row = PAID
                     /\ paid_at row = paid_at_kept 5000 p).
Proof.
  apply (X11_admin_mark_paid (Sample.env_at 5000 Sample.up "")
           [Sample.payment0] Sample.w0).
  - split; simpl; (constructor; [intros [] | constructor]).
  - intros p a [<- | []] [<- | []] _. simpl. split; discriminate.
  - constructor; [intros [] | constructor].
  - intros p H. exact H.
Defined.

(** X12. The success page of an admission fails with DoesNotExist when
    there is no such admission. Otherwise it changes no admission and no
    column of a payment other than [paid_at]; it writes only when the
    admission's payment is Paid and has no [paid_at], which it then sets
    to the current time, and in every other case the state is as
    before. *)
Theorem X12_success_page_backfills_paid_at
    (env : Env) (admission_id : Z) (w : World) :
  ((forall a, In a (admissions w) -> a_pk a <> admission_id) ->
   admission_success env admission_id w = Raise DoesNotExist)
  /\ forall w',
       admission_success env admission_id w = Ok w' ->
       admissions w' = admissions w
       /\ map (set_paid_at None) (payments w')
          = map (set_paid_at None) (payments w)
       /\ (payment_by_admission admission_id w = None -> w' = w)
       /\ forall payment,
            payment_by_admission admission_id w = Some payment ->
            (status payment = PAID -> paid_at payment = None ->
             stored w' (pk payment)
               (fun row => paid_at row = Some (now_paid_at env)))
            /\ (status payment <> PAID \/ paid_at payment <> None ->
                w' = w).
Proof.
  unfold admission_success. split.
  - intros Hnone.
    destruct (find (fun a => a_pk a =? admission_id) (admissions w))
      as [a|] eqn:Ha; [|reflexivity].
    apply find_some in Ha. destruct Ha as [Hin Ha].
    apply Z.eqb_eq in Ha. now elim (Hnone a Hin).
  - intros w'.
    destruct (find (fun a => a_pk a =? admission_id) (admissions w))
      as [a|] eqn:Ha; [|discriminate].
    apply find_some in Ha. destruct Ha as [_ Ha]. apply Z.eqb_eq in Ha.
    rewrite Ha.
    destruct (payment_by_admission admission_id w) as [payment|] eqn:Hfind.
    + apply payment_by_admission_In in Hfind. destruct Hfind as [Hin _].
      destruct (status payment) eqn:Hs;
        destruct (paid_at payment) eqn:Hp; intros [= <-];
        (split; [reflexivity|]);
        (split;
         [ try reflexivity
         | split; [discriminate|];
           intros p' [= <-]; rewrite Hs, Hp;
           split; [intros; try discriminate | intros [H | H];
                                               try reflexivity;
                                               now elim H] ]).
      * apply save_payment_column.
        intros f src dst [<- | []]. reflexivity.
      * apply stored_save_payment;
          [exists payment; now split | reflexivity |].
        intros row _ _. reflexivity.
    + intros [= <-]. split; [reflexivity|]. split; [reflexivity|].
      split; [reflexivity | discriminate].
Qed.

(** X12 at a Paid payment without [paid_at], viewed at 6000. *)
Lemma X12_witness :
  stored
    (save_payment (set_paid_at (Some 6000) Sample.payment_paid) [F_paid_at]
       (mkWorld [set_paid_at None Sample.payment_paid]
          [mkAdmission 42 1500 1500 Fee_PAID] []))
    1 (fun row => paid_at row = Some 6000).
Proof.
  destruct (X12_success_page_backfills_paid_at
              (Sample.env_at 6000 Sample.up "") 42
              (mkWorld [set_paid_at None Sample.payment_paid]
                 [mkAdmission 42 1500 1500 Fee_PAID] []))
    as [_ Hok].
  destruct (Hok _ eq_refl) as [_ [_ [_ Hp]]].
  destruct (Hp (set_paid_at None Sample.payment_paid) eq_refl) as [Hset _].
  exact (Hset eq_refl eq_refl).
Defined.

(* ------------------------------------------------------------------ *)
(** ** Starting a payment *)

Lemma find_admission (admission_id : Z) (w : World) (admission : Admission) :
  find (fun a => a_pk a =? admission_id) (admissions w) = Some admission ->
  In admission (admissions w) /\ a_pk admission = admission_id.
Proof.
  intros H. apply find_some in H. destruct H as [Hin H].
  split; [assumption | now apply Z.eqb_eq].
Qed.

Lemma payment_for_status (created : Z) (admission : Admission) (w : World) :
  payment_by_admission (a_pk admission) w = None ->
  status (fst (payment_for created admission w)) = PENDING.
Proof. unfold payment_for. intros ->. reflexivity. Qed.

Lemma ready_phonepe (settings : Settings) (gateway_settings : GatewaySettings) :
  PAYMENT_GATEWAY gateway_settings = "PhonePe" ->
  online_payment_ready settings gateway_settings
  = negb (negb (PyStr.truthy (PHONEPE_MERCHANT_ID settings))
          || negb (PyStr.truthy (PHONEPE_SALT_KEY settings))
          || negb (PyStr.truthy (PHONEPE_SALT_INDEX settings))
          || negb (PyStr.truthy (PHONEPE_BASE_URL settings))).
Proof.
  intros H. unfold online_payment_ready. rewrite H. cbn [String.eqb].
  change (String.eqb "PhonePe" "PhonePe") with true. cbv iota.
  destruct (PyStr.truthy (PHONEPE_MERCHANT_ID settings)),
    (PyStr.truthy (PHONEPE_SALT_KEY settings)),
    (PyStr.truthy (PHONEPE_SALT_INDEX settings)),
    (PyStr.truthy (PHONEPE_BASE_URL settings)); reflexivity.
Qed.

Lemma ready_razorpay (settings : Settings) (gateway_settings : GatewaySettings)
    :
  String.eqb (PAYMENT_GATEWAY gateway_settings) "PhonePe" = false ->
  online_payment_ready settings gateway_settings
  = negb (negb (PyStr.truthy (RAZORPAY_KEY_ID gateway_settings))
          || negb (PyStr.truthy (RAZORPAY_KEY_SECRET settings))).
Proof.
  intros H. unfold online_payment_ready. rewrite H.
  destruct (PyStr.truthy (RAZORPAY_KEY_ID gateway_settings)),
    (PyStr.truthy (RAZORPAY_KEY_SECRET settings)); reflexivity.
Qed.

(** The view once the admission is found, in terms of the payment it
    works on. *)
Lemma start_payment_found
    (redirect : json -> exn + string)
    (py_repr : json -> string) (json_dumps json_dumps_compact : json -> string)
    (json_loads : string -> option json) (b64encode : string -> string)
    (settings : Settings) (gateway_settings : GatewaySettings)
    (env : StartEnv) (student : Student) (admission_id : Z) (w : World)
    (admission : Admission) :
  find (fun a => a_pk a =? admission_id) (admissions w) = Some admission ->
  start_payment redirect py_repr json_dumps json_dumps_compact json_loads
      b64encode
    settings gateway_settings env student admission_id w
  = let payment := fst (payment_for (now_created_at env) admission w) in
    let w := snd (payment_for (now_created_at env) admission w) in
    let back := Start_redirect (Route_admission_success admission_id) in
    if PaymentStatus_eqb (status payment) PAID
    then (Ok (back Info "Payment already completed."), w, [])
    else if fee_amount admission <=? 0
    then (Ok (back Warning "Fee amount is not set for this admission."),
          w, [])
    else if String.eqb (PAYMENT_GATEWAY gateway_settings) "PhonePe"
    then
      match _start_phonepe_payment json_dumps json_dumps_compact json_loads
              b64encode settings env student admission payment w with
      | (Ok redirect_url, w, sent) =>
          match redirect redirect_url with
          | inr location => (Ok (Start_gateway location), w, sent)
          | inl e => (Raise e, w, sent)
          end
      | (Raise (RuntimeError exc), w, sent) => (Ok (back Error exc), w, sent)
      | (Raise e, w, sent) => (Raise e, w, sent)
      | (RaiseAfter e w', w, sent) => (RaiseAfter e w', w, sent)
      end
    else
      if negb (PyStr.truthy (RAZORPAY_KEY_ID gateway_settings))
         || negb (PyStr.truthy (RAZORPAY_KEY_SECRET settings))
      then (Ok (back Warning "Razorpay keys are missing in settings."),
            w, [])
      else
        let amount_paise := fee_amount admission * 100 in
        let created :=
          _create_razorpay_order json_dumps json_loads b64encode env
            amount_paise ("admission_" ++ PyStr.of_Z (a_pk admission))
            (RAZORPAY_KEY_ID gateway_settings)
            (RAZORPAY_KEY_SECRET settings) in
        match snd created with
        | Raise (RuntimeError exc) => (Ok (back Error exc), w, [fst created])
        | Raise e => (Raise e, w, [fst created])
        | RaiseAfter e w' => (RaiseAfter e w', w, [fst created])
        | Ok order =>
            match (order_id <- Py.get order "id" (JStr "") ;;
                   char_field py_repr order_id) with
            | Raise e => (Raise e, w, [fst created])
            | RaiseAfter e w' => (RaiseAfter e w', w, [fst created])
            | Ok order_id =>
                let payment :=
                  set_status PENDING
                    (set_method (Some ONLINE)
                       (set_amount (fee_amount admission)
                          (set_order_id order_id
                             (set_gateway (Some RAZORPAY) payment)))) in
                (Ok (Start_checkout (RAZORPAY_KEY_ID gateway_settings)
                       amount_paise order_id),
                 save_payment_start payment
                   [S_gateway; S_order_id; S_amount; S_method; S_status] w,
                 [fst created])
            end
        end.
Proof.
  intros Hfind. unfold start_payment. rewrite Hfind.
  unfold payment_for.
  destruct (payment_by_admission (a_pk admission) w) as [payment|];
    cbv zeta; cbn [fst snd create_payment _get_razorpay_credentials];
    repeat match goal with
           | |- context [if ?c then _ else _] => destruct c; try reflexivity
           end;
    try (destruct (_start_phonepe_payment _ _ _ _ _ _ _ _ _ _) as [[[] ?] ?];
         reflexivity);
    try (destruct (_create_razorpay_order _ _ _ _ _ _ _ _) as [? []];
         reflexivity).
Qed.

(** X13. [start_payment] turns the request away without calling a
    gateway when the admission's payment is Paid, when the admission
    owes nothing, or when the settings of the gateway in use are
    incomplete (the readiness flag of the success page is off), in this
    order of precedence and with the message of the first that applies.
    The state is then as before, but for the admission's payment being
    created when it had none. *)
Theorem X13_start_refused
    (redirect : json -> exn + string)
    (py_repr : json -> string) (json_dumps json_dumps_compact : json -> string)
    (json_loads : string -> option json) (b64encode : string -> string)
    (settings : Settings) (gateway_settings : GatewaySettings)
    (env : StartEnv) (student : Student) (admission_id : Z) (w : World)
    (admission : Admission) :
  find (fun a => a_pk a =? admission_id) (admissions w) = Some admission ->
  let payment := fst (payment_for (now_created_at env) admission w) in
  status payment = PAID \/ fee_amount admission <= 0
  \/ online_payment_ready settings gateway_settings = false ->
  exists level message,
    start_payment redirect py_repr json_dumps json_dumps_compact json_loads
        b64encode
      settings gateway_settings env student admission_id w
    = (Ok (Start_redirect (Route_admission_success admission_id)
             level message),
       snd (payment_for (now_created_at env) admission w), [])
    /\ (status payment = PAID ->
        level = Info /\ message = "Payment already completed.")
    /\ (status payment <> PAID -> fee_amount admission <= 0 ->
        level = Warning
        /\ message = "Fee amount is not set for this admission.")
    /\ (status payment <> PAID -> 0 < fee_amount admission ->
        (level, message) = settings_missing gateway_settings).
Proof.
  intros Hfind payment Hcase.
  rewrite (start_payment_found _ _ _ _ _ _ _ _ _ _ _ _ _ Hfind).
  cbv zeta. fold payment.
  destruct (PaymentStatus_eqb (status payment) PAID) eqn:Hpaid.
  { apply PaymentStatus_eqb_eq in Hpaid.
    exists Info, "Payment already completed.".
    split; [reflexivity|]. split; [auto|]. split; intros H; now elim H. }
  assert (Hnp : status payment <> PAID).
  { intros H. apply PaymentStatus_eqb_eq in H. congruence. }
  destruct (fee_amount admission <=? 0) eqn:Hfee.
  { apply Z.leb_le in Hfee.
    exists Warning, "Fee amount is not set for this admission.".
    split; [reflexivity|]. split; [intros H; now elim Hnp|].
    split; [auto | intros _ H; lia]. }
  apply Z.leb_gt in Hfee.
  destruct Hcase as [H | [H | Hready]]; [now elim Hnp | lia |].
  unfold settings_missing.
  destruct (String.eqb (PAYMENT_GATEWAY gateway_settings) "PhonePe") eqn:Hg.
  - apply String.eqb_eq in Hg.
    rewrite (ready_phonepe _ _ Hg) in Hready.
    apply negb_false_iff in Hready.
    unfold _start_phonepe_payment, _get_phonepe_config. rewrite Hready.
    exists Error, "PhonePe settings are missing in settings.py.".
    split; [reflexivity|]. split; [intros H; now elim Hnp|].
    split; [intros _ H; lia | reflexivity].
  - rewrite (ready_razorpay _ _ Hg) in Hready.
    apply negb_false_iff in Hready. rewrite Hready.
    exists Warning, "Razorpay keys are missing in settings.".
    split; [reflexivity|]. split; [intros H; now elim Hnp|].
    split; [intros _ H; lia | reflexivity].
Qed.

(** X13 where the payment of admission 42 is already Paid. *)
Lemma X13_witness :
  exists level message,
    start_payment StartSample.redirect0 Sample.py_repr0 Sample.json_dumps0
        Sample.json_dumps0
      StartSample.json_loads1 StartSample.b64encode0 Sample.settings0
      StartSample.razorpay (StartSample.env_at 3000 Sample.up)
      StartSample.student0 42 Sample.w_rzp_paid
    = (Ok (Start_redirect (Route_admission_success 42) level message),
       Sample.w_rzp_paid, [])
    /\ level = Info /\ message = "Payment already completed.".
Proof.
  destruct (X13_start_refused StartSample.redirect0 Sample.py_repr0
      Sample.json_dumps0
              Sample.json_dumps0 StartSample.json_loads1
              StartSample.b64encode0 Sample.settings0 StartSample.razorpay
              (StartSample.env_at 3000 Sample.up) StartSample.student0 42
              Sample.w_rzp_paid (mkAdmission 42 1500 1500 Fee_PAID)
              eq_refl (or_introl eq_refl))
    as [level [message [E [H _]]]].
  exists level, message. split; [exact E | exact (H eq_refl)].
Defined.

Lemma payment_for_In (created : Z) (admission : Admission) (w : World) :
  In (fst (payment_for created admission w))
    (payments (snd (payment_for created admission w)))
  /\ admission_id (fst (payment_for created admission w)) = a_pk admission.
Proof.
  unfold payment_for.
  destruct (payment_by_admission (a_pk admission) w) as [p|] eqn:E.
  - apply payment_by_admission_In in E. exact E.
  - cbn [create_payment fst snd payments admission_id]. split.
    + apply in_or_app. right. now left.
    + reflexivity.
Qed.

Lemma payment_for_admissions (created : Z) (admission : Admission)
    (w : World) :
  admissions (snd (payment_for created admission w)) = admissions w
  /\ log (snd (payment_for created admission w)) = log w.
Proof.
  unfold payment_for.
  destruct (payment_by_admission (a_pk admission) w); split; reflexivity.
Qed.

Lemma copy_start_kept (key : Z) (p : Payment) (fs : list StartField)
    (row : Payment) :
  pk row = key ->
  start_kept (pk row) row
    (fold_left (fun r f => copy_start_field f p r) fs row)
  /\ pk (fold_left (fun r f => copy_start_field f p r) fs row) = key.
Proof.
  intros Hk.
  assert (H : forall r,
             pk r = pk row /\ admission_id r = admission_id row
             /\ reference_id r = reference_id row
             /\ payment_id r = payment_id row
             /\ signature r = signature row
             /\ notified_at r = notified_at row
             /\ created_at r = created_at row /\ paid_at r = paid_at row ->
             let r' := fold_left (fun r f => copy_start_field f p r) fs r in
             pk r' = pk row /\ admission_id r' = admission_id row
             /\ reference_id r' = reference_id row
             /\ payment_id r' = payment_id row
             /\ signature r' = signature row
             /\ notified_at r' = notified_at row
             /\ created_at r' = created_at row /\ paid_at r' = paid_at row).
  { induction fs as [|f fs IH]; intros r Hr; [exact Hr|].
    cbn [fold_left]. apply IH. destruct f; exact Hr. }
  specialize (H row).
  destruct H as (H1 & H2 & H3 & H4 & H5 & H6 & H7 & H8);
    [repeat split|].
  split; [|congruence].
  unfold start_kept. repeat split; try assumption.
  intros Hne. now elim Hne.
Qed.

Lemma save_start_kept (p : Payment) (fs : list StartField) (w : World) :
  Forall2 (start_kept (pk p)) (payments w)
    (payments (save_payment_start p fs w)).
Proof.
  cbn [save_payment_start payments]. apply Forall2_map_self.
  intros row _. destruct (pk row =? pk p) eqn:E.
  - apply Z.eqb_eq in E. rewrite <- E.
    apply (copy_start_kept (pk row)). reflexivity.
  - unfold start_kept. repeat split.
Qed.

Lemma stored_save_start (p : Payment) (fs : list StartField) (w : World)
    (P : Payment -> Prop) :
  (exists row, In row (payments w) /\ pk row = pk p) ->
  (forall row, In row (payments w) -> pk row = pk p ->
     P (fold_left (fun r f => copy_start_field f p r) fs row)) ->
  stored (save_payment_start p fs w) (pk p) P.
Proof.
  intros [row0 [Hin0 Hk0]] HP. split.
  - exists (fold_left (fun r f => copy_start_field f p r) fs row0). split.
    + cbn [save_payment_start payments]. apply in_map_iff.
      exists row0. split; [|assumption].
      apply Z.eqb_eq in Hk0. now rewrite Hk0.
    + now apply (copy_start_kept (pk p)).
  - cbn [save_payment_start payments]. intros row' Hin Hk.
    apply in_map_iff in Hin. destruct Hin as [row [E Hin]].
    destruct (pk row =? pk p) eqn:Ek.
    + apply Z.eqb_eq in Ek. subst row'. now apply HP.
    + subst row'. apply Z.eqb_neq in Ek. now elim Ek.
Qed.

(** X14. With Razorpay in use and configured, a payment that is not
    Paid and an admission that owes a fee, an answer of the gateway
    with an order id makes [start_payment] show the checkout for that
    order with the fee in paise (a hundred times the fee), after one
    call of the orders API, and leaves the payment with gateway
    Razorpay, that order id, the fee as its amount, method Online and
    status Pending. It writes nothing else. *)
Theorem X14_razorpay_order_stored
    (redirect : json -> exn + string)
    (py_repr : json -> string) (json_dumps json_dumps_compact : json -> string)
    (json_loads : string -> option json) (b64encode : string -> string)
    (settings : Settings) (gateway_settings : GatewaySettings)
    (env : StartEnv) (student : Student) (admission_id : Z) (w : World)
    (admission : Admission) (code : Z) (response_body : string)
    (fields : list (string * json)) (oid : string) :
  find (fun a => a_pk a =? admission_id) (admissions w) = Some admission ->
  let payment := fst (payment_for (now_created_at env) admission w) in
  let w1 := snd (payment_for (now_created_at env) admission w) in
  status payment <> PAID ->
  0 < fee_amount admission ->
  PAYMENT_GATEWAY gateway_settings <> "PhonePe" ->
  online_payment_ready settings gateway_settings = true ->
  (forall request_obj, urlopen env request_obj = Responded code response_body)
      ->
  json_loads response_body = Some (JObj fields) ->
  char_field py_repr (item_or_blank "id" fields) = Ok oid ->
  exists w' request_obj,
    start_payment redirect py_repr json_dumps json_dumps_compact json_loads
        b64encode
      settings gateway_settings env student admission_id w
    = (Ok (Start_checkout (RAZORPAY_KEY_ID gateway_settings)
             (fee_amount admission * 100) oid),
       w', [request_obj])
    /\ url request_obj = "https://api.razorpay.com/v1/orders"
    /\ stored w' (pk payment)
         (fun row => gateway row = Some RAZORPAY /\ order_id row = oid
                     /\ amount row = fee_amount admission
                     /\ method row = Some ONLINE /\ status row = PENDING)
    /\ Forall2 (start_kept (pk payment)) (payments w1) (payments w')
    /\ admissions w' = admissions w.
Proof.
  intros Hfind payment w1 Hnp Hfee Hg Hready Hnet Hloads Hid.
  rewrite (start_payment_found _ _ _ _ _ _ _ _ _ _ _ _ _ Hfind).
  cbv zeta. fold payment w1.
  destruct (PaymentStatus_eqb (status payment) PAID) eqn:Hpaid;
    [apply PaymentStatus_eqb_eq in Hpaid; now elim Hnp|].
  apply Z.leb_gt in Hfee. rewrite Hfee.
  apply String.eqb_neq in Hg. rewrite Hg.
  rewrite (ready_razorpay _ _ Hg) in Hready.
  apply negb_true_iff in Hready. rewrite Hready.
  unfold _create_razorpay_order. cbn [fst snd].
  rewrite Hnet, Hloads. cbn [Py.get bind].
  fold (item_or_blank "id" fields). rewrite Hid.
  eexists. eexists. split; [reflexivity|].
  split; [reflexivity|].
  destruct (payment_for_In (now_created_at env) admission w) as [Hin _].
  destruct (payment_for_admissions (now_created_at env) admission w)
    as [Ha _].
  fold payment w1 in Hin, Ha.
  split; [|split].
  - match goal with
    | |- stored (save_payment_start ?p ?fs ?x) _ _ =>
        apply (stored_save_start p fs x)
    end.
    + exists payment. split; [assumption | reflexivity].
    + intros row _ _. cbn. repeat split.
  - match goal with
    | |- Forall2 _ _ (payments (save_payment_start ?p ?fs ?x)) =>
        apply (save_start_kept p fs x)
    end.
  - exact Ha.
Qed.

(** X14 for admission 42 right after its admission: Razorpay answers
    with order_N1, and the state is that of the pending order. *)
Lemma X14_witness :
  exists w' request_obj,
    start_payment StartSample.redirect0 Sample.py_repr0 Sample.json_dumps0
        Sample.json_dumps0
      StartSample.json_loads1 StartSample.b64encode0 Sample.settings0
      StartSample.razorpay
      (StartSample.env_at 3000 (Responded 200 StartSample.order_body))
      StartSample.student0 42 StartSample.w_new
    = (Ok (Start_checkout "rzp_test_1" 150000 "order_N1"),
       w', [request_obj])
    /\ url request_obj = "https://api.razorpay.com/v1/orders"
    /\ stored w' 1
         (fun row => gateway row = Some RAZORPAY
                     /\ order_id row = "order_N1"
                     /\ amount row = 1500
                     /\ method row = Some ONLINE /\ status row = PENDING)
    /\ Forall2 (start_kept 1) (payments StartSample.w_new) (payments w')
    /\ admissions w' = [Sample.admission0].
Proof.
  apply (X14_razorpay_order_stored StartSample.redirect0 Sample.py_repr0
      Sample.json_dumps0
           Sample.json_dumps0 StartSample.json_loads1
           StartSample.b64encode0 Sample.settings0 StartSample.razorpay
           (StartSample.env_at 3000 (Responded 200 StartSample.order_body))
           StartSample.student0 42 StartSample.w_new Sample.admission0
           200 StartSample.order_body [("id", JStr "order_N1")] "order_N1").
  - reflexivity.
  - discriminate.
  - reflexivity.
  - discriminate.
  - reflexivity.
  - reflexivity.
  - reflexivity.
  - reflexivity.
Defined.

(** X15. When the gateway in use is configured but its call fails (an
    HTTP error or no connection), [start_payment] answers with an error
    message after that one call and writes nothing: the payment keeps
    its gateway, order id, amount and status, and an order id made up
    for a PhonePe request is not stored. *)
Theorem X15_gateway_failure_writes_nothing
    (redirect : json -> exn + string)
    (py_repr : json -> string) (json_dumps json_dumps_compact : json -> string)
    (json_loads : string -> option json) (b64encode : string -> string)
    (settings : Settings) (gateway_settings : GatewaySettings)
    (env : StartEnv) (student : Student) (admission_id : Z) (w : World)
    (admission : Admission) :
  find (fun a => a_pk a =? admission_id) (admissions w) = Some admission ->
  let payment := fst (payment_for (now_created_at env) admission w) in
  let w1 := snd (payment_for (now_created_at env) admission w) in
  status payment <> PAID ->
  0 < fee_amount admission ->
  online_payment_ready settings gateway_settings = true ->
  (forall request_obj,
     exists reason,
       urlopen env request_obj = RaisedHTTPError reason
       \/ urlopen env request_obj = RaisedURLError reason) ->
  exists message request_obj,
    start_payment redirect py_repr json_dumps json_dumps_compact json_loads
        b64encode
      settings gateway_settings env student admission_id w
    = (Ok (Start_redirect (Route_admission_success admission_id)
             Error message),
       w1, [request_obj])
    /\ url request_obj
       = if String.eqb (PAYMENT_GATEWAY gateway_settings) "PhonePe"
         then PHONEPE_BASE_URL settings ++ "/pg/v1/pay"
         else "https://api.razorpay.com/v1/orders".
Proof.
  intros Hfind payment w1 Hnp Hfee Hready Hnet.
  rewrite (start_payment_found _ _ _ _ _ _ _ _ _ _ _ _ _ Hfind).
  cbv zeta. fold payment w1.
  destruct (PaymentStatus_eqb (status payment) PAID) eqn:Hpaid;
    [apply PaymentStatus_eqb_eq in Hpaid; now elim Hnp|].
  apply Z.leb_gt in Hfee. rewrite Hfee.
  destruct (String.eqb (PAYMENT_GATEWAY gateway_settings) "PhonePe") eqn:Hg.
  - apply String.eqb_eq in Hg.
    rewrite (ready_phonepe _ _ Hg) in Hready.
    apply negb_true_iff in Hready.
    unfold _start_phonepe_payment, _get_phonepe_config. rewrite Hready.
    unfold _phonepe_post_request.
    match goal with
    | |- context [urlopen env ?r] =>
        destruct (Hnet r) as [reason [H | H]]; rewrite H
    end; eexists; eexists; split; reflexivity.
  - rewrite (ready_razorpay _ _ Hg) in Hready.
    apply negb_true_iff in Hready. rewrite Hready.
    unfold _create_razorpay_order. cbn [fst snd].
    match goal with
    | |- context [urlopen env ?r] =>
        destruct (Hnet r) as [reason [H | H]]; rewrite H
    end; eexists; eexists; split; reflexivity.
Qed.

(** X15 for admission 42 with PhonePe unreachable. *)
Lemma X15_witness :
  exists message request_obj,
    start_payment StartSample.redirect0 Sample.py_repr0 Sample.json_dumps0
        Sample.json_dumps0
      StartSample.json_loads1 StartSample.b64encode0 Sample.settings0
      StartSample.phonepe (StartSample.env_at 3000 Sample.down)
      StartSample.student0 42 StartSample.w_new
    = (Ok (Start_redirect (Route_admission_success 42) Error message),
       StartSample.w_new, [request_obj])
    /\ url request_obj = "https://api.phonepe.example/pg/v1/pay".
Proof.
  apply (X15_gateway_failure_writes_nothing StartSample.redirect0
      Sample.py_repr0
           Sample.json_dumps0 Sample.json_dumps0 StartSample.json_loads1
           StartSample.b64encode0 Sample.settings0 StartSample.phonepe
           (StartSample.env_at 3000 Sample.down) StartSample.student0 42
           StartSample.w_new Sample.admission0).
  - reflexivity.
  - discriminate.
  - reflexivity.
  - reflexivity.
  - intros request_obj. exists "unreachable". right. reflexivity.
Defined.



(** The state [start_payment] leaves: that with the payment it works
    on, or that after one save of this payment as Pending. *)
Lemma start_payment_world
    (redirect : json -> exn + string)
    (py_repr : json -> string) (json_dumps json_dumps_compact : json -> string)
    (json_loads : string -> option json) (b64encode : string -> string)
    (settings : Settings) (gateway_settings : GatewaySettings)
    (env : StartEnv) (student : Student) (admission_id : Z) (w : World)
    (admission : Admission) :
  find (fun a => a_pk a =? admission_id) (admissions w) = Some admission ->
  let payment := fst (payment_for (now_created_at env) admission w) in
  let w1 := snd (payment_for (now_created_at env) admission w) in
  let w' := snd (fst (start_payment redirect py_repr json_dumps
      json_dumps_compact
                        json_loads b64encode settings gateway_settings env
                        student admission_id w)) in
  w' = w1
  \/ status payment <> PAID
     /\ exists p fs,
          pk p = pk payment /\ status p = PENDING
          /\ w' = save_payment_start p fs w1.
Proof.
  intros Hfind payment w1.
  rewrite (start_payment_found _ _ _ _ _ _ _ _ _ _ _ _ _ Hfind).
  cbv zeta. fold payment w1.
  destruct (PaymentStatus_eqb (status payment) PAID) eqn:Hpaid;
    [left; reflexivity|].
  assert (Hnp : status payment <> PAID).
  { intros H. apply PaymentStatus_eqb_eq in H. congruence. }
  destruct (fee_amount admission <=? 0); [left; reflexivity|].
  destruct (String.eqb (PAYMENT_GATEWAY gateway_settings) "PhonePe").
  - unfold _start_phonepe_payment, _get_phonepe_config.
    match goal with
    | |- context [if ?c then (Raise _, _, _) else _] => destruct c
    end; [left; reflexivity|].
    unfold _phonepe_post_request.
    match goal with
    | |- context [urlopen env ?r] => destruct (urlopen env r)
    end; try (left; reflexivity).
    destruct (json_loads response_body) as [response|];
      [|left; reflexivity].
    assert (Hp : forall q,
               pk (if negb (PyStr.truthy (order_id payment))
                   then set_order_id q payment else payment) = pk payment)
      by (intros q; destruct (negb (PyStr.truthy (order_id payment)));
          reflexivity).
    right. split; [assumption|].
    destruct (pay_page_url response) as [redirect_url | e | e w2];
      [destruct (Py.truthy redirect_url); cbn [negb];
       [destruct (redirect redirect_url)|]
      | destruct e | ];
      cbn [fst snd];
      (eexists; eexists; split; [|split; [|reflexivity]];
       [apply Hp | reflexivity]).
  - match goal with
    | |- context [if ?c then (Ok _, _, _) else _] => destruct c
    end; [left; reflexivity|].
    unfold _create_razorpay_order. cbn [fst snd].
    match goal with
    | |- context [urlopen env ?r] => destruct (urlopen env r)
    end; try (left; reflexivity).
    destruct (json_loads response_body) as [order|];
      [|left; reflexivity].
    match goal with
    | |- context [bind ?c ?k] => destruct (bind c k) as [oid | e | e w2]
    end; [|left; reflexivity|left; reflexivity].
    right. split; [assumption|].
    eexists. eexists. split; [|split; [|reflexivity]]; reflexivity.
Qed.

Lemma copy_start_status (p : Payment) (fs : list StartField) (row : Payment) :
  status (fold_left (fun r f => copy_start_field f p r) fs row) = status row
  \/ status (fold_left (fun r f => copy_start_field f p r) fs row) = status p.
Proof.
  revert row. induction fs as [|f fs IH]; intros row; [now left|].
  cbn [fold_left]. destruct (IH (copy_start_field f p row)) as [H | H].
  - rewrite H. destruct f; cbn; auto.
  - now right.
Qed.

(** X17. Whatever a [start_payment] request is answered, it changes no
    admission and makes no entry in the log of reconciliation writes
    and dispatches; of the payments it had before it changes at most
    one, and of that one never the payment id, signature, reference,
    [paid_at] or [notified_at]; and it adds at most one payment, only
    for an admission that had none, which is Pending and carries no
    payment id, signature, reference or time of payment. *)
Theorem X17_start_keeps_payment_evidence
    (redirect : json -> exn + string)
    (py_repr : json -> string) (json_dumps json_dumps_compact : json -> string)
    (json_loads : string -> option json) (b64encode : string -> string)
    (settings : Settings) (gateway_settings : GatewaySettings)
    (env : StartEnv) (student : Student) (admission_key : Z) (w : World) :
  let w' := snd (fst (start_payment redirect py_repr json_dumps
      json_dumps_compact
                        json_loads b64encode settings gateway_settings env
                        student admission_key w)) in
  admissions w' = admissions w /\ log w' = log w
  /\ exists key rows extra,
       payments w' = (rows ++ extra)%list
       /\ Forall2 (start_kept key) (payments w) rows
       /\ (extra = []
           \/ payment_by_admission admission_key w = None
              /\ exists row,
                   extra = [row] /\ admission_id row = admission_key
                   /\ status row = PENDING /\ paid_at row = None
                   /\ notified_at row = None /\ payment_id row = ""
                   /\ signature row = "" /\ reference_id row = "").
Proof.
  intros w'.
  assert (Hrefl : forall key l, Forall2 (start_kept key) l l).
  { intros key l. apply Forall2_refl. intros x.
    unfold start_kept. repeat split. }
  destruct (find (fun a => a_pk a =? admission_key) (admissions w))
    as [admission|] eqn:Hfind.
  2:{ subst w'. unfold start_payment. rewrite Hfind. cbn [fst snd].
      split; [reflexivity|]. split; [reflexivity|].
      exists 0, (payments w), []. rewrite app_nil_r.
      split; [reflexivity|]. split; [apply Hrefl | now left]. }
  pose proof (start_payment_world redirect py_repr json_dumps json_dumps_compact
                json_loads b64encode settings gateway_settings env student
                admission_key w admission Hfind) as Hw.
  cbv zeta in Hw. fold w' in Hw.
  destruct (find_admission _ _ _ Hfind) as [_ Hid].
  set (payment := fst (payment_for (now_created_at env) admission w)) in *.
  set (w1 := snd (payment_for (now_created_at env) admission w)) in *.
  assert (H1 : admissions w1 = admissions w /\ log w1 = log w
               /\ exists extra,
                    payments w1 = (payments w ++ extra)%list
                    /\ (extra = []
                        \/ payment_by_admission admission_key w = None
                           /\ exists row,
                                extra = [row]
                                /\ admission_id row = admission_key
                                /\ status row = PENDING
                                /\ paid_at row = None
                                /\ notified_at row = None
                                /\ payment_id row = ""
                                /\ signature row = ""
                                /\ reference_id row = "")).
  { subst w1. unfold payment_for. rewrite Hid.
    destruct (payment_by_admission admission_key w) eqn:E.
    - split; [reflexivity|]. split; [reflexivity|].
      exists []. rewrite app_nil_r. split; [reflexivity | now left].
    - split; [reflexivity|]. split; [reflexivity|].
      eexists. split; [reflexivity|]. right. split; [reflexivity|].
      eexists. split; [reflexivity|]. cbn. rewrite Hid. repeat split. }
  destruct H1 as (Ha & Hl & extra & Hrows & Hextra).
  destruct Hw as [Hw | [_ [p [fs [Hpk [Hst Hw]]]]]]; rewrite Hw.
  - split; [assumption|]. split; [assumption|].
    exists 0, (payments w), extra.
    split; [assumption|]. split; [apply Hrefl | assumption].
  - split; [assumption|]. split; [assumption|].
    cbn [save_payment_start payments]. rewrite Hrows, map_app.
    eexists (pk p), _, _. split; [reflexivity|]. split.
    + apply Forall2_map_self. intros row _.
      destruct (pk row =? pk p) eqn:E.
      * apply Z.eqb_eq in E. rewrite <- E.
        apply (copy_start_kept (pk row)). reflexivity.
      * unfold start_kept. repeat split.
    + destruct Hextra as [-> | [Hnone [row [-> Hrow]]]]; [now left|].
      right. split; [assumption|]. cbn [map].
      eexists. split; [reflexivity|].
      destruct Hrow as (R1 & R2 & R3 & R4 & R5 & R6 & R7).
      destruct (pk row =? pk p); [|repeat split; assumption].
      destruct (copy_start_kept (pk row) p fs row eq_refl)
        as [(K1 & K2 & K3 & K4 & K5 & K6 & K7 & K8 & _) _].
      repeat split; try congruence.
      destruct (copy_start_status p fs row) as [H | H]; congruence.
Qed.

Lemma next_pk_fresh (w : World) (p : Payment) :
  In p (payments w) -> pk p < next_pk w.
Proof.
  unfold next_pk. induction (payments w) as [|q l IH]; [intros []|].
  cbn [map fold_right]. intros [-> | H]; [lia|].
  specialize (IH H). lia.
Qed.

Lemma NoDup_map_snoc {A B : Type} (f : A -> B) (l : list A) (x : A) :
  NoDup (map f l) -> (forall y, In y l -> f y <> f x) ->
  NoDup (map f (l ++ [x])).
Proof.
  intros Hnd Hx. induction l as [|a l IH]; cbn [map app].
  - constructor; [intros [] | constructor].
  - inversion Hnd as [|? ? Hnotin Hnd']; subst. constructor.
    + rewrite map_app, in_app_iff. intros [H | [H | []]].
      * now apply Hnotin.
      * apply (Hx a); [now left | now symmetry].
    + apply IH; [assumption|]. intros y Hy. apply Hx. now right.
Qed.

Lemma payment_for_keyed (created : Z) (admission : Admission) (w : World) :
  keyed w -> keyed (snd (payment_for created admission w)).
Proof.
  intros [Hpk Hadm]. unfold payment_for.
  destruct (payment_by_admission (a_pk admission) w) eqn:E;
    [split; assumption|].
  cbn [create_payment snd]. unfold keyed. cbn [payments]. split.
  - apply NoDup_map_snoc; [assumption|].
    intros y Hy. apply next_pk_fresh in Hy. cbn [pk]. lia.
  - apply NoDup_map_snoc; [assumption|].
    intros y Hy. cbn [admission_id]. intros H.
    unfold payment_by_admission in E.
    apply (find_none _ _ E) in Hy. apply Z.eqb_neq in Hy. now elim Hy.
Qed.

Lemma save_start_keyed (p : Payment) (fs : list StartField) (w : World) :
  keyed w -> keyed (save_payment_start p fs w).
Proof.
  assert (H : forall A (col : Payment -> A),
             (forall r r', start_kept (pk r) r r' -> col r' = col r) ->
             map col (payments (save_payment_start p fs w))
             = map col (payments w)).
  { intros A col Hcol. cbn [save_payment_start payments].
    rewrite map_map. apply map_ext. intros row.
    destruct (pk row =? pk p); [|reflexivity].
    apply Hcol. apply (copy_start_kept (pk row)). reflexivity. }
  unfold keyed. rewrite (H _ pk), (H _ admission_id); [auto | |].
  - intros r r' K. apply K.
  - intros r r' K. apply K.
Qed.

(** X18. In a table with unique keys and at most one payment per
    admission, a [start_payment] request keeps both (the payment it
    creates gets a fresh key and an admission that had none), and it
    neither changes or removes a Paid payment nor makes one: the Paid
    rows after the request are those before it. *)
Theorem X18_start_keeps_paid
    (redirect : json -> exn + string)
    (py_repr : json -> string) (json_dumps json_dumps_compact : json -> string)
    (json_loads : string -> option json) (b64encode : string -> string)
    (settings : Settings) (gateway_settings : GatewaySettings)
    (env : StartEnv) (student : Student) (admission_key : Z) (w : World) :
  keyed w ->
  let w' := snd (fst (start_payment redirect py_repr json_dumps
      json_dumps_compact
                        json_loads b64encode settings gateway_settings env
                        student admission_key w)) in
  keyed w'
  /\ forall row, status row = PAID ->
       (In row (payments w') <-> In row (payments w)).
Proof.
  intros Hkeyed w'.
  destruct (find (fun a => a_pk a =? admission_key) (admissions w))
    as [admission|] eqn:Hfind.
  2:{ subst w'. unfold start_payment. rewrite Hfind. cbn [fst snd].
      split; [assumption | reflexivity]. }
  pose proof (start_payment_world redirect py_repr json_dumps json_dumps_compact
                json_loads b64encode settings gateway_settings env student
                admission_key w admission Hfind) as Hw.
  cbv zeta in Hw. fold w' in Hw.
  pose proof (payment_for_keyed (now_created_at env) admission w Hkeyed)
    as Hk1.
  destruct (payment_for_In (now_created_at env) admission w) as [Hin _].
  assert (H1 : forall row, status row = PAID ->
                 (In row (payments
                            (snd (payment_for (now_created_at env)
                                    admission w)))
                  <-> In row (payments w))).
  { intros row Hrow. unfold payment_for.
    destruct (payment_by_admission (a_pk admission) w); [reflexivity|].
    cbn [create_payment snd payments]. rewrite in_app_iff. split.
    - intros [H | [H | []]]; [assumption|].
      subst row. discriminate Hrow.
    - now left. }
  set (payment := fst (payment_for (now_created_at env) admission w)) in *.
  set (w1 := snd (payment_for (now_created_at env) admission w)) in *.
  destruct Hw as [Hw | [Hnp [p [fs [Hpk [Hst Hw]]]]]]; rewrite Hw.
  - split; assumption.
  - split; [now apply save_start_keyed|].
    intros row Hrow. rewrite <- (H1 row Hrow).
    cbn [save_payment_start payments]. rewrite in_map_iff. split.
    + intros [r [E Hr]]. destruct (pk r =? pk p) eqn:Ek.
      * apply Z.eqb_eq in Ek.
        assert (r = payment)
          by (apply (NoDup_map_eq pk (payments w1));
              [apply Hk1 | assumption | assumption | congruence]).
        subst r.
        destruct (copy_start_status p fs payment) as [H | H];
          rewrite E in H; congruence.
      * now subst row.
    + intros Hr. exists row. split; [|assumption].
      destruct (pk row =? pk p) eqn:Ek; [|reflexivity].
      apply Z.eqb_eq in Ek.
      assert (row = payment)
        by (apply (NoDup_map_eq pk (payments w1));
            [apply Hk1 | assumption | assumption | congruence]).
      subst row. now elim Hnp.
Qed.

(** X18 for a second start on the paid admission 42. *)
Lemma X18_witness :
  keyed (snd (fst (start_payment StartSample.redirect0 Sample.py_repr0
      Sample.json_dumps0
                     Sample.json_dumps0 StartSample.json_loads1
                     StartSample.b64encode0 Sample.settings0
                     StartSample.razorpay
                     (StartSample.env_at 3000
                        (Responded 200 StartSample.order_body))
                     StartSample.student0 42 Sample.w_rzp_paid))).
Proof.
  apply (X18_start_keeps_paid StartSample.redirect0 Sample.py_repr0
      Sample.json_dumps0
           Sample.json_dumps0 StartSample.json_loads1
           StartSample.b64encode0 Sample.settings0 StartSample.razorpay
           (StartSample.env_at 3000 (Responded 200 StartSample.order_body))
           StartSample.student0 42 Sample.w_rzp_paid).
  split; cbn; repeat constructor; intros [].
Defined.

(* ------------------------------------------------------------------ *)
(** ** From the order to the paid fee *)

Lemma start_razorpay_eq
    (redirect : json -> exn + string)
    (py_repr : json -> string) (json_dumps json_dumps_compact : json -> string)
    (json_loads : string -> option json) (b64encode : string -> string)
    (settings : Settings) (gateway_settings : GatewaySettings)
    (env : StartEnv) (student : Student) (admission_key : Z) (w : World)
    (admission : Admission) (code : Z) (response_body : string)
    (fields : list (string * json)) (oid : string) :
  find (fun a => a_pk a =? admission_key) (admissions w) = Some admission ->
  let payment := fst (payment_for (now_created_at env) admission w) in
  let w1 := snd (payment_for (now_created_at env) admission w) in
  status payment <> PAID ->
  0 < fee_amount admission ->
  PAYMENT_GATEWAY gateway_settings <> "PhonePe" ->
  online_payment_ready settings gateway_settings = true ->
  (forall request_obj, urlopen env request_obj = Responded code response_body)
      ->
  json_loads response_body = Some (JObj fields) ->
  char_field py_repr (item_or_blank "id" fields) = Ok oid ->
  snd (fst (start_payment redirect py_repr json_dumps json_dumps_compact
      json_loads
              b64encode settings gateway_settings env student admission_key
              w))
  = save_payment_start
      (set_status PENDING
         (set_method (Some ONLINE)
            (set_amount (fee_amount admission)
               (set_order_id oid (set_gateway (Some RAZORPAY) payment)))))
      [S_gateway; S_order_id; S_amount; S_method; S_status] w1.
Proof.
  intros Hfind payment w1 Hnp Hfee Hg Hready Hnet Hloads Hid.
  rewrite (start_payment_found _ _ _ _ _ _ _ _ _ _ _ _ _ Hfind).
  cbv zeta. fold payment w1.
  destruct (PaymentStatus_eqb (status payment) PAID) eqn:Hpaid;
    [apply PaymentStatus_eqb_eq in Hpaid; now elim Hnp|].
  apply Z.leb_gt in Hfee. rewrite Hfee.
  apply String.eqb_neq in Hg. rewrite Hg.
  rewrite (ready_razorpay _ _ Hg) in Hready.
  apply negb_true_iff in Hready. rewrite Hready.
  unfold _create_razorpay_order. cbn [fst snd].
  rewrite Hnet, Hloads. cbn [Py.get bind].
  fold (item_or_blank "id" fields). rewrite Hid. reflexivity.
Qed.

Lemma find_saved (l : list Payment) (payment p : Payment)
    (fs : list StartField) (oid : string) :
  NoDup (map pk l) -> In payment l -> pk p = pk payment ->
  (forall q, In q l -> order_id q = oid -> q = payment) ->
  order_id (fold_left (fun r f => copy_start_field f p r) fs payment) = oid ->
  find (fun q => String.eqb (order_id q) oid)
    (map (fun row =>
            if pk row =? pk p
            then fold_left (fun r f => copy_start_field f p r) fs row
            else row) l)
  = Some (fold_left (fun r f => copy_start_field f p r) fs payment).
Proof.
  intros Hnd Hin Hpk Honly Hoid.
  induction l as [|r l IH]; [destruct Hin|].
  cbn [map find].
  destruct (pk r =? pk p) eqn:Ek.
  - apply Z.eqb_eq in Ek.
    assert (r = payment)
      by (apply (NoDup_map_eq pk (r :: l));
          [assumption | now left | assumption | congruence]).
    subst r. rewrite Hoid, String.eqb_refl. reflexivity.
  - apply Z.eqb_neq in Ek.
    destruct (String.eqb (order_id r) oid) eqn:Eo.
    + apply String.eqb_eq in Eo.
      assert (r = payment) by (apply Honly; [now left | assumption]).
      subst r. now elim Ek.
    + apply IH.
      * now inversion Hnd.
      * destruct Hin as [-> | H]; [now elim Ek | assumption].
      * intros q Hq. apply Honly. now right.
Qed.

Lemma payment_verify_valid
    (settings : Settings) (env : Env) (request : VerifyRequest)
    (w : World) (payment : Payment) (P : Payment -> Prop) :
  payment_by_order_id (razorpay_order_id request) w = Some payment ->
  _verify_razorpay_signature (razorpay_order_id request)
    (razorpay_payment_id request) (razorpay_signature request)
    (RAZORPAY_KEY_SECRET settings) = Ok true ->
  (forall row t, P row -> P (set_notified_at t row)) ->
  (forall row, In row (payments w) -> pk row = pk payment ->
     P (set_paid_at (Some (now_paid_at env))
          (set_signature (razorpay_signature request)
             (set_payment_id (razorpay_payment_id request)
                (set_status PAID row))))) ->
  exists w',
    payment_verify settings env request w
    = ended (interrupted settings env payment)
        (Redirect (Route_admission_success (admission_id payment))
           Success "Payment successful.") w'
    /\ stored w' (pk payment) P
    /\ admissions w' = map (mark_admission payment) (admissions w).
Proof.
  intros Hfind Hsig Hnote HP.
  pose proof (payment_verify_valid_step settings env request w payment
                Hfind Hsig) as E. cbv zeta in E.
  apply payment_by_order_id_In in Hfind. destruct Hfind as [Hin _].
  eexists. split; [exact E|]. split.
  - apply notify_stored; [exact Hnote|].
    eapply stored_same_rows; [reflexivity|].
    apply stored_save_payment;
      [exists payment; now split | reflexivity |].
    intros row Hrow Hkey. specialize (HP row Hrow Hkey).
    destruct row. exact HP.
  - rewrite notify_admissions. reflexivity.
Qed.

Lemma payment_for_rows (created : Z) (admission : Admission) (w : World)
    (q : Payment) :
  In q (payments (snd (payment_for created admission w))) ->
  In q (payments w) \/ q = fst (payment_for created admission w).
Proof.
  unfold payment_for.
  destruct (payment_by_admission (a_pk admission) w); [now left|].
  cbn [create_payment fst snd payments]. rewrite in_app_iff.
  intros [H | [H | []]]; [now left | now right].
Qed.

(** X19. From the order to the paid fee. When [start_payment] has
    stored a new Razorpay order for an admission, in a table with
    unique keys, a redirect-verify for that order with a valid
    signature leaves the payment Paid with the fee as its amount, and
    the admission with fee status Paid and the whole fee paid. It is
    answered with the success message for this admission, unless a
    dispatch of the notification raises: then it ends with that
    exception, after these writes. *)
Theorem X19_order_then_verified_redirect
    (redirect : json -> exn + string)
    (py_repr : json -> string) (json_dumps json_dumps_compact : json -> string)
    (json_loads : string -> option json) (b64encode : string -> string)
    (settings : Settings) (gateway_settings : GatewaySettings)
    (env : StartEnv) (student : Student) (admission_key : Z) (w : World)
    (admission : Admission) (code : Z) (response_body : string)
    (fields : list (string * json)) (oid : string)
    (env2 : Env) (request : VerifyRequest) :
  keyed w ->
  find (fun a => a_pk a =? admission_key) (admissions w) = Some admission ->
  let payment := fst (payment_for (now_created_at env) admission w) in
  status payment <> PAID ->
  0 < fee_amount admission ->
  PAYMENT_GATEWAY gateway_settings <> "PhonePe" ->
  online_payment_ready settings gateway_settings = true ->
  (forall request_obj, urlopen env request_obj = Responded code response_body)
      ->
  json_loads response_body = Some (JObj fields) ->
  char_field py_repr (item_or_blank "id" fields) = Ok oid ->
  (forall q, In q (payments w) -> order_id q = oid -> pk q = pk payment) ->
  razorpay_order_id request = oid ->
  _verify_razorpay_signature oid (razorpay_payment_id request)
    (razorpay_signature request) (RAZORPAY_KEY_SECRET settings)
  = Ok true ->
  let w' := snd (fst (start_payment redirect py_repr json_dumps
      json_dumps_compact
                        json_loads b64encode settings gateway_settings env
                        student admission_key w)) in
  exists w'',
    payment_verify settings env2 request w'
    = (if interrupted settings env2 payment
       then RaiseAfter ReadError w''
       else Ok (Redirect (Route_admission_success admission_key) Success
                  "Payment successful.", w''))
    /\ stored w'' (pk payment)
         (fun row => status row = PAID
                     /\ amount row = fee_amount admission
                     /\ order_id row = oid
                     /\ paid_at row = Some (now_paid_at env2))
    /\ In (set_fee_paid (fee_amount admission)
             (set_fee_status Fee_PAID admission)) (admissions w'')
    /\ forall a, In a (admissions w'') -> a_pk a = admission_key ->
         fee_status a = Fee_PAID /\ fee_paid a = fee_amount admission.
Proof.
  intros Hkeyed Hfind payment Hnp Hfee Hg Hready Hnet Hloads Hid Hnew
    Hreq Hsig w'.
  pose proof (start_razorpay_eq redirect py_repr json_dumps json_dumps_compact
                json_loads b64encode settings gateway_settings env student
                admission_key w admission code response_body fields oid
                Hfind Hnp Hfee Hg Hready Hnet Hloads Hid) as Hw.
  fold w' payment in Hw.
  destruct (find_admission _ _ _ Hfind) as [Hina Hkey].
  pose proof (payment_for_keyed (now_created_at env) admission w Hkeyed)
    as Hk1.
  destruct (payment_for_In (now_created_at env) admission w) as [Hin Hadm].
  destruct (payment_for_admissions (now_created_at env) admission w)
    as [Ha _].
  assert (Honly : forall q,
             In q (payments (snd (payment_for (now_created_at env)
                                    admission w))) ->
             order_id q = oid -> q = payment).
  { intros q Hq Ho.
    destruct (payment_for_rows _ _ _ _ Hq) as [H | H]; [|exact H].
    apply (NoDup_map_eq pk
             (payments (snd (payment_for (now_created_at env)
                               admission w))));
      [apply Hk1 | assumption | assumption | now apply Hnew]. }
  fold payment in Hin, Hadm.
  set (w1 := snd (payment_for (now_created_at env) admission w)) in *.
  set (p := set_status PENDING
              (set_method (Some ONLINE)
                 (set_amount (fee_amount admission)
                    (set_order_id oid
                       (set_gateway (Some RAZORPAY) payment))))) in *.
  set (fs := [S_gateway; S_order_id; S_amount; S_method; S_status]) in *.
  set (row' := fold_left (fun r f => copy_start_field f p r) fs payment).
  assert (Hlook : payment_by_order_id (razorpay_order_id request) w'
                  = Some row').
  { rewrite Hreq, Hw. unfold payment_by_order_id.
    cbn [save_payment_start payments].
    apply find_saved; try assumption; [apply Hk1 | reflexivity..]. }
  assert (Hst : stored w' (pk p)
                  (fun row => amount row = fee_amount admission
                              /\ order_id row = oid)).
  { rewrite Hw. apply stored_save_start.
    - exists payment. split; [assumption | reflexivity].
    - intros row _ _. cbn. split; reflexivity. }
  rewrite <- Hreq in Hsig.
  destruct (payment_verify_valid settings env2 request w' row'
              (fun row => status row = PAID
                          /\ amount row = fee_amount admission
                          /\ order_id row = oid
                          /\ paid_at row = Some (now_paid_at env2))
              Hlook Hsig) as [w'' [E [Hs Hadms]]].
  - intros row t H. exact H.
  - intros row Hrow Hk. destruct Hst as [_ Hst].
    destruct (Hst row Hrow Hk) as [H1 H2]. cbn. repeat split; assumption.
  - exists w''. replace (admission_id row') with admission_key in E
      by (cbn; congruence).
    change (interrupted settings env2 row')
      with (interrupted settings env2 payment) in E.
    split; [exact E|]. split; [exact Hs|].
    assert (Hmark : forall a,
               mark_admission row' a
               = if a_pk a =? admission_key
                 then set_fee_paid (fee_amount admission)
                        (set_fee_status Fee_PAID a)
                 else a).
    { intros a. unfold mark_admission.
      replace (admission_id row') with admission_key by (cbn; congruence).
      reflexivity. }
    rewrite Hadms, Hw. cbn [save_payment_start admissions]. rewrite Ha.
    split.
    + apply in_map_iff. exists admission. split; [|assumption].
      rewrite Hmark, Hkey, Z.eqb_refl. reflexivity.
    + intros a Hin' Hk. apply in_map_iff in Hin'.
      destruct Hin' as [a0 [E0 _]]. rewrite Hmark in E0.
      destruct (a_pk a0 =? admission_key) eqn:Ek.
      * subst a. split; reflexivity.
      * subst a. apply Z.eqb_neq in Ek. now elim Ek.
Qed.

(** X19 for admission 42: the order order_N1 is stored by the start and
    paid by the signed redirect at time 2000. *)
Lemma X19_witness :
  exists w'',
    payment_verify Sample.settings0 (Sample.env_at 2000 Sample.up "")
      Sample.redirect_valid
      (snd (fst (start_payment StartSample.redirect0 Sample.py_repr0
          Sample.json_dumps0
                   Sample.json_dumps0 StartSample.json_loads1
                   StartSample.b64encode0 Sample.settings0
                   StartSample.razorpay
                   (StartSample.env_at 1000
                      (Responded 200 StartSample.order_body))
                   StartSample.student0 42 StartSample.w_new)))
    = Ok (Redirect (Route_admission_success 42) Success
            "Payment successful.", w'')
    /\ stored w'' 1
         (fun row => status row = PAID /\ amount row = 1500
                     /\ order_id row = "order_N1"
                     /\ paid_at row = Some 2000)
    /\ In (mkAdmission 42 1500 1500 Fee_PAID) (admissions w'').
Proof.
  destruct (X19_order_then_verified_redirect StartSample.redirect0
      Sample.py_repr0
              Sample.json_dumps0 Sample.json_dumps0 StartSample.json_loads1
              StartSample.b64encode0 Sample.settings0 StartSample.razorpay
              (StartSample.env_at 1000
                 (Responded 200 StartSample.order_body))
              StartSample.student0 42 StartSample.w_new Sample.admission0
              200 StartSample.order_body [("id", JStr "order_N1")]
              "order_N1" (Sample.env_at 2000 Sample.up "")
              Sample.redirect_valid)
    as [w'' [E [Hs [Ha _]]]].
  - split; cbn; repeat constructor; intros [].
  - reflexivity.
  - discriminate.
  - reflexivity.
  - discriminate.
  - reflexivity.
  - reflexivity.
  - reflexivity.
  - reflexivity.
  - intros q [<- | []] _. reflexivity.
  - reflexivity.
  - vm_compute. reflexivity.
  - exists w''. split; [exact E|]. split; [exact Hs | exact Ha].
Defined.

Lemma set_order_id_same (p : Payment) : set_order_id (order_id p) p = p.
Proof. destruct p. reflexivity. Qed.

Lemma phonepe_order_id_truthy (env : StartEnv) (admission : Admission)
    (payment : Payment) :
  PyStr.truthy (phonepe_order_id env admission payment) = true.
Proof.
  unfold phonepe_order_id.
  destruct (PyStr.truthy (order_id payment)) eqn:E; cbn [negb];
    [assumption | reflexivity].
Qed.

Lemma start_phonepe_eq
    (redirect : json -> exn + string)
    (py_repr : json -> string) (json_dumps json_dumps_compact : json -> string)
    (json_loads : string -> option json) (b64encode : string -> string)
    (settings : Settings) (gateway_settings : GatewaySettings)
    (env : StartEnv) (student : Student) (admission_key : Z) (w : World)
    (admission : Admission) (code : Z) (response_body : string)
    (response : json) :
  find (fun a => a_pk a =? admission_key) (admissions w) = Some admission ->
  let payment := fst (payment_for (now_created_at env) admission w) in
  let w1 := snd (payment_for (now_created_at env) admission w) in
  status payment <> PAID ->
  0 < fee_amount admission ->
  PAYMENT_GATEWAY gateway_settings = "PhonePe" ->
  online_payment_ready settings gateway_settings = true ->
  (forall request_obj, urlopen env request_obj = Responded code response_body)
      ->
  json_loads response_body = Some response ->
  snd (fst (start_payment redirect py_repr json_dumps json_dumps_compact
      json_loads
              b64encode settings gateway_settings env student admission_key
              w))
  = save_payment_start
      (set_gateway_response (json_dumps response)
         (set_status PENDING
            (set_method (Some ONLINE)
               (set_amount (fee_amount admission)
                  (set_gateway (Some PHONEPE)
                     (set_order_id
                        (phonepe_order_id env admission payment)
                        payment))))))
      [S_gateway; S_amount; S_method; S_status; S_order_id;
       S_gateway_response] w1.
Proof.
  intros Hfind payment w1 Hnp Hfee Hg Hready Hnet Hloads.
  rewrite (start_payment_found _ _ _ _ _ _ _ _ _ _ _ _ _ Hfind).
  cbv zeta. fold payment w1.
  destruct (PaymentStatus_eqb (status payment) PAID) eqn:Hpaid;
    [apply PaymentStatus_eqb_eq in Hpaid; now elim Hnp|].
  apply Z.leb_gt in Hfee. rewrite Hfee.
  rewrite (ready_phonepe _ _ Hg) in Hready.
  apply negb_true_iff in Hready.
  rewrite Hg. change (String.eqb "PhonePe" "PhonePe") with true. cbv iota.
  unfold _start_phonepe_payment, _get_phonepe_config. rewrite Hready.
  unfold _phonepe_post_request. rewrite Hnet, Hloads.
  assert (E : (if negb (PyStr.truthy (order_id payment))
               then set_order_id
                      ("ADM" ++ PyStr.of_Z (a_pk admission)
                       ++ PyStr.of_Z (time_time env)) payment
               else payment)
              = set_order_id (phonepe_order_id env admission payment)
                  payment).
  { unfold phonepe_order_id.
    destruct (negb (PyStr.truthy (order_id payment)));
      [reflexivity | now rewrite set_order_id_same]. }
  rewrite E.
  destruct (pay_page_url response) as [redirect_url | e | e w2];
    [destruct (Py.truthy redirect_url); cbn [negb];
     [destruct (redirect redirect_url)|]
    | destruct e | ]; reflexivity.
Qed.

Lemma find_saved_admission (l : list Payment) (payment p : Payment)
    (fs : list StartField) (key : Z) :
  NoDup (map pk l) -> NoDup (map admission_id l) -> In payment l ->
  pk p = pk payment -> admission_id payment = key ->
  find (fun q => admission_id q =? key)
    (map (fun row =>
            if pk row =? pk p
            then fold_left (fun r f => copy_start_field f p r) fs row
            else row) l)
  = Some (fold_left (fun r f => copy_start_field f p r) fs payment).
Proof.
  intros Hnd Hna Hin Hpk Hkey.
  induction l as [|r l IH]; [destruct Hin|].
  cbn [map find].
  destruct (pk r =? pk p) eqn:Ek.
  - apply Z.eqb_eq in Ek.
    assert (r = payment)
      by (apply (NoDup_map_eq pk (r :: l));
          [assumption | now left | assumption | congruence]).
    subst r.
    destruct (copy_start_kept (pk payment) p fs payment eq_refl)
      as [(_ & K & _) _].
    rewrite K, Hkey, Z.eqb_refl. reflexivity.
  - apply Z.eqb_neq in Ek.
    destruct (admission_id r =? key) eqn:Ea.
    + apply Z.eqb_eq in Ea.
      assert (r = payment)
        by (apply (NoDup_map_eq admission_id (r :: l));
            [assumption | now left | assumption | congruence]).
      subst r. now elim Ek.
    + apply IH.
      * now inversion Hnd.
      * now inversion Hna.
      * destruct Hin as [-> | H]; [now elim Ek | assumption].
Qed.

Lemma stored_key_columns (w w' : World) (key : Z) (P : Payment -> Prop) :
  map key_columns (payments w') = map key_columns (payments w) ->
  (forall r r', key_columns r' = key_columns r -> P r -> P r') ->
  stored w key P -> stored w' key P.
Proof.
  intros Hcols HP [[row [Hin Hk]] Hall].
  assert (Hback : forall r', In r' (payments w') ->
                    exists r, In r (payments w)
                              /\ key_columns r = key_columns r').
  { intros r' Hr'. apply (in_map key_columns) in Hr'.
    rewrite Hcols in Hr'. apply in_map_iff in Hr'.
    destruct Hr' as [r [E Hr]]. exists r. now split. }
  assert (Hforth : forall r, In r (payments w) ->
                     exists r', In r' (payments w')
                                /\ key_columns r' = key_columns r).
  { intros r Hr. apply (in_map key_columns) in Hr.
    rewrite <- Hcols in Hr. apply in_map_iff in Hr.
    destruct Hr as [r' [E Hr']]. exists r'. now split. }
  split.
  - destruct (Hforth row Hin) as [r' [Hr' E]].
    exists r'. split; [assumption|].
    unfold key_columns in E. congruence.
  - intros r' Hr' Hk'. destruct (Hback r' Hr') as [r [Hr E]].
    apply (HP r r'); [now symmetry|].
    apply Hall; [assumption|]. unfold key_columns in E. congruence.
Qed.

Lemma stored_and (w : World) (key : Z) (P Q : Payment -> Prop) :
  stored w key P -> stored w key Q -> stored w key (fun r => P r /\ Q r).
Proof. intros [Hex HP] [_ HQ]. split; [assumption | auto]. Qed.

(** X20. From the pay request to the paid fee. When [start_payment]
    has stored a PhonePe pay request for an admission, in a table with
    unique keys and one payment per admission, a status poll for the
    admission that the gateway answers with a Paid outcome leaves the
    payment Paid with the fee as its amount and the order id of the pay
    request, and the admission with fee status Paid and the whole fee
    paid. It is answered with the status-updated message, unless a
    dispatch of the notification raises: then it ends with that
    exception, after these writes. *)
Theorem X20_pay_request_then_poll
    (redirect : json -> exn + string)
    (py_repr : json -> string) (str_upper : string -> string)
    (json_dumps json_dumps_compact : json -> string)
    (json_loads : string -> option json) (b64encode : string -> string)
    (settings : Settings) (gateway_settings : GatewaySettings)
    (env : StartEnv) (student : Student) (admission_key : Z) (w : World)
    (admission : Admission) (http_code : Z) (response_body : string)
    (response : json) (env2 : Env) (decoded state code : json)
    (pid ref : string) :
  keyed w ->
  find (fun a => a_pk a =? admission_key) (admissions w) = Some admission ->
  let payment := fst (payment_for (now_created_at env) admission w) in
  status payment <> PAID ->
  0 < fee_amount admission ->
  PAYMENT_GATEWAY gateway_settings = "PhonePe" ->
  online_payment_ready settings gateway_settings = true ->
  (forall request_obj,
     urlopen env request_obj = Responded http_code response_body) ->
  json_loads response_body = Some response ->
  _phonepe_fetch_status json_loads settings env2
    (phonepe_order_id env admission payment) = Ok decoded ->
  decoded_fields py_repr decoded = Ok (state, code, pid, ref) ->
  _map_phonepe_status py_repr str_upper state code = PAID ->
  let w' := snd (fst (start_payment redirect py_repr json_dumps
      json_dumps_compact
                        json_loads b64encode settings gateway_settings env
                        student admission_key w)) in
  exists w'',
    phonepe_status_check py_repr str_upper json_dumps json_loads settings env2
      admission_key w'
    = (if interrupted settings env2 payment then RaiseAfter ReadError w''
       else Ok (Redirect (Route_admission_success admission_key) Info
                  "PhonePe status updated.", w''))
    /\ stored w'' (pk payment)
         (fun row => status row = PAID
                     /\ amount row = fee_amount admission
                     /\ order_id row
                        = phonepe_order_id env admission payment)
    /\ In (set_fee_paid (fee_amount admission)
             (set_fee_status Fee_PAID admission)) (admissions w'')
    /\ forall a, In a (admissions w'') -> a_pk a = admission_key ->
         fee_status a = Fee_PAID /\ fee_paid a = fee_amount admission.
Proof.
  intros Hkeyed Hfind payment Hnp Hfee Hg Hready Hnet Hloads Hfetch
    Hfields Hmap w'.
  pose proof (start_phonepe_eq redirect py_repr json_dumps json_dumps_compact
                json_loads b64encode settings gateway_settings env student
                admission_key w admission http_code response_body response
                Hfind Hnp Hfee Hg Hready Hnet Hloads) as Hw.
  fold w' payment in Hw.
  destruct (find_admission _ _ _ Hfind) as [Hina Hkey].
  pose proof (payment_for_keyed (now_created_at env) admission w Hkeyed)
    as Hk1.
  destruct (payment_for_In (now_created_at env) admission w) as [Hin Hadm].
  destruct (payment_for_admissions (now_created_at env) admission w)
    as [Ha _].
  fold payment in Hin, Hadm.
  set (w1 := snd (payment_for (now_created_at env) admission w)) in *.
  set (oid := phonepe_order_id env admission payment) in *.
  set (p := set_gateway_response (json_dumps response)
              (set_status PENDING
                 (set_method (Some ONLINE)
                    (set_amount (fee_amount admission)
                       (set_gateway (Some PHONEPE)
                          (set_order_id oid payment)))))) in *.
  set (fs := [S_gateway; S_amount; S_method; S_status; S_order_id;
              S_gateway_response]) in *.
  set (row' := fold_left (fun r f => copy_start_field f p r) fs payment).
  assert (Hlook : payment_by_admission admission_key w' = Some row').
  { rewrite Hw. unfold payment_by_admission.
    cbn [save_payment_start payments].
    apply find_saved_admission;
      [apply Hk1 | apply Hk1 | assumption | reflexivity | congruence]. }
  assert (Hin' : In row' (payments w')).
  { apply payment_by_admission_In in Hlook. apply Hlook. }
  assert (Hst : stored w' (pk payment)
                  (fun row => amount row = fee_amount admission
                              /\ order_id row = oid)).
  { rewrite Hw. apply (stored_save_start p fs w1).
    - exists payment. split; [assumption | reflexivity].
    - intros row _ _. cbn. split; reflexivity. }
  unfold phonepe_status_check. rewrite Hlook.
  replace (order_id row') with oid by reflexivity.
  unfold oid at 1. rewrite phonepe_order_id_truthy. cbn [negb].
  fold oid. rewrite Hfetch.
  rewrite (update_payment_paid _ _ _ _ _ _ _ _ _ _ _ _ Hfields Hmap).
  rewrite (bind_ended _ _ _
             (Redirect (Route_admission_success admission_key) Info
                "PhonePe status updated.")).
  change (interrupted settings env2 row')
    with (interrupted settings env2 payment).
  eexists. split; [reflexivity|].
  pose proof (paid_step_rows settings env2 pid ref (json_dumps decoded)
                row' w' Hin') as Hrows.
  pose proof (touched_paid settings env2
                (applied PAID pid ref (json_dumps decoded)
                   (now_paid_at env2) row') phonepe_fields w') as Ht.
  apply touched_key_columns in Ht. destruct Ht as [Hcols _].
  pose proof (paid_step_admissions settings env2 pid ref
                (json_dumps decoded) row' w') as Hadms.
  fold (paid_step settings env2 pid ref (json_dumps decoded) row' w')
    in Hcols.
  split; [|split].
  - replace (pk payment) with (pk row') in Hst |- * by reflexivity.
    apply (stored_key_columns _ _ _ _ Hcols) in Hst.
    + eapply stored_weaken; [|apply (stored_and _ _ _ _ Hrows Hst)].
      intros row [[H1 _] [H2 H3]]. repeat split; assumption.
    + intros r r' E [H1 H2]. unfold key_columns in E.
      split; congruence.
  - rewrite Hadms, Hw. cbn [save_payment_start admissions]. rewrite Ha.
    apply in_map_iff. exists admission. split; [|assumption].
    replace (admission_id row') with admission_key by (cbn; congruence).
    rewrite Hkey, Z.eqb_refl. reflexivity.
  - intros a Hin'' Hk. rewrite Hadms, Hw in Hin''.
    cbn [save_payment_start admissions] in Hin''. rewrite Ha in Hin''.
    apply in_map_iff in Hin''. destruct Hin'' as [a0 [E0 _]].
    replace (admission_id row') with admission_key in E0
      by (cbn; congruence).
    destruct (a_pk a0 =? admission_key) eqn:Ek.
    + subst a. split; reflexivity.
    + subst a. apply Z.eqb_neq in Ek. now elim Ek.
Qed.

(** X20 for admission 42: the pay request made at second 171700000001
    stores the order id ADM42171700000001, and the poll at time 2000 is
    answered COMPLETED. *)
Lemma X20_witness :
  exists w'',
    phonepe_status_check Sample.py_repr0 Sample.str_upper0 Sample.json_dumps0
      StartSample.json_loads1 Sample.settings0
      (Sample.env_at 2000 Sample.up Sample.b64_paid) 42
      (snd (fst (start_payment StartSample.redirect0 Sample.py_repr0
          Sample.json_dumps0
                   Sample.json_dumps0 StartSample.json_loads1
                   StartSample.b64encode0 Sample.settings0
                   StartSample.phonepe
                   (StartSample.env_at 171700000001
                      (Responded 200 StartSample.pay_body))
                   StartSample.student0 42 StartSample.w_new)))
    = Ok (Redirect (Route_admission_success 42) Info
            "PhonePe status updated.", w'')
    /\ stored w'' 1
         (fun row => status row = PAID /\ amount row = 1500
                     /\ order_id row = "ADM42171700000001")
    /\ In (mkAdmission 42 1500 1500 Fee_PAID) (admissions w'').
Proof.
  destruct (X20_pay_request_then_poll StartSample.redirect0 Sample.py_repr0
      Sample.str_upper0 Sample.json_dumps0
              Sample.json_dumps0 StartSample.json_loads1
              StartSample.b64encode0 Sample.settings0 StartSample.phonepe
              (StartSample.env_at 171700000001
                 (Responded 200 StartSample.pay_body))
              StartSample.student0 42 StartSample.w_new Sample.admission0
              200 StartSample.pay_body StartSample.pay_page
              (Sample.env_at 2000 Sample.up Sample.b64_paid)
              Sample.decoded_paid (JStr "COMPLETED") (JStr "") "T1" "U1")
    as [w'' [E [Hs [Ha _]]]].
  - split; cbn; repeat constructor; intros [].
  - reflexivity.
  - discriminate.
  - reflexivity.
  - reflexivity.
  - reflexivity.
  - reflexivity.
  - reflexivity.
  - reflexivity.
  - reflexivity.
  - reflexivity.
  - exists w''. split; [exact E|]. split; [exact Hs | exact Ha].
Defined.

(* ------------------------------------------------------------------ *)
(** ** Fees and seats *)

Lemma fold_max_fresh {A : Type} (f : A -> Z) (l : list A) (x : A) :
  In x l -> f x < 1 + fold_right Z.max 0 (map f l).
Proof.
  induction l as [|y l IH]; [intros []|].
  cbn [map fold_right]. intros [-> | H]; [lia|].
  specialize (IH H). lia.
Qed.

Lemma is_valid_cleaned (l : list Batch) (post : AdmissionPost)
    (cleaned_data : CleanedData) :
  is_valid l post = Some cleaned_data ->
  c_student_class cleaned_data = post_student_class post
  /\ c_medium cleaned_data = post_medium post
  /\ In (post_student_class post) ["11"; "12"]
  /\ In (post_medium post) ["Hindi"; "English"]
  /\ clean_batch_choice l (post_batch post) = Some (c_batch cleaned_data)
  /\ clean_batch (c_batch cleaned_data) = Some (c_batch cleaned_data)
  /\ clean (c_batch cleaned_data) (Some (post_medium post))
       (Some (post_student_class post)) = false.
Proof.
  unfold is_valid, clean_choice.
  destruct (PyStr.mem (post_student_class post) ["11"; "12"]) eqn:Hc;
    [|discriminate].
  destruct (PyStr.mem (post_medium post) ["Hindi"; "English"]) eqn:Hm;
    [|discriminate].
  apply mem_In in Hc, Hm.
  destruct (clean_batch_choice l (post_batch post)) as [chosen|];
    [|discriminate].
  destruct (clean_batch chosen) as [batch|] eqn:Hb; [|discriminate].
  assert (batch = chosen)
    by (unfold clean_batch in Hb; destruct chosen as [b|];
        [destruct (is_full b)|]; congruence).
  subst chosen.
  destruct (copied_fields_valid post); [|discriminate].
  destruct (clean batch (Some (post_medium post))
              (Some (post_student_class post))) eqn:Hclean;
    [discriminate|].
  cbn [andb negb]. intros [= <-]. cbn. repeat split; assumption.
Qed.

Lemma fee_on_offer (today : Z) (plan : FeePlan) :
  (if (today <=? offer_end_date plan) && (offer_fee plan <? original_fee plan)
   then offer_fee plan else original_fee plan) = fee_on today plan
  /\ ((today <=? offer_end_date plan) && (offer_fee plan <? original_fee plan)
      = true <-> fee_on today plan < original_fee plan)
  /\ fee_on today plan <= original_fee plan.
Proof.
  unfold fee_on.
  destruct (today <=? offer_end_date plan);
    destruct (offer_fee plan <? original_fee plan) eqn:E; cbn [andb];
    try apply Z.ltb_lt in E; try apply Z.ltb_ge in E;
    repeat split; try lia; try discriminate; intros; try lia.
Qed.

(** X21. A valid admission form whose class and medium have one fee
    plan is accepted with the fee of the day: the smaller of offer fee
    and original fee until the offer ends, the original fee after. The
    new admission has paid nothing and is Pending; the offer message is
    queued exactly when the fee is below the original fee, which is
    also when the home page for this class and medium shows the
    offer. *)
Theorem X21_admission_fee
    (today created : Z) (post : AdmissionPost) (o : Office)
    (cleaned_data : CleanedData) (plan : FeePlan) :
  is_valid (batches o) post = Some cleaned_data ->
  FeePlan_get (c_student_class cleaned_data) (c_medium cleaned_data)
    (fee_plans o) = Got plan ->
  exists target queued o' context,
    admission today created (Some post) o
    = Some (Admission_redirect target queued, o')
    /\ admissions (books o')
       = (admissions (books o)
          ++ [mkAdmission target (fee_on today plan) 0 Fee_PENDING])%list
    /\ fee_on today plan <= original_fee plan
    /\ (In (Info, "Offer fee applied for this admission.") queued
        <-> fee_on today plan < original_fee plan)
    /\ home today (Some (post_student_class post))
         (Some (post_medium post)) (batches o) (fee_plans o)
       = Some context
    /\ (show_offer context = true
        <-> fee_on today plan < original_fee plan).
Proof.
  intros Hvalid Hplan.
  destruct (is_valid_cleaned _ _ _ Hvalid) as (Hc & Hm & Hinc & Hinm & _).
  destruct (fee_on_offer today plan) as (Hfee & Hoffer & Hle).
  unfold admission. rewrite Hvalid, Hplan. cbv zeta. rewrite Hfee.
  unfold home. apply mem_In in Hinc, Hinm. rewrite Hinc, Hinm.
  rewrite <- Hc, <- Hm, Hplan.
  eexists. eexists. eexists. eexists.
  split; [reflexivity|]. split; [reflexivity|]. split; [exact Hle|].
  split; [|split; [reflexivity | exact Hoffer]].
  rewrite <- Hoffer.
  destruct ((today <=? offer_end_date plan)
            && (offer_fee plan <? original_fee plan)); cbn.
  - split; [reflexivity | intros _; right; now left].
  - split; [intros [H | []]; discriminate H | discriminate].
Qed.

(** X21 for class 12 and Hindi on day 50 of an offer that ends on day
    100: the fee is the offer fee 1500. *)
Lemma X21_witness :
  exists target queued o' context,
    admission 50 1000 (Some OfficeSample.post_morning) OfficeSample.office0
    = Some (Admission_redirect target queued, o')
    /\ admissions (books o') = [mkAdmission target 1500 0 Fee_PENDING]
    /\ 1500 <= 2000
    /\ (In (Info, "Offer fee applied for this admission.") queued
        <-> 1500 < 2000)
    /\ home 50 (Some "12") (Some "Hindi")
         (batches OfficeSample.office0) (fee_plans OfficeSample.office0)
       = Some context
    /\ (show_offer context = true <-> 1500 < 2000).
Proof.
  apply (X21_admission_fee 50 1000 OfficeSample.post_morning
           OfficeSample.office0
           (mkCleanedData "12" "Hindi" (Some OfficeSample.morning)
              "9876543210")
           OfficeSample.plan12).
  - reflexivity.
  - reflexivity.
Defined.

(** X22. [get_fee] quotes the offer fee until the offer ends, also when
    the offer fee is not below the original fee. It quotes the fee an
    admission of that day is charged exactly when the offer has ended
    or the offer fee is at most the original fee. *)
Theorem X22_get_fee_or_admission_fee
    (today : Z) (plans : list FeePlan) (student_class medium : string)
    (plan : FeePlan) :
  FeePlan_get student_class medium plans = Got plan ->
  exists fee offer,
    get_fee today plans student_class medium = Got (fee, offer)
    /\ (offer = true <-> today <= offer_end_date plan)
    /\ (offer = true -> fee = offer_fee plan)
    /\ (fee = fee_on today plan
        <-> offer_end_date plan < today
            \/ offer_fee plan <= original_fee plan).
Proof.
  intros Hplan. unfold get_fee, fee_on. rewrite Hplan.
  destruct (today <=? offer_end_date plan) eqn:E;
    [apply Z.leb_le in E | apply Z.leb_gt in E];
    eexists; eexists; (split; [reflexivity|]).
  - split; [tauto|]. split; [reflexivity|]. lia.
  - split; [split; [discriminate | lia]|].
    split; [discriminate|]. split; [now left | reflexivity].
Qed.

(** X22 for a plan whose offer fee 2500 is above its original fee
    2000: [get_fee] quotes 2500 on day 50. *)
Lemma X22_witness :
  exists fee offer,
    get_fee 50 [mkFeePlan "12" "Hindi" 2000 2500 100] "12" "Hindi"
    = Got (fee, offer)
    /\ (offer = true <-> 50 <= 100)
    /\ (offer = true -> fee = 2500)
    /\ (fee = fee_on 50 (mkFeePlan "12" "Hindi" 2000 2500 100)
        <-> 100 < 50 \/ 2500 <= 2000).
Proof.
  apply (X22_get_fee_or_admission_fee 50
           [mkFeePlan "12" "Hindi" 2000 2500 100] "12" "Hindi"
           (mkFeePlan "12" "Hindi" 2000 2500 100)).
  reflexivity.
Defined.

Lemma is_full_remaining (b : Batch) :
  is_full b = true <-> remaining_seats b = 0.
Proof.
  unfold is_full, remaining_seats. rewrite Z.leb_le. lia.
Qed.

Lemma admission_form_unchanged (today created : Z)
    (post : option AdmissionPost) (o o' : Office) :
  admission today created post o = Some (Admission_form, o') -> o' = o.
Proof.
  unfold admission. destruct post as [post|]; [|congruence].
  destruct (is_valid (batches o) post) as [cleaned_data|]; [|congruence].
  destruct (FeePlan_get (c_student_class cleaned_data)
              (c_medium cleaned_data) (fee_plans o)); discriminate.
Qed.

Lemma admission_accepted (today created : Z) (post : option AdmissionPost)
    (o o' : Office) (target : Z) (queued : list (Level * string)) :
  admission today created post o
  = Some (Admission_redirect target queued, o') ->
  exists p cleaned_data fee,
    post = Some p
    /\ is_valid (batches o) p = Some cleaned_data
    /\ target = 1 + fold_right Z.max 0 (map a_pk (admissions (books o)))
    /\ batches o'
       = match c_batch cleaned_data with
         | Some batch =>
             map (fun row =>
                    if b_pk row =? b_pk batch
                    then set_filled_seats (filled_seats batch + 1) row
                    else row) (batches o)
         | None => batches o
         end
    /\ books o'
       = snd (create_payment created
                (mkAdmission target fee 0 Fee_PENDING)
                (mkWorld (payments (books o))
                   (admissions (books o)
                    ++ [mkAdmission target fee 0 Fee_PENDING])%list
                   (log (books o)))).
Proof.
  unfold admission. destruct post as [p|]; [|discriminate].
  destruct (is_valid (batches o) p) as [cleaned_data|] eqn:Hvalid;
    [|discriminate].
  destruct (FeePlan_get (c_student_class cleaned_data)
              (c_medium cleaned_data) (fee_plans o));
    [| |discriminate]; cbv zeta; intros [= <- _ <-];
    (eexists; exists cleaned_data; eexists; split; [reflexivity|];
     split; [exact Hvalid|]; split; [reflexivity|];
     split; reflexivity).
Qed.

(** X23. The admission view keeps the seat counts within bounds: with
    unique batch keys and no batch over its seats before a request,
    the same holds after it. A request that shows the form again writes
    nothing, and a form that chooses a full batch is shown again. An
    admission into a batch fills one seat of that batch and leaves
    every other batch as it was. *)
Theorem X23_admission_keeps_seats
    (today created : Z) (post : option AdmissionPost) (o o' : Office)
    (response : AdmissionResponse) :
  seats_kept (batches o) ->
  admission today created post o = Some (response, o') ->
  seats_kept (batches o')
  /\ (response = Admission_form -> o' = o)
  /\ forall p key batch,
       post = Some p -> post_batch p = Some key ->
       In batch (batches o) -> b_pk batch = key ->
       (is_full batch = true -> response = Admission_form)
       /\ (response <> Admission_form ->
           In (set_filled_seats (filled_seats batch + 1) batch) (batches o')
           /\ forall other, In other (batches o) -> b_pk other <> key ->
                In other (batches o')).
Proof.
  intros [Hnd Hseats] Hrun.
  assert (Hform : response = Admission_form -> o' = o).
  { intros ->. now apply (admission_form_unchanged today created post). }
  destruct response as [|target queued].
  { rewrite (Hform eq_refl). split; [now split|]. split; [auto|].
    intros p key batch _ _ _ _. split; [reflexivity | intros H; now elim H]. }
  destruct (admission_accepted _ _ _ _ _ _ _ Hrun)
    as (p & cleaned_data & fee & -> & Hvalid & _ & Hb & _).
  destruct (is_valid_cleaned _ _ _ Hvalid)
    as (_ & _ & _ & _ & Hchoice & Hclean & _).
  assert (Hchosen : forall key batch,
             post_batch p = Some key -> In batch (batches o) ->
             b_pk batch = key ->
             c_batch cleaned_data = Some batch /\ is_full batch = false).
  { intros key batch Hkey Hin Hpk.
    unfold clean_batch_choice in Hchoice. rewrite Hkey in Hchoice.
    destruct (find (fun b => b_pk b =? key) (batches o)) as [found|] eqn:E;
      [|discriminate].
    injection Hchoice as Hchoice.
    apply find_some in E. destruct E as [Hfin Hfk].
    apply Z.eqb_eq in Hfk.
    assert (found = batch)
      by (apply (NoDup_map_eq b_pk (batches o));
          [assumption | assumption | assumption | congruence]).
    subst found. split; [now symmetry|].
    rewrite <- Hchoice in Hclean. unfold clean_batch in Hclean.
    destruct (is_full batch); [discriminate | reflexivity]. }
  split; [|split; [discriminate|]].
  - rewrite Hb. destruct (c_batch cleaned_data) as [batch|] eqn:Ec;
      [|now split].
    assert (Hbatch : In batch (batches o) /\ is_full batch = false).
    { unfold clean_batch_choice in Hchoice.
      destruct (post_batch p) as [key|]; [|discriminate].
      destruct (find (fun b => b_pk b =? key) (batches o)) as [found|] eqn:E;
        [|discriminate].
      injection Hchoice as ->. apply find_some in E.
      destruct E as [Hin Hk]. apply Z.eqb_eq in Hk.
      split; [assumption|]. now apply (Hchosen key). }
    destruct Hbatch as [Hin Hfull]. split.
    + rewrite map_map.
      erewrite map_ext; [exact Hnd|].
      intros row. cbn beta. destruct (b_pk row =? b_pk batch); reflexivity.
    + apply Forall_forall. intros row' Hrow'.
      apply in_map_iff in Hrow'. destruct Hrow' as [row [E Hrow]].
      rewrite Forall_forall in Hseats.
      destruct (b_pk row =? b_pk batch) eqn:Ek.
      * apply Z.eqb_eq in Ek.
        assert (row = batch)
          by (apply (NoDup_map_eq b_pk (batches o)); assumption).
        subst row row'. cbn [set_filled_seats filled_seats total_seats].
        unfold is_full in Hfull. apply Z.leb_gt in Hfull. lia.
      * subst row'. now apply Hseats.
  - intros p0 key batch [= <-] Hkey Hin Hpk.
    destruct (Hchosen key batch Hkey Hin Hpk) as [Ec Hfull].
    split; [congruence|]. intros _. rewrite Hb, Ec. split.
    + apply in_map_iff. exists batch. split; [|assumption].
      now rewrite Z.eqb_refl.
    + intros other Hother Hne. apply in_map_iff. exists other.
      split; [|assumption].
      destruct (b_pk other =? b_pk batch) eqn:Ek; [|reflexivity].
      apply Z.eqb_eq in Ek. congruence.
Qed.

(** X23 for an admission into the morning batch, which has one of its
    two seats filled. *)
Lemma X23_witness :
  admission 50 1000 (Some OfficeSample.post_morning) OfficeSample.office0
  = Some (Admission_redirect 1
            [(Success, "Admission submitted successfully.");
             (Info, "Offer fee applied for this admission.")],
          OfficeSample.office1)
  /\ seats_kept (batches OfficeSample.office1).
Proof.
  split; [reflexivity|].
  apply (X23_admission_keeps_seats 50 1000
           (Some OfficeSample.post_morning) OfficeSample.office0
           OfficeSample.office1
           (Admission_redirect 1
              [(Success, "Admission submitted successfully.");
               (Info, "Offer fee applied for this admission.")])).
  - split; cbn.
    + repeat constructor; cbn; intuition discriminate.
    + repeat constructor; cbn; lia.
  - reflexivity.
Defined.

Lemma fold_remaining (l : list Batch) (start : Z) :
  0 <= start ->
  start <= fold_left (fun total batch => total + remaining_seats batch)
             l start
  /\ (fold_left (fun total batch => total + remaining_seats batch) l start
      = start <-> forall b, In b l -> remaining_seats b = 0).
Proof.
  revert start. induction l as [|b l IH]; intros start Hs; cbn [fold_left].
  - split; [lia|]. split; [intros _ b [] | reflexivity].
  - assert (Hr : 0 <= remaining_seats b)
      by (unfold remaining_seats; lia).
    destruct (IH (start + remaining_seats b)) as [Hle Hiff]; [lia|].
    split; [lia|]. split.
    + intros E. assert (remaining_seats b = 0) by lia.
      intros b' [<- | Hb']; [assumption|].
      apply Hiff; [lia | assumption].
    + intros Hall. assert (H0 : remaining_seats b = 0)
        by (apply Hall; now left).
      rewrite H0 in *. rewrite Z.add_0_r in *.
      apply Hiff. intros b' Hb'. apply Hall. now right.
Qed.

(** X24. The home page shows class 11 or 12 and medium Hindi or English
    whatever the query string asks for: the class and the medium asked
    for when they are among these, and class 12 and Hindi otherwise.
    Its count of remaining seats is never negative, also when a batch
    has more seats filled than it has, and it is zero exactly when
    every batch of the class and medium shown is full. *)
Theorem X24_home_remaining_seats
    (today : Z) (class_param medium_param : option string)
    (l : list Batch) (plans : list FeePlan) (context : HomeContext) :
  home today class_param medium_param l plans = Some context ->
  In (selected_class context) ["11"; "12"]
  /\ In (selected_medium context) ["Hindi"; "English"]
  /\ 0 <= total_remaining context
  /\ (total_remaining context = 0
      <-> forall b, In b l ->
            b_student_class b = selected_class context ->
            b_medium b = selected_medium context ->
            is_full b = true)
  /\ selected_class context
     = match class_param with
       | Some v => if PyStr.mem v ["11"; "12"] then v else "12"
       | None => "12"
       end
  /\ selected_medium context
     = match medium_param with
       | Some v => if PyStr.mem v ["Hindi"; "English"] then v else "Hindi"
       | None => "Hindi"
       end.
Proof.
  unfold home.
  set (sc := if PyStr.mem match class_param with
                          | Some v => v | None => "12" end ["11"; "12"]
             then match class_param with Some v => v | None => "12" end
             else "12").
  set (sm := if PyStr.mem match medium_param with
                          | Some v => v | None => "Hindi" end
                  ["Hindi"; "English"]
             then match medium_param with Some v => v | None => "Hindi" end
             else "Hindi").
  assert (Hsc : In sc ["11"; "12"]).
  { subst sc. destruct (PyStr.mem _ ["11"; "12"]) eqn:E.
    - now apply mem_In in E.
    - right. now left. }
  assert (Hsm : In sm ["Hindi"; "English"]).
  { subst sm. destruct (PyStr.mem _ ["Hindi"; "English"]) eqn:E.
    - now apply mem_In in E.
    - now left. }
  set (shown := filter (fun batch =>
                          String.eqb (b_student_class batch) sc
                          && String.eqb (b_medium batch) sm) l).
  destruct (fold_remaining shown 0 (Z.le_refl 0)) as [Hle Hiff].
  assert (Hall : (forall b, In b shown -> remaining_seats b = 0)
                 <-> forall b, In b l -> b_student_class b = sc ->
                       b_medium b = sm -> is_full b = true).
  { subst shown. split.
    - intros H b Hb Hc Hm. apply is_full_remaining. apply H.
      apply filter_In. split; [assumption|].
      rewrite Hc, Hm, !String.eqb_refl. reflexivity.
    - intros H b Hb. apply filter_In in Hb. destruct Hb as [Hb Hcm].
      apply andb_true_iff in Hcm. destruct Hcm as [Hc Hm].
      apply String.eqb_eq in Hc, Hm.
      apply is_full_remaining. now apply H. }
  destruct (FeePlan_get sc sm plans); [| |discriminate];
    intros [= <-]; cbn [selected_class selected_medium total_remaining];
    (split; [assumption|]; split; [assumption|]; split; [assumption|]);
    (split; [rewrite <- Hall; exact Hiff|]);
    (split; [subst sc; destruct class_param; reflexivity
            | subst sm; destruct medium_param; reflexivity]).
Qed.

(** X24 for a query string that asks for class 10: class 12 is shown,
    with the one seat left in its two Hindi batches. *)
Lemma X24_witness :
  exists context,
    home 50 (Some "10") None [OfficeSample.morning; OfficeSample.evening]
      [OfficeSample.plan12] = Some context
    /\ In (selected_class context) ["11"; "12"]
    /\ 0 <= total_remaining context.
Proof.
  eexists. split; [reflexivity|].
  destruct (X24_home_remaining_seats 50 (Some "10") None
              [OfficeSample.morning; OfficeSample.evening]
              [OfficeSample.plan12]
              (mkHomeContext false "12" "Hindi" true true 1) eq_refl)
    as (H1 & _ & H3 & _).
  split; [exact H1 | exact H3].
Defined.

(* ------------------------------------------------------------------ *)
(** ** The payment an admission starts with *)

Lemma create_payment_sound (created : Z) (admission : Admission)
    (w : World) :
  sound w -> owned w ->
  (forall a, In a (admissions w) -> a_pk a < a_pk admission) ->
  fee_status admission = Fee_PENDING ->
  let w' :=
    snd (create_payment created admission
           (mkWorld (payments w) (admissions w ++ [admission])%list
              (log w))) in
  sound w' /\ owned w'.
Proof.
  intros [[Hpk Hadm] Hcons] Hown Hfresh Hpending w'.
  assert (Hother : forall p, In p (payments w) ->
                     admission_id p <> a_pk admission).
  { intros p Hp E. destruct (Hown p Hp) as [a [Ha Hk]].
    specialize (Hfresh a Ha). lia. }
  subst w'. cbn [create_payment snd]. split; [split|].
  - unfold keyed. cbn [payments]. split.
    + apply NoDup_map_snoc; [assumption|].
      intros y Hy. cbn [pk]. unfold next_pk. cbn [payments].
      pose proof (fold_max_fresh pk (payments w) y Hy). lia.
    + apply NoDup_map_snoc; [assumption|].
      intros y Hy. cbn [admission_id]. now apply Hother.
  - unfold consistent. cbn [payments admissions].
    intros p a Hp Ha Hk.
    apply in_app_iff in Hp. apply in_app_iff in Ha.
    destruct Hp as [Hp | [<- | []]]; destruct Ha as [Ha | [<- | []]].
    + now apply Hcons.
    + symmetry in Hk. now apply Hother in Hk.
    + cbn [admission_id] in Hk. specialize (Hfresh a Ha). lia.
    + cbn [status amount]. split; [discriminate | congruence].
  - unfold owned. cbn [payments admissions]. intros p Hp.
    apply in_app_iff in Hp. destruct Hp as [Hp | [<- | []]].
    + destruct (Hown p Hp) as [a [Ha Hk]]. exists a.
      split; [apply in_or_app; now left | assumption].
    + exists admission. split; [apply in_or_app; right; now left|].
      reflexivity.
Qed.

Lemma find_snoc {A : Type} (f : A -> bool) (l : list A) (x : A) :
  (forall y, In y l -> f y = false) -> f x = true ->
  find f (l ++ [x]) = Some x.
Proof.
  intros Hl Hx. induction l as [|y l IH]; cbn [app find].
  - now rewrite Hx.
  - rewrite (Hl y (or_introl eq_refl)). apply IH.
    intros z Hz. apply Hl. now right.
Qed.

(** X25. An admission starts with its payment: when the books are
    sound (unique keys, one payment per admission, a Paid payment
    matched by a fee-Paid admission) and every payment belongs to an
    admission, they are so after an admission, and the new admission
    has paid nothing, is Pending and has a Pending payment without a
    time of payment whose amount is the admission's fee. This is the
    payment [start_payment] works on, which creates none. *)
Theorem X25_admission_opens_payment
    (today created : Z) (post : option AdmissionPost) (o o' : Office)
    (target : Z) (queued : list (Level * string)) :
  sound (books o) -> owned (books o) ->
  admission today created post o
  = Some (Admission_redirect target queued, o') ->
  sound (books o') /\ owned (books o')
  /\ exists admission payment,
       find (fun a => a_pk a =? target) (admissions (books o'))
       = Some admission
       /\ fee_paid admission = 0 /\ fee_status admission = Fee_PENDING
       /\ status payment = PENDING /\ paid_at payment = None
       /\ amount payment = fee_amount admission
       /\ forall now,
            payment_for now admission (books o') = (payment, books o').
Proof.
  intros Hsound Hown Hrun.
  destruct (admission_accepted _ _ _ _ _ _ _ Hrun)
    as (p & cleaned_data & fee & _ & _ & Htarget & _ & Hbooks).
  set (admission := mkAdmission target fee 0 Fee_PENDING) in *.
  assert (Hfresh : forall a, In a (admissions (books o)) ->
                     a_pk a < a_pk admission).
  { intros a Ha. cbn [admission a_pk]. rewrite Htarget.
    apply (fold_max_fresh a_pk _ a Ha). }
  destruct (create_payment_sound created admission (books o) Hsound Hown
              Hfresh eq_refl) as [Hs Ho].
  cbv zeta in Hs, Ho. rewrite <- Hbooks in Hs, Ho.
  split; [assumption|]. split; [assumption|].
  exists admission. eexists.
  split.
  { rewrite Hbooks. cbn [create_payment snd admissions].
    apply find_snoc.
    - intros a Ha. apply Z.eqb_neq. specialize (Hfresh a Ha).
      cbn [admission a_pk] in Hfresh. lia.
    - apply Z.eqb_refl. }
  split; [reflexivity|]. split; [reflexivity|].
  assert (Hlook : payment_by_admission target (books o')
                  = Some (fst (create_payment created admission
                                 (mkWorld (payments (books o))
                                    (admissions (books o) ++ [admission])
                                    (log (books o)))))).
  { rewrite Hbooks. unfold payment_by_admission.
    cbn [create_payment fst snd payments].
    apply find_snoc.
    - intros q Hq. apply Z.eqb_neq. intros E.
      destruct (Hown q Hq) as [a [Ha Hk]].
      specialize (Hfresh a Ha). cbn [admission a_pk] in Hfresh. lia.
    - apply Z.eqb_refl. }
  split; [|split; [|split]].
  4:{ intros now. unfold payment_for. cbn [admission a_pk].
      rewrite Hlook. reflexivity. }
  all: reflexivity.
Qed.

(** X25 for the first admission of the office. *)
Lemma X25_witness :
  admission 50 1000 (Some OfficeSample.post_morning) OfficeSample.office0
  = Some (Admission_redirect 1
            [(Success, "Admission submitted successfully.");
             (Info, "Offer fee applied for this admission.")],
          OfficeSample.office1)
  /\ sound (books OfficeSample.office1)
  /\ owned (books OfficeSample.office1).
Proof.
  split; [reflexivity|].
  destruct (X25_admission_opens_payment 50 1000
              (Some OfficeSample.post_morning) OfficeSample.office0
              OfficeSample.office1 1
              [(Success, "Admission submitted successfully.");
               (Info, "Offer fee applied for this admission.")])
    as (Hs & Ho & _).
  - split; [split; constructor | intros p a []].
  - intros p [].
  - reflexivity.
  - split; [exact Hs | exact Ho].
Defined.

(* ------------------------------------------------------------------ *)
(** ** The two PhonePe entry points side by side *)

(** X26. With callback verification switched off in the settings the
    [X-VERIFY] header of a callback plays no part: requests with the
    same body are answered alike and leave the same state, whatever
    header they carry or lack. *)
Theorem X26_unverified_callback_ignores_header
    (py_repr : json -> string) (str_upper : string -> string)
    (json_dumps : json -> string)
    (json_loads : string -> option json)
    (b64decode_utf8 : string -> option string)
    (settings : Settings) (env : Env) (request : CallbackRequest)
    (header : option string) (w : World) :
  PHONEPE_VERIFY_CALLBACK settings = false ->
  phonepe_callback py_repr str_upper json_dumps json_loads b64decode_utf8
      settings
    env (mkCallbackRequest (body request) header) w
  = phonepe_callback py_repr str_upper json_dumps json_loads b64decode_utf8
      settings
      env request w.
Proof.
  intros Hoff. unfold phonepe_callback, callback_envelope.
  rewrite Hoff. reflexivity.
Qed.

(** X26 for the Paid callback of the examples sent without its header
    to a site that has verification switched off: it is applied. *)
Lemma X26_witness :
  phonepe_callback Sample.py_repr0 Sample.str_upper0 Sample.json_dumps0
      Sample.json_loads0
    Sample.b64decode_utf8_0
    (mkSettings "rzp-secret" "MERCHANT1" "salt-key-1" "1"
       "https://api.phonepe.example" false true
       "twilio" "AC0001" "twilio-token" "+15005550006" "" "" "")
    (Sample.env_at 2000 Sample.up "")
    (mkCallbackRequest (body Sample.callback_paid) None) Sample.w0
  = phonepe_callback Sample.py_repr0 Sample.str_upper0 Sample.json_dumps0
      Sample.json_loads0
      Sample.b64decode_utf8_0
      (mkSettings "rzp-secret" "MERCHANT1" "salt-key-1" "1"
         "https://api.phonepe.example" false true
         "twilio" "AC0001" "twilio-token" "+15005550006" "" "" "")
      (Sample.env_at 2000 Sample.up "") Sample.callback_paid Sample.w0.
Proof.
  apply (X26_unverified_callback_ignores_header Sample.py_repr0
      Sample.str_upper0
           Sample.json_dumps0 Sample.json_loads0 Sample.b64decode_utf8_0
           (mkSettings "rzp-secret" "MERCHANT1" "salt-key-1" "1"
              "https://api.phonepe.example" false true
              "twilio" "AC0001" "twilio-token" "+15005550006" "" "" "")
           (Sample.env_at 2000 Sample.up "") Sample.callback_paid None
           Sample.w0).
  reflexivity.
Defined.

(** X27. The poll applies the answer of the gateway to the payment of
    the admission polled, whatever transaction the answer names: no
    part of the poll compares the answer with the payment's order id.
    An answer whose fields can be read leaves that payment with the
    mapped status. And a callback that brings the same payload to the
    same payment reconciles alike: both end in the same exception with
    the same state, or the callback answers OK, the poll answers with
    the status-updated message, and the states they leave are equal. *)
Theorem X27_poll_and_callback_agree
    (py_repr : json -> string) (str_upper : string -> string)
    (json_dumps : json -> string)
    (json_loads : string -> option json)
    (b64decode_utf8 : string -> option string)
    (settings : Settings) (env : Env)
    (admission_key : Z) (w : World) (decoded : json)
    (payment : Payment) :
  payment_by_admission admission_key w = Some payment ->
  order_id payment <> "" ->
  _phonepe_fetch_status json_loads settings env (order_id payment)
  = Ok decoded ->
  phonepe_status_check py_repr str_upper json_dumps json_loads settings env
    admission_key w
  = (updated <- _update_payment_from_phonepe py_repr str_upper json_dumps
                  settings env payment decoded w ;;
     Ok (Redirect (Route_admission_success admission_key) Info
           "PhonePe status updated.", snd updated))
  /\ (forall state code pid ref,
        decoded_fields py_repr decoded = Ok (state, code, pid, ref) ->
        exists w',
          phonepe_status_check py_repr str_upper json_dumps json_loads
            settings env admission_key w
          = ended (PaymentStatus_eqb
                     (_map_phonepe_status py_repr str_upper state code) PAID
                   && interrupted settings env payment)
              (Redirect (Route_admission_success admission_key) Info
                 "PhonePe status updated.") w'
          /\ stored w' (pk payment)
               (fun row =>
                  status row
                  = _map_phonepe_status py_repr str_upper state code
                  /\ gateway_response row = json_dumps decoded))
  /\ (forall request merchant_txn_id,
        callback_envelope py_repr json_loads b64decode_utf8 settings request
        = Ok (inr (merchant_txn_id, decoded)) ->
        payment_by_order_id (py_str py_repr merchant_txn_id) w
        = Some payment ->
        match phonepe_callback py_repr str_upper json_dumps json_loads
                b64decode_utf8 settings env request w,
              phonepe_status_check py_repr str_upper json_dumps json_loads
                settings env admission_key w with
        | Ok (answer1, w1), Ok (answer2, w2) =>
            answer1 = HttpResponse "OK" 200
            /\ answer2 = Redirect (Route_admission_success admission_key)
                           Info "PhonePe status updated."
            /\ w1 = w2
        | Raise e1, Raise e2 => e1 = e2
        | RaiseAfter e1 w1, RaiseAfter e2 w2 => e1 = e2 /\ w1 = w2
        | _, _ => False
        end).
Proof.
  intros Hby_admission Horder Hfetch.
  assert (Hpoll :
            phonepe_status_check py_repr str_upper json_dumps json_loads
              settings env admission_key w
            = (updated <- _update_payment_from_phonepe py_repr str_upper
                            json_dumps settings env payment decoded w ;;
               Ok (Redirect (Route_admission_success admission_key) Info
                     "PhonePe status updated.", snd updated))).
  { unfold phonepe_status_check. rewrite Hby_admission.
    apply truthy_nonempty in Horder. rewrite Horder. cbn [negb].
    rewrite Hfetch. reflexivity. }
  split; [exact Hpoll|]. split.
  - intros state code pid ref Hfields. rewrite Hpoll.
    apply payment_by_admission_In in Hby_admission.
    destruct Hby_admission as [Hin _].
    rewrite (update_payment_unfold py_repr str_upper json_dumps settings env
               payment decoded w state code pid ref Hfields).
    cbv zeta.
    set (st := _map_phonepe_status py_repr str_upper state code).
    set (p1 := applied st pid ref (json_dumps decoded) (now_paid_at env)
                 payment).
    assert (Hst : stored (save_payment p1 phonepe_fields w) (pk payment)
                    (fun row => status row = st
                                /\ gateway_response row = json_dumps decoded)).
    { eapply stored_weaken; [|apply stored_applied; exact Hin].
      cbn beta. intros row H. split; apply H. }
    destruct (PaymentStatus_eqb st PAID) eqn:E; cbn [andb].
    + rewrite notify_ended, bind_ended.
      assert (Hi : interrupted settings env p1
                   = interrupted settings env payment).
      { unfold interrupted, p1, applied. rewrite E. reflexivity. }
      rewrite Hi. eexists. split; [reflexivity|].
      apply notify_stored; [intros row t H; exact H|].
      eapply stored_same_rows; [|exact Hst]. reflexivity.
    + cbn [bind ended snd]. eexists. split; [reflexivity | exact Hst].
  - intros request merchant_txn_id Henv Hby_order. rewrite Hpoll.
    unfold phonepe_callback. rewrite Henv. cbn [bind]. rewrite Hby_order.
    destruct (_update_payment_from_phonepe py_repr str_upper json_dumps
                settings env payment decoded w)
      as [[payment' w'] | e | e w'];
      cbn [bind snd]; auto.
Qed.

(** X27 for a poll of admission 42, whose payment carries the order id
    order_N1, that is answered with the COMPLETED payload of the
    transaction ADM42171700000001: the payment of order_N1 is made
    Paid. *)
Lemma X27_witness :
  order_id Sample.payment_rzp = "order_N1"
  /\ Sample.decoded_paid
     = JObj [("data",
              JObj [("merchantTransactionId", JStr "ADM42171700000001");
                    ("state", JStr "COMPLETED");
                    ("transactionId", JStr "T1");
                    ("utr", JStr "U1")])]
  /\ exists w',
       phonepe_status_check Sample.py_repr0 Sample.str_upper0
         Sample.json_dumps0 Sample.json_loads0 Sample.settings0
         (Sample.env_at 2000 Sample.up Sample.b64_paid) 42 Sample.w_rzp
       = Ok (Redirect (Route_admission_success 42) Info
               "PhonePe status updated.", w')
       /\ stored w' 1
            (fun row => status row = PAID
                        /\ gateway_response row = "<json>").
Proof.
  split; [reflexivity|]. split; [reflexivity|].
  destruct (X27_poll_and_callback_agree Sample.py_repr0 Sample.str_upper0
              Sample.json_dumps0 Sample.json_loads0 Sample.b64decode_utf8_0
              Sample.settings0
              (Sample.env_at 2000 Sample.up Sample.b64_paid)
              42 Sample.w_rzp Sample.decoded_paid Sample.payment_rzp)
    as [_ [H _]].
  - reflexivity.
  - discriminate.
  - reflexivity.
  - exact (H (JStr "COMPLETED") (JStr "") "T1" "U1" eq_refl).
Defined.
